(** * kimai-mcp: the API client and the timesheet summary of [server.py]

    A shallow embedding of the parts of [server.py] that carry the
    request/error-normalisation contract of [KimaiClient.request], the
    output cap [truncate_if_needed], and the aggregation performed by the
    [get_timesheet_summary] branch of [call_tool], followed by the
    properties established about them. The aggregation is given twice:
    [Summary] works on entries whose fields have the types of a time
    entry, [RawSummary] on whatever the response decodes to, and the two
    agree on a page of time entries. The other branches of [call_tool],
    the markdown formatters, [get_client] and the script
    [test_connection.py] are embedded as well, with properties of their
    own at the end of the file.

    Conventions of the embedding.
    - A Python [str] is a [string], one element per character, so that
      lengths and slices are those of Python. An ASCII character is the
      element of its code. A character outside ASCII is an element with
      a code from 128 on: those of the source's literals are named in
      the module [Glyph], and like every printable character [repr]
      leaves them as they are.
    - A Python [int] is a [Z].
    - A Python [float] is an IEEE 754 binary64 number, [spec_float] with
      precision 53 and maximal exponent 1024, rounded to nearest even.
    - A Python [dict] is an association list in insertion order.
    - A raised exception is the [Raise] case of [result]. *)

From Stdlib Require Import ZArith List String Ascii Bool Lia.
From Stdlib Require Import DecimalString DecimalZ SpecFloat Permutation Sorted.
Import ListNotations.

Set Warnings "-register-all".

Open Scope string_scope.
Open Scope Z_scope.

(* ================================================================== *)
(** ** Python strings *)
(* ================================================================== *)

Module PyStr.

(** [str(z)] for an [int]. *)
Definition str_of_Z (z : Z) : string :=
  NilEmpty.string_of_int (Z.to_int z).

(** [sep.join(parts)]. *)
Fixpoint join (sep : string) (parts : list string) : string :=
  match parts with
  | [] => ""
  | [p] => p
  | p :: rest => p ++ sep ++ join sep rest
  end.

(** [needle in hay]. *)
Fixpoint contains (needle hay : string) : bool :=
  prefix needle hay ||
  match hay with
  | EmptyString => false
  | String _ rest => contains needle rest
  end.

(** [s.endswith(suffix)], as a proposition. *)
Definition EndsWith (suffix s : string) : Prop :=
  exists front, s = front ++ suffix.

(** [s[:k]] for any integer [k]: a negative bound counts from the end. *)
Definition slice_to (s : string) (k : Z) : string :=
  let n := Z.of_nat (String.length s) in
  let stop := if k <? 0 then Z.max 0 (n + k) else Z.min k n in
  substring 0 (Z.to_nat stop) s.

(** [s.rstrip(c)] for a single character [c]. *)
Fixpoint rstrip (c : ascii) (s : string) : string :=
  match s with
  | EmptyString => EmptyString
  | String a rest =>
      match rstrip c rest with
      | EmptyString => if Ascii.eqb a c then EmptyString else String a EmptyString
      | r => String a r
      end
  end.

(** [s.zfill(width)] for a string of digits. *)
Definition zfill (width : nat) (s : string) : string :=
  string_of_list_ascii (repeat "0"%char (width - String.length s)) ++ s.

Definition hex_digit (n : N) : ascii :=
  match n with
  | 0%N => "0" | 1%N => "1" | 2%N => "2" | 3%N => "3" | 4%N => "4"
  | 5%N => "5" | 6%N => "6" | 7%N => "7" | 8%N => "8" | 9%N => "9"
  | 10%N => "a" | 11%N => "b" | 12%N => "c" | 13%N => "d" | 14%N => "e"
  | _ => "f"
  end%char.

(** One character of [repr(s)], with [q] the chosen quote. *)
Definition repr_char (q : ascii) (c : ascii) : string :=
  let n := N_of_ascii c in
  if Ascii.eqb c q then String "\" (String c "")
  else if Ascii.eqb c "\" then "\\"
  else if (n =? 9)%N then "\t"
  else if (n =? 10)%N then "\n"
  else if (n =? 13)%N then "\r"
  else if ((n <? 32) || (n =? 127))%N then
    String "\" (String "x" (String (hex_digit (n / 16)) (String (hex_digit (n mod 16)) "")))
  else String c "".

Fixpoint has_char (c : ascii) (s : string) : bool :=
  match s with
  | EmptyString => false
  | String a rest => Ascii.eqb a c || has_char c rest
  end.

Fixpoint escape (q : ascii) (s : string) : string :=
  match s with
  | EmptyString => EmptyString
  | String c rest => repr_char q c ++ escape q rest
  end.

Definition dquote : ascii := ascii_of_N 34.

(** The line feed, written [\n] in the source's literals. *)
Definition nl : string := String (ascii_of_N 10) EmptyString.

(** [repr(s)] for a [str]: single quotes, unless the text holds a single
    quote and no double quote. *)
Definition repr_str (s : string) : string :=
  let q := if has_char "'" s && negb (has_char dquote s) then dquote else "'"%char in
  String q (escape q s ++ String q "").

End PyStr.

(** The characters outside ASCII that the literals of the source use.
    Each is one element of a string, with a code from 128 on; the
    comment names the character it stands for. *)
Module Glyph.

Definition of_code (n : N) : string := String (ascii_of_N n) EmptyString.

(** U+2713, the check mark. *)
Definition check_mark : string := of_code 128.
(** U+274C, the cross mark. *)
Definition cross_mark : string := of_code 129.
(** U+2705, the white heavy check mark. *)
Definition white_check_mark : string := of_code 130.
(** U+23F1, the stopwatch. *)
Definition stopwatch_sign : string := of_code 131.
(** U+FE0F, the variation selector that asks for the emoji form. *)
Definition variation_selector : string := of_code 132.
(** U+20E3, the combining enclosing keycap. *)
Definition enclosing_keycap : string := of_code 133.
(** U+1F50D, the magnifying glass. *)
Definition magnifying_glass : string := of_code 134.
(** U+1F4CD, the round pushpin. *)
Definition round_pushpin : string := of_code 135.
(** U+1F511, the key. *)
Definition key_sign : string := of_code 136.

(** The stopwatch emoji and the keycap that follows a digit: two
    characters each. *)
Definition stopwatch : string := stopwatch_sign ++ variation_selector.
Definition keycap : string := variation_selector ++ enclosing_keycap.

End Glyph.

(* ================================================================== *)
(** ** Exceptions and fallible computations *)
(* ================================================================== *)

(** The exception classes that the modelled code can raise, each with the
    text that [str(e)] returns. [Exception] is the plain class raised by
    [KimaiClient.request]. *)
Inductive exn : Type :=
| Exception (msg : string)
| JSONDecodeError (msg : string)
| AttributeError (msg : string)
| TypeError (msg : string)
| ZeroDivisionError (msg : string)
| OverflowError (msg : string).

Definition exn_str (e : exn) : string :=
  match e with
  | Exception m | JSONDecodeError m | AttributeError m
  | TypeError m | ZeroDivisionError m | OverflowError m => m
  end.

Inductive result (A : Type) : Type :=
| Ok (a : A)
| Raise (e : exn).

Arguments Ok {A} a.
Arguments Raise {A} e.

Definition bind {A B : Type} (c : result A) (k : A -> result B) : result B :=
  match c with
  | Ok a => k a
  | Raise e => Raise e
  end.

Declare Scope py_scope.
Delimit Scope py_scope with py.
Notation "x <- c ;; k" := (bind c (fun x => k))
  (at level 61, c at next level, right associativity) : py_scope.
Open Scope py_scope.

(** Runs [f] over a list from left to right and stops at the first
    exception, as a [for] loop or a comprehension does. *)
Fixpoint mapM {A B : Type} (f : A -> result B) (l : list A) : result (list B) :=
  match l with
  | [] => Ok []
  | a :: rest => b <- f a ;; bs <- mapM f rest ;; Ok (b :: bs)
  end.

(* ================================================================== *)
(** ** Python values decoded from JSON *)
(* ================================================================== *)

(** What [response.json()] can return. JSON numbers are the integers: no
    property below reads a fractional field of a payload. *)
Inductive value : Type :=
| VNone
| VBool (b : bool)
| VInt (z : Z)
| VStr (s : string)
| VList (items : list value)
| VDict (d : list (string * value)).

Module Py.
Import PyStr.

(** [type(v).__name__]. *)
Definition type_name (v : value) : string :=
  match v with
  | VNone => "NoneType"
  | VBool _ => "bool"
  | VInt _ => "int"
  | VStr _ => "str"
  | VList _ => "list"
  | VDict _ => "dict"
  end.

(** [repr(v)]. *)
Fixpoint repr (v : value) : string :=
  match v with
  | VNone => "None"
  | VBool true => "True"
  | VBool false => "False"
  | VInt z => str_of_Z z
  | VStr s => repr_str s
  | VList items => "[" ++ join ", " (map repr items) ++ "]"
  | VDict d =>
      "{" ++ join ", " (map (fun kv => repr_str (fst kv) ++ ": " ++ repr (snd kv)) d) ++ "}"
  end.

(** [str(v)], which is also what an f-string field [{v}] renders. *)
Definition str (v : value) : string :=
  match v with
  | VStr s => s
  | _ => repr v
  end.

(** Truth value of [v], as tested by [if v] and [not v]. *)
Definition truthy (v : value) : bool :=
  match v with
  | VNone => false
  | VBool b => b
  | VInt z => negb (z =? 0)
  | VStr s => negb (String.eqb s EmptyString)
  | VList items => match items with [] => false | _ => true end
  | VDict d => match d with [] => false | _ => true end
  end.

(** Lookup in the association list of a [dict]. *)
Fixpoint lookup (key : string) (d : list (string * value)) : option value :=
  match d with
  | [] => None
  | (k, v) :: rest => if String.eqb k key then Some v else lookup key rest
  end.

Definition no_get (v : value) : exn :=
  AttributeError ("'" ++ type_name v ++ "' object has no attribute 'get'").

(** [v.get(key)]: [None] when the key is absent. *)
Definition get (v : value) (key : string) : result value :=
  match v with
  | VDict d => Ok (match lookup key d with Some x => x | None => VNone end)
  | _ => Raise (no_get v)
  end.

(** [v.get(key, default)]. *)
Definition get_default (v : value) (key : string) (default : value) : result value :=
  match v with
  | VDict d => Ok (match lookup key d with Some x => x | None => default end)
  | _ => Raise (no_get v)
  end.

Definition chars (s : string) : list value :=
  map (fun c => VStr (String c EmptyString)) (list_ascii_of_string s).

(** The items that [for x in v] visits. *)
Definition iter (v : value) : result (list value) :=
  match v with
  | VList items => Ok items
  | VDict d => Ok (map (fun kv => VStr (fst kv)) d)
  | VStr s => Ok (chars s)
  | _ => Raise (TypeError ("'" ++ type_name v ++ "' object is not iterable"))
  end.

(** [len(v)]. *)
Definition len (v : value) : result Z :=
  match v with
  | VList items => Ok (Z.of_nat (List.length items))
  | VDict d => Ok (Z.of_nat (List.length d))
  | VStr s => Ok (Z.of_nat (String.length s))
  | _ => Raise (TypeError ("object of type '" ++ type_name v ++ "' has no len()"))
  end.

(** The integer that arithmetic sees in [v]: a [bool] counts as 0 or 1. *)
Definition as_int (v : value) : option Z :=
  match v with
  | VInt z => Some z
  | VBool b => Some (if b then 1 else 0)
  | _ => None
  end.

(** [acc + v] for an integer [acc]. *)
Definition add_int (acc : Z) (v : value) : result Z :=
  match as_int v with
  | Some z => Ok (acc + z)
  | None =>
      Raise (TypeError ("unsupported operand type(s) for +: 'int' and '"
                        ++ type_name v ++ "'"))
  end.

(** [sep.join(v)]: every item must be a [str]. *)
Fixpoint join_items (i : Z) (vs : list value) : result (list string) :=
  match vs with
  | [] => Ok []
  | VStr s :: rest => ss <- join_items (i + 1) rest ;; Ok (s :: ss)
  | v :: _ =>
      Raise (TypeError ("sequence item " ++ str_of_Z i ++ ": expected str instance, "
                        ++ type_name v ++ " found"))
  end.

Definition join_value (sep : string) (v : value) : result string :=
  match v with
  | VList _ | VDict _ | VStr _ =>
      items <- iter v ;; ss <- join_items 0 items ;; Ok (join sep ss)
  | _ => Raise (TypeError "can only join an iterable")
  end.

End Py.

(* ================================================================== *)
(** ** Python floats *)
(* ================================================================== *)

Module PyFloat.
Import PyStr.

Definition prec : Z := 53.
Definition emax : Z := 1024.

Definition float : Type := spec_float.

Definition zero : float := S754_zero false.

(** [float(z)]. *)
Definition of_Z (z : Z) : float := binary_normalize prec emax z 0 false.

Definition sub (x y : float) : float := SFsub prec emax x y.
Definition add (x y : float) : float := SFadd prec emax x y.
Definition mul (x y : float) : float := SFmul prec emax x y.

(** [x == y] and [x > y] on floats. *)
Definition eqb (x y : float) : bool := SFeqb x y.
Definition gtb (x y : float) : bool := SFltb y x.

Definition is_zero (x : float) : bool :=
  match x with
  | S754_zero _ => true
  | _ => false
  end.

(** [a / b] on two [int]s: the quotient rounded once, to the nearest
    float. The quotient is first cut to at least 56 significant bits and
    a sticky bit records a non-zero remainder, so that the single
    rounding of [binary_round] sees on which side of a midpoint it lies. *)
Definition int_truediv (a b : Z) : result float :=
  if b =? 0 then Raise (ZeroDivisionError "division by zero")
  else if a =? 0 then Ok (S754_zero (b <? 0))
  else
    let sign := xorb (a <? 0) (b <? 0) in
    let n := Z.abs a in
    let d := Z.abs b in
    let k := Z.max 0 (56 + Z.log2 d - Z.log2 n) in
    let q := (n * 2 ^ k) / d in
    let sticky := if (n * 2 ^ k) mod d =? 0 then 0 else 1 in
    match binary_round prec emax sign (Z.to_pos (2 * q + sticky)) (- k - 1) with
    | S754_infinity _ =>
        Raise (OverflowError "integer division result too large for a float")
    | f => Ok f
    end.

(** [x / y] on two floats. *)
Definition truediv (x y : float) : result float :=
  if is_zero y then Raise (ZeroDivisionError "float division by zero")
  else Ok (SFdiv prec emax x y).

(** The integer nearest to [n / d], ties to even, for [0 < d]. *)
Definition round_half_even (n d : Z) : Z :=
  let q := n / d in
  let r := n mod d in
  match 2 * r ?= d with
  | Lt => q
  | Gt => q + 1
  | Eq => if Z.even q then q else q + 1
  end.

(** The magnitude of [m * 2^e] in units of [10^-digits], rounded to the
    nearest integer, ties to even: the digits that [%.<digits>f] prints. *)
Definition scaled (digits : nat) (m : positive) (e : Z) : Z :=
  let p := 10 ^ Z.of_nat digits in
  if 0 <=? e then Z.pos m * 2 ^ e * p
  else round_half_even (Z.pos m * p) (2 ^ (- e)).

Definition fixed (digits : nat) (negative : bool) (q : Z) : string :=
  let p := 10 ^ Z.of_nat digits in
  (if negative then "-" else "") ++ str_of_Z (q / p) ++ "."
  ++ zfill digits (str_of_Z (q mod p)).

(** [format(x, '.<digits>f')] for [1 <= digits]. *)
Definition format_f (digits : nat) (x : float) : string :=
  match x with
  | S754_nan => "nan"
  | S754_infinity s => if s then "-inf" else "inf"
  | S754_zero s => fixed digits s 0
  | S754_finite s m e => fixed digits s (scaled digits m e)
  end.

(** [round(x, digits)]: the float nearest to the decimal that
    [format_f digits x] prints. *)
Definition round (digits : nat) (x : float) : result float :=
  match x with
  | S754_finite s m e =>
      let q := scaled digits m e in
      if q =? 0 then Ok (S754_zero s)
      else
        match int_truediv (cond_Zopp s q) (10 ^ Z.of_nat digits) with
        | Raise (OverflowError _) =>
            Raise (OverflowError "rounded value too large to represent")
        | r => r
        end
  | _ => Ok x
  end.

End PyFloat.

(** A number as an f-string field can receive it: the conditional
    expressions of the summary yield a float or the integer literal 0. *)
Inductive number : Type :=
| NInt (z : Z)
| NFloat (f : PyFloat.float).

(** [format(n, '.<digits>f')]: an [int] is converted to a float first. *)
Definition format_number (digits : nat) (n : number) : string :=
  match n with
  | NInt z => PyFloat.format_f digits (PyFloat.of_Z z)
  | NFloat f => PyFloat.format_f digits f
  end.

(* ================================================================== *)
(** ** [urllib.parse.urljoin] *)
(* ================================================================== *)

(** The standard library's URL resolution, for URLs without control
    characters or bracketed hosts (the checks that raise [ValueError]
    are left out). *)
Module Urllib.

Definition uses_relative : list string :=
  [""; "ftp"; "http"; "gopher"; "nntp"; "imap"; "wais"; "file"; "https";
   "shttp"; "mms"; "prospero"; "rtsp"; "rtsps"; "rtspu"; "sftp"; "svn";
   "svn+ssh"; "ws"; "wss"].

Definition uses_netloc : list string :=
  [""; "ftp"; "http"; "gopher"; "nntp"; "telnet"; "imap"; "wais"; "file";
   "mms"; "https"; "shttp"; "snews"; "prospero"; "rtsp"; "rtsps"; "rtspu";
   "rsync"; "svn"; "svn+ssh"; "sftp"; "nfs"; "git"; "git+ssh"; "ws"; "wss";
   "itms-services"].

Definition uses_params : list string :=
  [""; "ftp"; "hdl"; "prospero"; "http"; "imap"; "https"; "shttp"; "rtsp";
   "rtsps"; "rtspu"; "sip"; "sips"; "mms"; "sftp"; "tel"].

Definition mem (s : string) (l : list string) : bool :=
  existsb (String.eqb s) l.

Definition is_empty (s : string) : bool :=
  match s with
  | EmptyString => true
  | _ => false
  end.

(** [s.split(c, 1)] when [c] occurs in [s]. *)
Fixpoint cut (c : ascii) (s : string) : option (string * string) :=
  match s with
  | EmptyString => None
  | String a rest =>
      if Ascii.eqb a c then Some (EmptyString, rest)
      else
        match cut c rest with
        | Some (l, r) => Some (String a l, r)
        | None => None
        end
  end.

(** [s.split(c)]. *)
Fixpoint split (c : ascii) (s : string) : list string :=
  match s with
  | EmptyString => [EmptyString]
  | String a rest =>
      if Ascii.eqb a c then EmptyString :: split c rest
      else
        match split c rest with
        | h :: t => String a h :: t
        | [] => [String a EmptyString]
        end
  end.

Definition is_alpha (c : ascii) : bool :=
  let n := N_of_ascii c in
  ((65 <=? n) && (n <=? 90) || (97 <=? n) && (n <=? 122))%N.

Definition is_scheme_char (c : ascii) : bool :=
  let n := N_of_ascii c in
  (is_alpha c || (48 <=? n) && (n <=? 57) || (n =? 43) || (n =? 45) || (n =? 46))%N.

Definition lower_char (c : ascii) : ascii :=
  let n := N_of_ascii c in
  if ((65 <=? n) && (n <=? 90))%N then ascii_of_N (n + 32) else c.

Fixpoint lower (s : string) : string :=
  match s with
  | EmptyString => EmptyString
  | String c rest => String (lower_char c) (lower rest)
  end.

Fixpoint all_chars (p : ascii -> bool) (s : string) : bool :=
  match s with
  | EmptyString => true
  | String c rest => p c && all_chars p rest
  end.

Record SplitResult : Type := {
  sr_scheme : string;
  sr_netloc : string;
  sr_path : string;
  sr_query : string;
  sr_fragment : string
}.

Record ParseResult : Type := {
  scheme : string;
  netloc : string;
  path : string;
  params : string;
  query : string;
  fragment : string
}.

(** The network location ends at the first of the characters /, ? and #. *)
Fixpoint splitnetloc (s : string) : string * string :=
  match s with
  | EmptyString => (EmptyString, EmptyString)
  | String c rest =>
      if Ascii.eqb c "/" || Ascii.eqb c "?" || Ascii.eqb c "#"
      then (EmptyString, s)
      else let (n, r) := splitnetloc rest in (String c n, r)
  end.

Definition urlsplit (url default_scheme : string) : SplitResult :=
  let (sch, url1) :=
    match cut ":" url with
    | Some (String c0 front, back) =>
        if is_alpha c0 && all_chars is_scheme_char front
        then (lower (String c0 front), back)
        else (default_scheme, url)
    | _ => (default_scheme, url)
    end in
  let (loc, url2) :=
    if prefix "//" url1
    then splitnetloc (substring 2 (String.length url1 - 2) url1)
    else (EmptyString, url1) in
  let (url3, frag) :=
    match cut "#" url2 with
    | Some (l, r) => (l, r)
    | None => (url2, EmptyString)
    end in
  let (url4, qry) :=
    match cut "?" url3 with
    | Some (l, r) => (l, r)
    | None => (url3, EmptyString)
    end in
  {| sr_scheme := sch; sr_netloc := loc; sr_path := url4;
     sr_query := qry; sr_fragment := frag |}.

(** Parameters follow the first semicolon of the last path segment. *)
Definition splitparams (url : string) : string * string :=
  let segs := split "/" url in
  let last_seg := last segs EmptyString in
  match cut ";" last_seg with
  | Some (l, r) =>
      (substring 0 (String.length url - String.length last_seg) url ++ l, r)
  | None => (url, EmptyString)
  end.

Definition urlparse (url default_scheme : string) : ParseResult :=
  let s := urlsplit url default_scheme in
  let (p, prm) :=
    if mem (sr_scheme s) uses_params && PyStr.has_char ";" (sr_path s)
    then splitparams (sr_path s)
    else (sr_path s, EmptyString) in
  {| scheme := sr_scheme s; netloc := sr_netloc s; path := p;
     params := prm; query := sr_query s; fragment := sr_fragment s |}.

Definition urlunsplit (s : SplitResult) : string :=
  let url :=
    if negb (is_empty (sr_netloc s))
       || (negb (is_empty (sr_scheme s)) && mem (sr_scheme s) uses_netloc
           && negb (prefix "//" (sr_path s)))
    then
      let p := if negb (is_empty (sr_path s)) && negb (prefix "/" (sr_path s))
               then "/" ++ sr_path s else sr_path s in
      "//" ++ sr_netloc s ++ p
    else sr_path s in
  let url := if is_empty (sr_scheme s) then url else sr_scheme s ++ ":" ++ url in
  let url := if is_empty (sr_query s) then url else url ++ "?" ++ sr_query s in
  if is_empty (sr_fragment s) then url else url ++ "#" ++ sr_fragment s.

Definition urlunparse (p : ParseResult) : string :=
  let url := if is_empty (params p) then path p else path p ++ ";" ++ params p in
  urlunsplit {| sr_scheme := scheme p; sr_netloc := netloc p; sr_path := url;
                sr_query := query p; sr_fragment := fragment p |}.

(** The loop of [urljoin] that removes the dot segments. *)
Fixpoint resolve (segments : list string) (resolved : list string) : list string :=
  match segments with
  | [] => resolved
  | seg :: rest =>
      if String.eqb seg ".." then resolve rest (removelast resolved)
      else if String.eqb seg "." then resolve rest resolved
      else resolve rest (resolved ++ [seg])%list
  end.

(** [segments[1:-1] = filter(None, segments[1:-1])]. *)
Definition drop_inner_empty (segments : list string) : list string :=
  match segments with
  | first :: (_ :: _) as rest =>
      (first :: filter (fun s => negb (is_empty s)) (removelast rest)
             ++ [last rest EmptyString])%list
  | _ => segments
  end.

Definition urljoin (base url : string) : string :=
  if is_empty base then url
  else if is_empty url then base
  else
    let b := urlparse base EmptyString in
    let u := urlparse url (scheme b) in
    if negb (String.eqb (scheme u) (scheme b)) || negb (mem (scheme u) uses_relative)
    then url
    else if mem (scheme u) uses_netloc && negb (is_empty (netloc u))
    then urlunparse u
    else
      let loc := if mem (scheme u) uses_netloc then netloc b else netloc u in
      if is_empty (path u) && is_empty (params u)
      then urlunparse {| scheme := scheme u; netloc := loc; path := path b;
                         params := params b;
                         query := if is_empty (query u) then query b else query u;
                         fragment := fragment u |}
      else
        let base_parts := split "/" (path b) in
        let base_parts :=
          if is_empty (last base_parts EmptyString) then base_parts
          else removelast base_parts in
        let segments :=
          if prefix "/" (path u) then split "/" (path u)
          else drop_inner_empty (base_parts ++ split "/" (path u))%list in
        let resolved := resolve segments [] in
        let last_seg := last segments EmptyString in
        let resolved :=
          if String.eqb last_seg "." || String.eqb last_seg ".."
          then (resolved ++ [EmptyString])%list else resolved in
        let joined := PyStr.join "/" resolved in
        urlunparse {| scheme := scheme u; netloc := loc;
                      path := if is_empty joined then "/" else joined;
                      params := params u; query := query u;
                      fragment := fragment u |}.

End Urllib.

(* ================================================================== *)
(** ** The HTTP transport *)
(* ================================================================== *)

(** What the client hands to [httpx] and what it gets back. The remote
    side is a function of the requests received so far and of the current
    one; [sent] below is the log of the requests issued. *)
Module Httpx.

Record Request : Type := {
  method : string;
  url : string;
  headers : list (string * string);
  params : option (list (string * value));
  json : option value
}.

(** [json_body] is what [response.json()] does: the decoded body, or
    the decoder's exception. *)
Record Response : Type := {
  status_code : Z;
  content : string;
  text : string;
  json_body : result value
}.

(** A round trip ends with a response or with an [httpx.RequestError]
    (connection failure, timeout), whose [str] is kept. *)
Inductive Outcome : Type :=
| Responded (response : Response)
| RequestError (msg : string).

Definition Remote : Type := list Request -> Request -> Outcome.

(** [response.raise_for_status()] raises unless the status is 2xx. *)
Definition is_success (response : Response) : bool :=
  (200 <=? status_code response) && (status_code response <=? 299).

End Httpx.

(** Computations that talk to the remote: they read the remote's
    behaviour and extend the log of requests. *)
Definition IO (A : Type) : Type :=
  Httpx.Remote -> list Httpx.Request -> result A * list Httpx.Request.

Definition ret {A : Type} (a : A) : IO A :=
  fun _ sent => (Ok a, sent).

Definition lift {A : Type} (c : result A) : IO A :=
  fun _ sent => (c, sent).

Definition bindIO {A B : Type} (c : IO A) (k : A -> IO B) : IO B :=
  fun remote sent =>
    match c remote sent with
    | (Ok a, sent') => k a remote sent'
    | (Raise e, sent') => (Raise e, sent')
    end.

Notation "x <~ c ;; k" := (bindIO c (fun x => k))
  (at level 61, c at next level, right associativity) : py_scope.

(** [try: x = c except Exception: x = h], for a handler that cannot
    fail. *)
Definition try_except {A : Type} (c : result A) (h : A) : A :=
  match c with
  | Ok a => a
  | Raise _ => h
  end.

(* ================================================================== *)
(** ** API client *)
(* ================================================================== *)

Module KimaiConfig.
Record t : Type := {
  base_url : string;
  api_token : string
}.
End KimaiConfig.

Module KimaiClient.
Import PyStr.

Record t : Type := {
  base_url : string;
  headers : list (string * string)
}.

(** [KimaiClient.__init__]. *)
Definition init (config : KimaiConfig.t) : t :=
  {| base_url := rstrip "/" (KimaiConfig.base_url config);
     headers := [("Authorization", "Bearer " ++ KimaiConfig.api_token config);
                 ("Accept", "application/json");
                 ("Content-Type", "application/json")] |}.

(** The URL that [request] computes for an endpoint. *)
Definition request_url (self : t) (endpoint : string) : string :=
  Urllib.urljoin (base_url self) ("/api/" ++ endpoint).

Definition success_marker : value := VDict [("success", VBool true)].

(** The handler of [httpx.HTTPStatusError]: the detail is the [message]
    field of a JSON object, the object's [str] when it has no such field,
    and the raw text when the body is not JSON or is not an object. *)
Definition error_detail (response : Httpx.Response) : value :=
  try_except
    (error_data <- Httpx.json_body response ;;
     Py.get_default error_data "message" (VStr (Py.str error_data)))
    (VStr (Httpx.text response)).

Definition status_error (response : Httpx.Response) : exn :=
  Exception ("KIMAI API error (" ++ str_of_Z (Httpx.status_code response) ++ "): "
             ++ Py.str (error_detail response) ++ ". "
             ++ "Please check your request parameters and try again.").

Definition network_error (self : t) (msg : string) : exn :=
  Exception ("Network error connecting to KIMAI: " ++ msg ++ ". "
             ++ "Please verify the KIMAI instance URL (" ++ base_url self
             ++ ") is correct and accessible.").

(** The body of the [try] block once the response is there. *)
Definition on_response (response : Httpx.Response) : result value :=
  if Httpx.is_success response then
    if (Httpx.status_code response =? 204)
       || Urllib.is_empty (Httpx.content response)
    then Ok success_marker
    else Httpx.json_body response
  else Raise (status_error response).

Definition build_request (self : t) (method endpoint : string)
    (params : option (list (string * value))) (json_data : option value)
  : Httpx.Request :=
  {| Httpx.method := method;
     Httpx.url := request_url self endpoint;
     Httpx.headers := headers self;
     Httpx.params := params;
     Httpx.json := json_data |}.

(** [KimaiClient.request]. *)
Definition request (self : t) (method endpoint : string)
    (params : option (list (string * value))) (json_data : option value)
  : IO value :=
  fun remote sent =>
    let rq := build_request self method endpoint params json_data in
    (match remote sent rq with
     | Httpx.Responded response => on_response response
     | Httpx.RequestError msg => Raise (network_error self msg)
     end,
     (sent ++ [rq])%list).

End KimaiClient.

(* ================================================================== *)
(** ** Response formatting utilities *)
(* ================================================================== *)

Import PyStr.

Definition CHARACTER_LIMIT : Z := 25000.

(** [truncate_if_needed]. *)
Definition truncate_if_needed (text : string) (limit : Z) : string :=
  if Z.of_nat (String.length text) <=? limit then text
  else
    let truncated := slice_to text (limit - 50) in
    truncated ++ nl ++ nl ++ "... [Output truncated at " ++ str_of_Z limit
    ++ " characters]".

(** [v / b] for a decoded value [v] and an [int] [b]. *)
Definition value_truediv (v : value) (b : Z) : result PyFloat.float :=
  match Py.as_int v with
  | Some a => PyFloat.int_truediv a b
  | None =>
      Raise (TypeError ("unsupported operand type(s) for /: '" ++ Py.type_name v
                        ++ "' and 'int'"))
  end.

Definition is_None (v : value) : bool :=
  match v with
  | VNone => true
  | _ => false
  end.

Definition yes_no (v : value) : string :=
  if Py.truthy v then "Yes" else "No".

(** [lines.append(line)] when the field is truthy. *)
Definition append_if (v : value) (line : string) (lines : list string) : list string :=
  if Py.truthy v then (lines ++ [line])%list else lines.

(** The tags line: [', '.join(tags)] when the field is truthy. *)
Definition append_tags (tags : value) (lines : list string) : result (list string) :=
  if Py.truthy tags
  then (joined <- Py.join_value ", " tags ;;
        Ok (lines ++ [("**Tags:** " ++ joined)%string])%list)
  else Ok lines.

(** [format_timesheet_markdown]. *)
Definition format_timesheet_markdown (timesheet : value) : result string :=
  duration <- Py.get_default timesheet "duration" (VInt 0) ;;
  duration_hours <- value_truediv duration 3600 ;;
  end_ <- Py.get timesheet "end" ;;
  let status := if is_None end_ then (Glyph.stopwatch ++ " RUNNING") else (Glyph.check_mark ++ " Completed") in
  id <- Py.get timesheet "id" ;;
  project <- Py.get timesheet "project" ;;
  activity <- Py.get timesheet "activity" ;;
  begin <- Py.get timesheet "begin" ;;
  end_or <- Py.get_default timesheet "end" (VStr "Still running...") ;;
  billable <- Py.get timesheet "billable" ;;
  exported <- Py.get timesheet "exported" ;;
  let lines :=
    [ "## Timesheet #" ++ Py.str id;
      "**Status:** " ++ status;
      "**Project ID:** " ++ Py.str project;
      "**Activity ID:** " ++ Py.str activity;
      "**Start:** " ++ Py.str begin;
      "**End:** " ++ Py.str end_or;
      "**Duration:** " ++ PyFloat.format_f 2 duration_hours ++ " hours ("
        ++ Py.str duration ++ " seconds)";
      "**Billable:** " ++ yes_no billable;
      "**Exported:** " ++ yes_no exported ] in
  description <- Py.get timesheet "description" ;;
  let lines := append_if description ("**Description:** " ++ Py.str description) lines in
  tags <- Py.get timesheet "tags" ;;
  lines <- append_tags tags lines ;;
  rate <- Py.get timesheet "rate" ;;
  let lines := append_if rate ("**Rate:** " ++ Py.str rate) lines in
  Ok (join nl lines).

(** The loop shared by the four list formatters: each record's block is
    followed by an empty line. *)
Fixpoint blocks (format : value -> result string) (records : list value)
  : result (list string) :=
  match records with
  | [] => Ok []
  | r :: rest =>
      b <- format r ;;
      bs <- blocks format rest ;;
      Ok (b :: EmptyString :: bs)
  end.

(** [sum(t.get(duration, 0) for t in timesheets)] with the key
    [duration]: the generator reads an item and [sum] adds it before the
    next item is read. *)
Fixpoint sum_durations (acc : Z) (items : list value) : result Z :=
  match items with
  | [] => Ok acc
  | t :: rest =>
      d <- Py.get_default t "duration" (VInt 0) ;;
      acc' <- Py.add_int acc d ;;
      sum_durations acc' rest
  end.

(** The list [lines] of [format_timesheets_markdown] when its loop has
    ended: the three lines of the head, then the blocks. *)
Definition timesheets_lines (timesheets : value) : result (list string) :=
  items <- Py.iter timesheets ;;
  total_duration <- sum_durations 0 items ;;
  total_hours <- PyFloat.int_truediv total_duration 3600 ;;
  count <- Py.len timesheets ;;
  let lines :=
    [ "# Timesheets (" ++ str_of_Z count ++ " entries)";
      "**Total Duration:** " ++ PyFloat.format_f 2 total_hours ++ " hours";
      EmptyString ] in
  body <- blocks format_timesheet_markdown items ;;
  Ok (lines ++ body)%list.

(** [format_timesheets_markdown]. *)
Definition format_timesheets_markdown (timesheets : value) : result string :=
  if negb (Py.truthy timesheets) then Ok "No timesheets found."
  else
    lines <- timesheets_lines timesheets ;;
    Ok (truncate_if_needed (join nl lines) CHARACTER_LIMIT).

(** The part shared by [format_project_markdown],
    [format_activity_markdown] and [format_customer_markdown]: a title,
    three field lines of which only the second differs, and the optional
    colour and comment. *)
Definition format_entity (second_line : value -> result string) (entity : value)
  : result string :=
  name <- Py.get entity "name" ;;
  id <- Py.get entity "id" ;;
  number <- Py.get entity "number" ;;
  second <- second_line entity ;;
  visible <- Py.get entity "visible" ;;
  billable <- Py.get entity "billable" ;;
  let lines :=
    [ "## " ++ Py.str name ++ " (#" ++ Py.str id ++ ")";
      "**Number:** " ++ Py.str number;
      second;
      "**Visible:** " ++ yes_no visible;
      "**Billable:** " ++ yes_no billable ] in
  color <- Py.get entity "color" ;;
  let lines := append_if color ("**Color:** " ++ Py.str color) lines in
  comment <- Py.get entity "comment" ;;
  let lines := append_if comment ("**Comment:** " ++ Py.str comment) lines in
  Ok (join nl lines).

(** [format_project_markdown]. *)
Definition format_project_markdown (project : value) : result string :=
  format_entity
    (fun p => customer <- Py.get p "customer" ;;
              Ok ("**Customer ID:** " ++ Py.str customer))
    project.

(** [format_activity_markdown]. *)
Definition format_activity_markdown (activity : value) : result string :=
  format_entity
    (fun a => project <- Py.get_default a "project" (VStr "Global") ;;
              Ok ("**Project ID:** " ++ Py.str project))
    activity.

(** [format_customer_markdown]. *)
Definition format_customer_markdown (customer : value) : result string :=
  format_entity
    (fun c => currency <- Py.get c "currency" ;;
              Ok ("**Currency:** " ++ Py.str currency))
    customer.

(** The part shared by [format_projects_markdown],
    [format_activities_markdown] and [format_customers_markdown]. *)
Definition entities_lines (plural : string) (format : value -> result string)
    (entities : value) : result (list string) :=
  count <- Py.len entities ;;
  let lines := [ "# " ++ plural ++ " (" ++ str_of_Z count ++ " total)"; EmptyString ] in
  items <- Py.iter entities ;;
  body <- blocks format items ;;
  Ok (lines ++ body)%list.

Definition format_entities (plural : string) (format : value -> result string)
    (entities : value) : result string :=
  if negb (Py.truthy entities) then Ok ("No " ++ Urllib.lower plural ++ " found.")
  else
    lines <- entities_lines plural format entities ;;
    Ok (truncate_if_needed (join nl lines) CHARACTER_LIMIT).

(** [format_projects_markdown]. *)
Definition format_projects_markdown : value -> result string :=
  format_entities "Projects" format_project_markdown.

(** [format_activities_markdown]. *)
Definition format_activities_markdown : value -> result string :=
  format_entities "Activities" format_activity_markdown.

(** [format_customers_markdown]. *)
Definition format_customers_markdown : value -> result string :=
  format_entities "Customers" format_customer_markdown.

(* ================================================================== *)
(** ** Tool invocation *)
(* ================================================================== *)

(** The validated input records of the tools modelled here. The field
    [end] of the source is [end_]. *)
Module ListTimesheetsInput.
Record t : Type := {
  user : option Z;
  customer : option Z;
  project : option Z;
  activity : option Z;
  page : Z;
  size : Z;
  active : option bool;
  exported : option bool;
  begin : option string;
  end_ : option string;
  format : string
}.
End ListTimesheetsInput.

Module GetTimesheetInput.
Record t : Type := { id : Z; format : string }.
End GetTimesheetInput.

Module StopTimesheetInput.
Record t : Type := { id : Z }.
End StopTimesheetInput.

Module ListProjectsInput.
Record t : Type := {
  customer : option Z;
  visible : option bool;
  page : Z;
  size : Z;
  format : string
}.
End ListProjectsInput.

Module ListActivitiesInput.
Record t : Type := {
  project : option Z;
  visible : option bool;
  term : option string;
  page : Z;
  size : Z;
  format : string
}.
End ListActivitiesInput.

Module ListCustomersInput.
Record t : Type := {
  visible : option bool;
  page : Z;
  size : Z;
  format : string
}.
End ListCustomersInput.

(** A tool name together with its validated arguments: the listing
    tools, [get_timesheet] and [stop_timesheet]. The other single-record
    tools are not cases of it, nor is [get_timesheet_summary]: what that
    tool computes once the entries are fetched is the module [Summary]
    below. *)
Inductive ToolCall : Type :=
| list_timesheets (params : ListTimesheetsInput.t)
| get_timesheet (params : GetTimesheetInput.t)
| stop_timesheet (params : StopTimesheetInput.t)
| list_projects (params : ListProjectsInput.t)
| list_activities (params : ListActivitiesInput.t)
| list_customers (params : ListCustomersInput.t)
| unknown_tool (name : string).

(** The tools that return a page of records. *)
Definition is_listing (call : ToolCall) : bool :=
  match call with
  | list_timesheets _ | list_projects _ | list_activities _ | list_customers _ => true
  | _ => false
  end.

Record TextContent : Type := {
  type : string;
  text : string
}.

Definition text_content (s : string) : list TextContent :=
  [ {| type := "text"; text := s |} ].

(** [query_params[key] = v] when the optional parameter is given. *)
Definition set_int (key : string) (o : option Z) (q : list (string * value))
  : list (string * value) :=
  match o with
  | Some z => (q ++ [(key, VInt z)])%list
  | None => q
  end.

(** Booleans travel as the strings 1 and 0. *)
Definition set_flag (key : string) (o : option bool) (q : list (string * value))
  : list (string * value) :=
  match o with
  | Some b => (q ++ [(key, VStr (if b then "1" else "0"))])%list
  | None => q
  end.

(** A string parameter is sent when it is given and not empty. *)
Definition set_text (key : string) (o : option string) (q : list (string * value))
  : list (string * value) :=
  match o with
  | Some s => if Urllib.is_empty s then q else (q ++ [(key, VStr s)])%list
  | None => q
  end.

Definition page_and_size (page size : Z) : list (string * value) :=
  [("page", VInt page); ("size", VInt size)].

(** The end of the four listing branches: markdown through the list
    formatter, anything else as the capped [str] of the payload. *)
Definition render_list (format : string) (markdown : value -> result string)
    (payload : value) : IO (list TextContent) :=
  if String.eqb format "markdown"
  then lift (s <- markdown payload ;; Ok (text_content s))
  else ret (text_content (truncate_if_needed (Py.str payload) CHARACTER_LIMIT)).

(** The [try] block of [call_tool]; [now] is the UTC time of the call as
    [strftime] prints it. *)
Definition call_tool_body (client : KimaiClient.t) (now : string) (call : ToolCall)
  : IO (list TextContent) :=
  match call with
  | list_timesheets params =>
      let q := page_and_size (ListTimesheetsInput.page params)
                             (ListTimesheetsInput.size params) in
      let q := set_int "user" (ListTimesheetsInput.user params) q in
      let q := set_int "customer" (ListTimesheetsInput.customer params) q in
      let q := set_int "project" (ListTimesheetsInput.project params) q in
      let q := set_int "activity" (ListTimesheetsInput.activity params) q in
      let q := set_flag "active" (ListTimesheetsInput.active params) q in
      let q := set_flag "exported" (ListTimesheetsInput.exported params) q in
      let q := set_text "begin" (ListTimesheetsInput.begin params) q in
      let q := set_text "end" (ListTimesheetsInput.end_ params) q in
      payload <~ KimaiClient.request client "GET" "timesheets" (Some q) None ;;
      render_list (ListTimesheetsInput.format params) format_timesheets_markdown payload
  | get_timesheet params =>
      payload <~ KimaiClient.request client "GET"
                   ("timesheets/" ++ str_of_Z (GetTimesheetInput.id params)) None None ;;
      if String.eqb (GetTimesheetInput.format params) "markdown"
      then lift (s <- format_timesheet_markdown payload ;; Ok (text_content s))
      else ret (text_content (Py.str payload))
  | stop_timesheet params =>
      let endpoint := "timesheets/" ++ str_of_Z (StopTimesheetInput.id params) in
      current <~ KimaiClient.request client "GET" endpoint None None ;;
      end_ <~ lift (Py.get current "end") ;;
      if negb (is_None end_)
      then ret (text_content ((Glyph.cross_mark ++ " Error: Timesheet #")
                              ++ str_of_Z (StopTimesheetInput.id params)
                              ++ " is not running (already has an end time)."))
      else
        let data := VDict [("end", VStr now)] in
        payload <~ KimaiClient.request client "PATCH" endpoint None (Some data) ;;
        lift (s <- format_timesheet_markdown payload ;;
              Ok (text_content ((Glyph.check_mark ++ " Timesheet stopped successfully!") ++ nl ++ nl ++ s)))
  | list_projects params =>
      let q := page_and_size (ListProjectsInput.page params)
                             (ListProjectsInput.size params) in
      let q := set_int "customer" (ListProjectsInput.customer params) q in
      let q := set_flag "visible" (ListProjectsInput.visible params) q in
      payload <~ KimaiClient.request client "GET" "projects" (Some q) None ;;
      render_list (ListProjectsInput.format params) format_projects_markdown payload
  | list_activities params =>
      let q := page_and_size (ListActivitiesInput.page params)
                             (ListActivitiesInput.size params) in
      let q := set_int "project" (ListActivitiesInput.project params) q in
      let q := set_flag "visible" (ListActivitiesInput.visible params) q in
      let q := set_text "term" (ListActivitiesInput.term params) q in
      payload <~ KimaiClient.request client "GET" "activities" (Some q) None ;;
      render_list (ListActivitiesInput.format params) format_activities_markdown payload
  | list_customers params =>
      let q := page_and_size (ListCustomersInput.page params)
                             (ListCustomersInput.size params) in
      let q := set_flag "visible" (ListCustomersInput.visible params) q in
      payload <~ KimaiClient.request client "GET" "customers" (Some q) None ;;
      render_list (ListCustomersInput.format params) format_customers_markdown payload
  | unknown_tool name => ret (text_content ("Unknown tool: " ++ name))
  end.

(** [call_tool]: whatever the branch raises becomes a text that starts
    with Error. *)
Definition call_tool (client : KimaiClient.t) (now : string) (call : ToolCall)
    (remote : Httpx.Remote) (sent : list Httpx.Request)
  : list TextContent * list Httpx.Request :=
  match call_tool_body client now call remote sent with
  | (Ok out, sent') => (out, sent')
  | (Raise e, sent') => (text_content ("Error: " ++ exn_str e), sent')
  end.

(* ================================================================== *)
(** ** Python dictionaries and [sorted] *)
(* ================================================================== *)

Section Dict.
Context {K V : Type} (eqb : K -> K -> bool).

(** [d.get(k)]. *)
Fixpoint dict_get (k : K) (d : list (K * V)) : option V :=
  match d with
  | [] => None
  | (k', v) :: rest => if eqb k' k then Some v else dict_get k rest
  end.

(** [k in d]. *)
Definition dict_mem (k : K) (d : list (K * V)) : bool :=
  match dict_get k d with
  | Some _ => true
  | None => false
  end.

(** [d[k] = v]: a new key goes last, a known key keeps its place. *)
Fixpoint dict_set (k : K) (v : V) (d : list (K * V)) : list (K * V) :=
  match d with
  | [] => [(k, v)]
  | (k', v') :: rest =>
      if eqb k' k then (k', v) :: rest else (k', v') :: dict_set k v rest
  end.

(** An update in place of the value stored under [k], as
    [d[k][field] += x] does on the inner dictionary. *)
Fixpoint dict_update (k : K) (f : V -> V) (d : list (K * V)) : list (K * V) :=
  match d with
  | [] => []
  | (k', v') :: rest =>
      if eqb k' k then (k', f v') :: rest else (k', v') :: dict_update k f rest
  end.
End Dict.

Section Sorted.
Context {A : Type} (key : A -> Z).

(** Insertion before the first element whose key is not smaller. *)
Fixpoint insert (x : A) (l : list A) : list A :=
  match l with
  | [] => [x]
  | y :: rest => if key x <=? key y then x :: l else y :: insert x rest
  end.

(** A stable sort by increasing key. The result of a stable sort is
    determined by its input, so this is the list that the sort of the
    interpreter returns. *)
Fixpoint sort_stable (l : list A) : list A :=
  match l with
  | [] => []
  | x :: rest => insert x (sort_stable rest)
  end.

(** [sorted(l, key=key, reverse=reverse)]: with [reverse] the list is
    reversed, sorted by increasing key and reversed again, which keeps
    elements of equal key in their original order. *)
Definition sorted (reverse : bool) (l : list A) : list A :=
  if reverse then rev (sort_stable (rev l)) else sort_stable l.

(** The orders and the test that the properties of [sorted] speak of. *)
Definition ascending (a b : A) : Prop := key a <= key b.
Definition descending (a b : A) : Prop := key b <= key a.
Definition has_key (d : Z) (a : A) : bool := key a =? d.
End Sorted.

(* ================================================================== *)
(** ** Summary aggregator *)
(* ================================================================== *)

(** A time entry as the aggregation reads it. [None] in [duration] or
    [billable] is an absent key; [None] in [project] or [activity] is an
    absent key or a null, which [ts.get] does not tell apart. *)
Module Entry.
Record t : Type := {
  duration : option Z;
  billable : option bool;
  project : option Z;
  activity : option Z
}.
End Entry.

(** The value stored per key by the two grouping loops. *)
Module Group.
Record t : Type := {
  duration : Z;
  count : Z
}.
End Group.

Module Summary.

(** [t.get(duration, 0)] with the key [duration]. *)
Definition get_duration (t : Entry.t) : Z :=
  match Entry.duration t with
  | Some d => d
  | None => 0
  end.

(** The truth value of [t.get(billable)]. *)
Definition is_billable (t : Entry.t) : bool :=
  match Entry.billable t with
  | Some b => b
  | None => false
  end.

(** [sum] over integers. *)
Definition sum (l : list Z) : Z := fold_left Z.add l 0.

(** Equality of dictionary keys: [None] or an integer. *)
Definition key_eqb (a b : option Z) : bool :=
  match a, b with
  | None, None => true
  | Some x, Some y => x =? y
  | _, _ => false
  end.

(** [str(k)] for a key. *)
Definition key_str (k : option Z) : string :=
  match k with
  | None => "None"
  | Some z => str_of_Z z
  end.

Definition total_duration (timesheets : list Entry.t) : Z :=
  sum (map get_duration timesheets).

Definition total_hours (timesheets : list Entry.t) : result PyFloat.float :=
  PyFloat.int_truediv (total_duration timesheets) 3600.

Definition billable_duration (timesheets : list Entry.t) : Z :=
  sum (map get_duration (filter is_billable timesheets)).

Definition billable_hours (timesheets : list Entry.t) : result PyFloat.float :=
  PyFloat.int_truediv (billable_duration timesheets) 3600.

Definition non_billable_hours (timesheets : list Entry.t) : result PyFloat.float :=
  total <- total_hours timesheets ;;
  billable <- billable_hours timesheets ;;
  Ok (PyFloat.sub total billable).

(** One turn of a grouping loop. *)
Definition group_step (key : Entry.t -> option Z)
    (by_key : list (option Z * Group.t)) (ts : Entry.t)
  : list (option Z * Group.t) :=
  let k := key ts in
  let by_key :=
    if negb (dict_mem key_eqb k by_key)
    then dict_set key_eqb k {| Group.duration := 0; Group.count := 0 |} by_key
    else by_key in
  let by_key :=
    dict_update key_eqb k
      (fun g => {| Group.duration := Group.duration g + get_duration ts;
                   Group.count := Group.count g |}) by_key in
  dict_update key_eqb k
    (fun g => {| Group.duration := Group.duration g;
                 Group.count := Group.count g + 1 |}) by_key.

Definition group_by (key : Entry.t -> option Z) (timesheets : list Entry.t)
  : list (option Z * Group.t) :=
  fold_left (group_step key) timesheets [].

Definition by_project : list Entry.t -> list (option Z * Group.t) :=
  group_by Entry.project.

Definition by_activity : list Entry.t -> list (option Z * Group.t) :=
  group_by Entry.activity.

(** The two groupings of the summary, by name. *)
Inductive grouping : Type :=
| ByProject
| ByActivity.

Definition key_of (g : grouping) : Entry.t -> option Z :=
  match g with
  | ByProject => Entry.project
  | ByActivity => Entry.activity
  end.

Definition grouped (g : grouping) (timesheets : list Entry.t)
  : list (option Z * Group.t) :=
  match g with
  | ByProject => by_project timesheets
  | ByActivity => by_activity timesheets
  end.

(** Some entry has no identifier for the grouping [g]. *)
Definition missing (g : grouping) (timesheets : list Entry.t) : bool :=
  existsb (fun t => key_eqb (key_of g t) None) timesheets.

(** The group a key starts with, and what one entry adds to its group. *)
Definition zero_group : Group.t := {| Group.duration := 0; Group.count := 0 |}.

Definition credit (ts : Entry.t) (g : Group.t) : Group.t :=
  {| Group.duration := Group.duration g + get_duration ts;
     Group.count := Group.count g + 1 |}.

(** The seconds of the entries that are not billable: the independent
    sum that the code does not compute. *)
Definition non_billable_duration (timesheets : list Entry.t) : Z :=
  sum (map get_duration (filter (fun t => negb (is_billable t)) timesheets)).

(** The test [billable_hours + non_billable_hours == total_hours] on the
    unrounded floats of the summary. *)
Definition hours_add_up (timesheets : list Entry.t) : result bool :=
  total <- total_hours timesheets ;;
  billable <- billable_hours timesheets ;;
  non_billable <- non_billable_hours timesheets ;;
  Ok (PyFloat.eqb (PyFloat.add billable non_billable) total).

(** The conditional expression of the two percentage fields. *)
Definition percent_of (part total : PyFloat.float) : result number :=
  if PyFloat.gtb total (PyFloat.of_Z 0)
  then (ratio <- PyFloat.truediv part total ;;
        Ok (NFloat (PyFloat.mul ratio (PyFloat.of_Z 100))))
  else Ok (NInt 0).

Definition billable_percent (timesheets : list Entry.t) : result number :=
  total <- total_hours timesheets ;;
  billable <- billable_hours timesheets ;;
  percent_of billable total.

Definition non_billable_percent (timesheets : list Entry.t) : result number :=
  total <- total_hours timesheets ;;
  non_billable <- non_billable_hours timesheets ;;
  percent_of non_billable total.

(** The groups in the order in which the markdown report lists them. *)
Definition listed (groups : list (option Z * Group.t)) : list (option Z * Group.t) :=
  sorted (fun x => Group.duration (snd x)) true groups.

Definition group_line (label : string) (item : option Z * Group.t) : result string :=
  hours <- PyFloat.int_truediv (Group.duration (snd item)) 3600 ;;
  Ok ("- " ++ label ++ " #" ++ key_str (fst item) ++ ": "
      ++ PyFloat.format_f 2 hours ++ " hours ("
      ++ str_of_Z (Group.count (snd item)) ++ " entries)").

(** The first nine lines of the markdown report. *)
Definition overview (timesheets : list Entry.t) : result (list string) :=
  total <- total_hours timesheets ;;
  billable <- billable_hours timesheets ;;
  non_billable <- non_billable_hours timesheets ;;
  billable_pct <- percent_of billable total ;;
  non_billable_pct <- percent_of non_billable total ;;
  Ok [ "# Timesheet Summary Report";
       EmptyString;
       "## Overview";
       "**Total Entries:** " ++ str_of_Z (Z.of_nat (List.length timesheets));
       "**Total Time:** " ++ PyFloat.format_f 2 total ++ " hours";
       "**Billable Time:** " ++ PyFloat.format_f 2 billable ++ " hours ("
         ++ format_number 1 billable_pct ++ "%)";
       "**Non-Billable Time:** " ++ PyFloat.format_f 2 non_billable ++ " hours ("
         ++ format_number 1 non_billable_pct ++ "%)";
       EmptyString;
       "## By Project" ].

(** The report once the groups are in their listing order. *)
Definition report (timesheets : list Entry.t)
    (projects activities : list (option Z * Group.t)) : result string :=
  lines <- overview timesheets ;;
  project_lines <- mapM (group_line "Project") projects ;;
  activity_lines <- mapM (group_line "Activity") activities ;;
  Ok (join nl (lines ++ project_lines ++ [EmptyString; "## By Activity"]
               ++ activity_lines)).

(** The markdown branch of [get_timesheet_summary], after the fetch. *)
Definition summary_markdown (timesheets : list Entry.t) : result string :=
  report timesheets (listed (by_project timesheets)) (listed (by_activity timesheets)).

(** The keys of a list in the order of their first occurrence. *)
Fixpoint first_seen (keys : list (option Z)) : list (option Z) :=
  match keys with
  | [] => []
  | k :: rest => k :: filter (fun k' => negb (key_eqb k k')) (first_seen rest)
  end.

(** The seconds and the counts of a grouping, summed over its keys. *)
Definition seconds_of (groups : list (option Z * Group.t)) : Z :=
  sum (map (fun kv => Group.duration (snd kv)) groups).

Definition counts_of (groups : list (option Z * Group.t)) : Z :=
  sum (map (fun kv => Group.count (snd kv)) groups).

(** The summed seconds of a listed group. *)
Definition seconds (item : option Z * Group.t) : Z := Group.duration (snd item).

(** The entries filed under the key [k]. *)
Definition entries_with (key : Entry.t -> option Z) (k : option Z)
    (timesheets : list Entry.t) : list Entry.t :=
  filter (fun t => key_eqb (key t) k) timesheets.

(** The payload of the JSON branch, before its final [str]. *)
Module Payload.
Record group : Type := {
  hours : PyFloat.float;
  count : Z
}.
Record t : Type := {
  total_entries : Z;
  total_hours : PyFloat.float;
  billable_hours : PyFloat.float;
  non_billable_hours : PyFloat.float;
  by_project : list (string * group);
  by_activity : list (string * group)
}.
End Payload.

(** The comprehension that turns a grouping into rounded hours under the
    [str] of each key. *)
Fixpoint hours_by_key (items : list (option Z * Group.t))
    (acc : list (string * Payload.group)) : result (list (string * Payload.group)) :=
  match items with
  | [] => Ok acc
  | (k, v) :: rest =>
      h <- PyFloat.int_truediv (Group.duration v) 3600 ;;
      r <- PyFloat.round 2 h ;;
      hours_by_key rest
        (dict_set String.eqb (key_str k)
           {| Payload.hours := r; Payload.count := Group.count v |} acc)
  end.

Definition summary_json (timesheets : list Entry.t) : result Payload.t :=
  total <- total_hours timesheets ;;
  billable <- billable_hours timesheets ;;
  non_billable <- non_billable_hours timesheets ;;
  total_r <- PyFloat.round 2 total ;;
  billable_r <- PyFloat.round 2 billable ;;
  non_billable_r <- PyFloat.round 2 non_billable ;;
  projects <- hours_by_key (by_project timesheets) [] ;;
  activities <- hours_by_key (by_activity timesheets) [] ;;
  Ok {| Payload.total_entries := Z.of_nat (List.length timesheets);
        Payload.total_hours := total_r;
        Payload.billable_hours := billable_r;
        Payload.non_billable_hours := non_billable_r;
        Payload.by_project := projects;
        Payload.by_activity := activities |}.

End Summary.

(* ================================================================== *)
(** ** The summary branch on the decoded payload *)
(* ================================================================== *)

(** The [get_timesheet_summary] branch of [call_tool] from the payload
    on, as it runs on whatever the response decodes to: an item that is
    not an object, a duration that is not a number or a key that cannot
    be hashed raises here. The module [Summary] above is the same
    computation on entries whose fields have the types of a time entry;
    [decodes] relates the two. *)
Module RawSummary.
Import PyStr.

(** Whether [hash(v)] succeeds: lists and dictionaries have no hash. *)
Definition hashable (v : value) : bool :=
  match v with
  | VList _ | VDict _ => false
  | _ => true
  end.

(** [a == b] on hashable values: [None] equals itself, strings compare
    by content, and a [bool] compares as the integer 0 or 1. *)
Definition key_eq (a b : value) : bool :=
  match a, b with
  | VNone, VNone => true
  | VStr x, VStr y => String.eqb x y
  | _, _ =>
      match Py.as_int a, Py.as_int b with
      | Some x, Some y => x =? y
      | _, _ => false
      end
  end.

(** [sum(t.get(duration, 0) for t in timesheets if t.get(billable))]
    with the keys [duration] and [billable]. *)
Fixpoint sum_billable (acc : Z) (items : list value) : result Z :=
  match items with
  | [] => Ok acc
  | t :: rest =>
      billable <- Py.get t "billable" ;;
      if Py.truthy billable
      then (d <- Py.get_default t "duration" (VInt 0) ;;
            acc' <- Py.add_int acc d ;;
            sum_billable acc' rest)
      else sum_billable acc rest
  end.

(** One turn of a grouping loop on the field [field]. *)
Definition group_step (field : string) (by_key : list (value * Group.t)) (ts : value)
  : result (list (value * Group.t)) :=
  k <- Py.get ts field ;;
  if negb (hashable k)
  then Raise (TypeError ("unhashable type: '" ++ Py.type_name k ++ "'"))
  else
    let by_key :=
      if negb (dict_mem key_eq k by_key)
      then dict_set key_eq k {| Group.duration := 0; Group.count := 0 |} by_key
      else by_key in
    d <- Py.get_default ts "duration" (VInt 0) ;;
    match Py.as_int d with
    | Some z =>
        let by_key :=
          dict_update key_eq k
            (fun g => {| Group.duration := Group.duration g + z;
                         Group.count := Group.count g |}) by_key in
        Ok (dict_update key_eq k
              (fun g => {| Group.duration := Group.duration g;
                           Group.count := Group.count g + 1 |}) by_key)
    | None =>
        Raise (TypeError ("unsupported operand type(s) for +=: 'int' and '"
                          ++ Py.type_name d ++ "'"))
    end.

Fixpoint group_by (field : string) (by_key : list (value * Group.t))
    (items : list value) : result (list (value * Group.t)) :=
  match items with
  | [] => Ok by_key
  | ts :: rest =>
      by_key' <- group_step field by_key ts ;;
      group_by field by_key' rest
  end.

(** What the branch has computed when it reaches the test of the
    format. *)
Record Figures : Type := {
  total_hours : PyFloat.float;
  billable_hours : PyFloat.float;
  non_billable_hours : PyFloat.float;
  by_project : list (value * Group.t);
  by_activity : list (value * Group.t)
}.

Definition figures (timesheets : value) : result Figures :=
  items <- Py.iter timesheets ;;
  total_duration <- sum_durations 0 items ;;
  total <- PyFloat.int_truediv total_duration 3600 ;;
  billable_duration <- sum_billable 0 items ;;
  billable <- PyFloat.int_truediv billable_duration 3600 ;;
  projects <- group_by "project" [] items ;;
  activities <- group_by "activity" [] items ;;
  Ok {| total_hours := total;
        billable_hours := billable;
        non_billable_hours := PyFloat.sub total billable;
        by_project := projects;
        by_activity := activities |}.

Definition listed (groups : list (value * Group.t)) : list (value * Group.t) :=
  sorted (fun x => Group.duration (snd x)) true groups.

Definition group_line (label : string) (item : value * Group.t) : result string :=
  hours <- PyFloat.int_truediv (Group.duration (snd item)) 3600 ;;
  Ok ("- " ++ label ++ " #" ++ Py.str (fst item) ++ ": "
      ++ PyFloat.format_f 2 hours ++ " hours ("
      ++ str_of_Z (Group.count (snd item)) ++ " entries)").

(** The markdown branch. *)
Definition markdown (timesheets : value) : result string :=
  f <- figures timesheets ;;
  count <- Py.len timesheets ;;
  billable_pct <- Summary.percent_of (billable_hours f) (total_hours f) ;;
  non_billable_pct <- Summary.percent_of (non_billable_hours f) (total_hours f) ;;
  let lines :=
    [ "# Timesheet Summary Report";
      EmptyString;
      "## Overview";
      "**Total Entries:** " ++ str_of_Z count;
      "**Total Time:** " ++ PyFloat.format_f 2 (total_hours f) ++ " hours";
      "**Billable Time:** " ++ PyFloat.format_f 2 (billable_hours f) ++ " hours ("
        ++ format_number 1 billable_pct ++ "%)";
      "**Non-Billable Time:** " ++ PyFloat.format_f 2 (non_billable_hours f)
        ++ " hours (" ++ format_number 1 non_billable_pct ++ "%)";
      EmptyString;
      "## By Project" ] in
  project_lines <- mapM (group_line "Project") (listed (by_project f)) ;;
  activity_lines <- mapM (group_line "Activity") (listed (by_activity f)) ;;
  Ok (join nl (lines ++ project_lines ++ [EmptyString; "## By Activity"]
               ++ activity_lines)).

(** The comprehension of the JSON branch. *)
Fixpoint hours_by_key (items : list (value * Group.t))
    (acc : list (string * Summary.Payload.group))
  : result (list (string * Summary.Payload.group)) :=
  match items with
  | [] => Ok acc
  | (k, v) :: rest =>
      h <- PyFloat.int_truediv (Group.duration v) 3600 ;;
      r <- PyFloat.round 2 h ;;
      hours_by_key rest
        (dict_set String.eqb (Py.str k)
           {| Summary.Payload.hours := r; Summary.Payload.count := Group.count v |} acc)
  end.

(** The JSON branch, before its final [str]. *)
Definition json (timesheets : value) : result Summary.Payload.t :=
  f <- figures timesheets ;;
  count <- Py.len timesheets ;;
  total_r <- PyFloat.round 2 (total_hours f) ;;
  billable_r <- PyFloat.round 2 (billable_hours f) ;;
  non_billable_r <- PyFloat.round 2 (non_billable_hours f) ;;
  projects <- hours_by_key (by_project f) [] ;;
  activities <- hours_by_key (by_activity f) [] ;;
  Ok {| Summary.Payload.total_entries := count;
        Summary.Payload.total_hours := total_r;
        Summary.Payload.billable_hours := billable_r;
        Summary.Payload.non_billable_hours := non_billable_r;
        Summary.Payload.by_project := projects;
        Summary.Payload.by_activity := activities |}.


(** The value under which a key of [Summary] is found in a decoded
    object: a missing identifier reads as [None]. *)
Definition encode_key (k : option Z) : value :=
  match k with
  | Some z => VInt z
  | None => VNone
  end.

(** An item of the payload that has the fields of the time entry [e]:
    an object whose [duration] is that integer or absent, whose
    [billable] is that boolean or absent, and whose [project] and
    [activity] are those integers, or null or absent. *)
Definition decodes (item : value) (e : Entry.t) : Prop :=
  exists d,
    item = VDict d /\
    Py.lookup "duration" d = option_map VInt (Entry.duration e) /\
    Py.lookup "billable" d = option_map VBool (Entry.billable e) /\
    Py.get item "project" = Ok (encode_key (Entry.project e)) /\
    Py.get item "activity" = Ok (encode_key (Entry.activity e)).

(** The field that a grouping of [Summary] reads. *)
Definition field_of (g : Summary.grouping) : string :=
  match g with
  | Summary.ByProject => "project"
  | Summary.ByActivity => "activity"
  end.

(** A grouping of [Summary] with its keys as they are in the payload. *)
Definition encode_groups (groups : list (option Z * Group.t))
  : list (value * Group.t) :=
  map (fun kv => (encode_key (fst kv), snd kv)) groups.

End RawSummary.

(* ================================================================== *)
(** ** Concrete inputs *)
(* ================================================================== *)

(** Inputs at which the properties below are evaluated. *)
Module Sample.

Definition entry (d : Z) (b : bool) (p a : option Z) : Entry.t :=
  {| Entry.duration := Some d; Entry.billable := Some b;
     Entry.project := p; Entry.activity := a |}.

(** Two entries without a project around one that has a project. *)
Definition unassigned : list Entry.t :=
  [ entry 600 true None (Some 10);
    entry 1800 false (Some 3) None;
    entry 300 false None (Some 10) ].

(** A full page of a thousand entries, each with a project and an
    activity of its own. *)
Definition many_groups : list Entry.t :=
  map (fun i => entry 60 true (Some (Z.of_nat i)) (Some (Z.of_nat i)))
    (seq 1 (Z.to_nat 1000)).

(** Three entries on two projects and two activities, 3.5 hours in all,
    of which the first and the last are billable. *)
Definition scenario : list Entry.t :=
  [ entry 3600 true (Some 1) (Some 10);
    entry 1800 false (Some 1) (Some 11);
    entry 7200 true (Some 2) (Some 10) ].

(** One billable second out of three. *)
Definition three_seconds : list Entry.t :=
  [ entry 1 true (Some 1) (Some 10);
    entry 2 false (Some 1) (Some 10) ].

(** A text between double quotes, as JSON writes a string. *)
Definition quoted (s : string) : string :=
  String dquote (s ++ String dquote EmptyString).

Definition json_object (key val : string) : string :=
  "{" ++ quoted key ++ ":" ++ quoted val ++ "}".

(** A remote that answers every request with the same response. *)
Definition always (response : Httpx.Response) : Httpx.Remote :=
  fun _ _ => Httpx.Responded response.

Definition client : KimaiClient.t :=
  KimaiClient.init {| KimaiConfig.base_url := "http://localhost:8001";
                      KimaiConfig.api_token := "secret" |}.

(** A Kimai instance served below a path of its host. *)
Definition subdirectory : KimaiConfig.t :=
  {| KimaiConfig.base_url := "https://example.com/kimai/";
     KimaiConfig.api_token := "secret" |}.

(** HTTP 404 with the JSON body that holds the message Not found. *)
Definition not_found : Httpx.Response :=
  {| Httpx.status_code := 404;
     Httpx.content := json_object "message" "Not found";
     Httpx.text := json_object "message" "Not found";
     Httpx.json_body := Ok (VDict [("message", VStr "Not found")]) |}.

(** HTTP 500 with a JSON object that has no message field. *)
Definition failure_without_message : Httpx.Response :=
  {| Httpx.status_code := 500;
     Httpx.content := json_object "error" "x";
     Httpx.text := json_object "error" "x";
     Httpx.json_body := Ok (VDict [("error", VStr "x")]) |}.

(** HTTP 204: no body, which the JSON decoder rejects. *)
Definition no_content : Httpx.Response :=
  {| Httpx.status_code := 204;
     Httpx.content := EmptyString;
     Httpx.text := EmptyString;
     Httpx.json_body :=
       Raise (JSONDecodeError "Expecting value: line 1 column 1 (char 0)") |}.

(** A timesheet whose description is 25000 characters long. *)
Definition long_description : string :=
  string_of_list_ascii (repeat "a"%char (Z.to_nat 25000)).

Definition long_timesheet : Httpx.Response :=
  {| Httpx.status_code := 200;
     Httpx.content := json_object "description" long_description;
     Httpx.text := json_object "description" long_description;
     Httpx.json_body := Ok (VDict [("description", VStr long_description)]) |}.

(** A page of one record whose only text is that long. *)
Definition long_page : Httpx.Response :=
  {| Httpx.status_code := 200;
     Httpx.content := "[" ++ quoted long_description ++ "]";
     Httpx.text := "[" ++ quoted long_description ++ "]";
     Httpx.json_body := Ok (VList [VStr long_description]) |}.

(** HTTP 500 with that long text, which is not JSON, as its body. *)
Definition long_failure : Httpx.Response :=
  {| Httpx.status_code := 500;
     Httpx.content := long_description;
     Httpx.text := long_description;
     Httpx.json_body :=
       Raise (JSONDecodeError "Expecting value: line 1 column 1 (char 0)") |}.

(** A page without records. *)
Definition empty_page : Httpx.Response :=
  {| Httpx.status_code := 200;
     Httpx.content := "[]";
     Httpx.text := "[]";
     Httpx.json_body := Ok (VList []) |}.

Definition projects_as_json : ListProjectsInput.t :=
  {| ListProjectsInput.customer := None;
     ListProjectsInput.visible := None;
     ListProjectsInput.page := 1;
     ListProjectsInput.size := 50;
     ListProjectsInput.format := "json" |}.

Definition timesheet_as_json : GetTimesheetInput.t :=
  {| GetTimesheetInput.id := 1; GetTimesheetInput.format := "json" |}.

Definition stop_seven : StopTimesheetInput.t :=
  {| StopTimesheetInput.id := 7 |}.

Definition noon : string := "2025-11-03T12:00:00Z".

(** A timesheet that has been stopped already. *)
Definition ended_timesheet : Httpx.Response :=
  {| Httpx.status_code := 200;
     Httpx.content := json_object "end" "2025-11-01T10:00:00+0000";
     Httpx.text := json_object "end" "2025-11-01T10:00:00+0000";
     Httpx.json_body := Ok (VDict [("end", VStr "2025-11-01T10:00:00+0000")]) |}.

End Sample.

(* ================================================================== *)
(** ** The client instance of the process *)
(* ================================================================== *)

(** [os.environ] as a lookup. *)
Definition Environ : Type := string -> option string.

(** [os.environ.get(key, default)]. *)
Definition environ_get (environ : Environ) (key default : string) : string :=
  match environ key with
  | Some v => v
  | None => default
  end.

(** [get_client]: the global [kimai_client] goes in and comes out. *)
Definition get_client (environ : Environ) (kimai_client : option KimaiClient.t)
  : KimaiClient.t * option KimaiClient.t :=
  match kimai_client with
  | None =>
      let config :=
        {| KimaiConfig.base_url :=
             environ_get environ "KIMAI_BASE_URL" "http://localhost:8001";
           KimaiConfig.api_token := environ_get environ "KIMAI_API_TOKEN" EmptyString |} in
      let client := KimaiClient.init config in
      (client, Some client)
  | Some client => (client, Some client)
  end.

(* ================================================================== *)
(** ** The other branches of [call_tool] *)
(* ================================================================== *)

Module StartTimesheetInput.
Record t : Type := {
  project : Z;
  activity : Z;
  description : option string;
  tags : option string
}.
End StartTimesheetInput.

Module CreateTimesheetInput.
Record t : Type := {
  project : Z;
  activity : Z;
  begin : string;
  end_ : option string;
  description : option string;
  tags : option string
}.
End CreateTimesheetInput.

Module UpdateTimesheetInput.
Record t : Type := {
  id : Z;
  begin : option string;
  end_ : option string;
  description : option string;
  tags : option string
}.
End UpdateTimesheetInput.

Module DeleteTimesheetInput.
Record t : Type := { id : Z }.
End DeleteTimesheetInput.

Module GetProjectInput.
Record t : Type := { id : Z; format : string }.
End GetProjectInput.

Module CreateProjectInput.
Record t : Type := {
  name : string;
  customer : Z;
  visible : bool;
  billable : bool;
  color : option string
}.
End CreateProjectInput.

Module UpdateProjectInput.
Record t : Type := {
  id : Z;
  name : option string;
  visible : option bool;
  billable : option bool;
  color : option string
}.
End UpdateProjectInput.

Module GetActivityInput.
Record t : Type := { id : Z; format : string }.
End GetActivityInput.

Module CreateActivityInput.
Record t : Type := {
  name : string;
  project : option Z;
  visible : bool;
  billable : bool;
  color : option string
}.
End CreateActivityInput.

Module UpdateActivityInput.
Record t : Type := {
  id : Z;
  name : option string;
  visible : option bool;
  billable : option bool;
  color : option string
}.
End UpdateActivityInput.

Module GetCustomerInput.
Record t : Type := { id : Z; format : string }.
End GetCustomerInput.

Module CreateCustomerInput.
Record t : Type := {
  name : string;
  currency : string;
  visible : bool;
  billable : bool;
  color : option string
}.
End CreateCustomerInput.

Module UpdateCustomerInput.
Record t : Type := {
  id : Z;
  name : option string;
  currency : option string;
  visible : option bool;
  billable : option bool;
  color : option string
}.
End UpdateCustomerInput.

(** The tools that [ToolCall] leaves out, but for the summary. *)
Inductive OtherCall : Type :=
| start_timesheet (params : StartTimesheetInput.t)
| create_timesheet (params : CreateTimesheetInput.t)
| update_timesheet (params : UpdateTimesheetInput.t)
| delete_timesheet (params : DeleteTimesheetInput.t)
| get_project (params : GetProjectInput.t)
| create_project (params : CreateProjectInput.t)
| update_project (params : UpdateProjectInput.t)
| get_activity (params : GetActivityInput.t)
| create_activity (params : CreateActivityInput.t)
| update_activity (params : UpdateActivityInput.t)
| get_customer (params : GetCustomerInput.t)
| create_customer (params : CreateCustomerInput.t)
| update_customer (params : UpdateCustomerInput.t).

(** [data[key] = b] when the flag is given, be it [False]: the test is
    [is not None]. *)
Definition set_bool (key : string) (o : option bool) (d : list (string * value))
  : list (string * value) :=
  match o with
  | Some b => (d ++ [(key, VBool b)])%list
  | None => d
  end.

(** [data[key] = s] when the text is given, be it empty: the test is
    [is not None]. *)
Definition set_given (key : string) (o : option string) (d : list (string * value))
  : list (string * value) :=
  match o with
  | Some s => (d ++ [(key, VStr s)])%list
  | None => d
  end.

(** The answer of a tool that created or changed a record: a headline,
    an empty line and the record. *)
Definition announce (headline : string) (format : value -> result string)
    (payload : value) : IO (list TextContent) :=
  lift (s <- format payload ;; Ok (text_content (headline ++ nl ++ nl ++ s))).

(** The end of a branch that reads one record. *)
Definition render_one (format : string) (markdown : value -> result string)
    (payload : value) : IO (list TextContent) :=
  if String.eqb format "markdown"
  then lift (s <- markdown payload ;; Ok (text_content s))
  else ret (text_content (Py.str payload)).

(** The JSON bodies that the branches build. *)
Definition start_timesheet_data (now : string) (params : StartTimesheetInput.t)
  : list (string * value) :=
  let data := [("project", VInt (StartTimesheetInput.project params));
               ("activity", VInt (StartTimesheetInput.activity params));
               ("begin", VStr now)] in
  let data := set_text "description" (StartTimesheetInput.description params) data in
  set_text "tags" (StartTimesheetInput.tags params) data.

Definition create_timesheet_data (params : CreateTimesheetInput.t)
  : list (string * value) :=
  let data := [("project", VInt (CreateTimesheetInput.project params));
               ("activity", VInt (CreateTimesheetInput.activity params));
               ("begin", VStr (CreateTimesheetInput.begin params))] in
  let data := set_text "end" (CreateTimesheetInput.end_ params) data in
  let data := set_text "description" (CreateTimesheetInput.description params) data in
  set_text "tags" (CreateTimesheetInput.tags params) data.

Definition update_timesheet_data (params : UpdateTimesheetInput.t)
  : list (string * value) :=
  let data := set_text "begin" (UpdateTimesheetInput.begin params) [] in
  let data := set_text "end" (UpdateTimesheetInput.end_ params) data in
  let data := set_given "description" (UpdateTimesheetInput.description params) data in
  set_given "tags" (UpdateTimesheetInput.tags params) data.

Definition create_project_data (params : CreateProjectInput.t)
  : list (string * value) :=
  let data := [("name", VStr (CreateProjectInput.name params));
               ("customer", VInt (CreateProjectInput.customer params));
               ("visible", VBool (CreateProjectInput.visible params));
               ("billable", VBool (CreateProjectInput.billable params))] in
  set_text "color" (CreateProjectInput.color params) data.

Definition update_project_data (params : UpdateProjectInput.t)
  : list (string * value) :=
  let data := set_text "name" (UpdateProjectInput.name params) [] in
  let data := set_bool "visible" (UpdateProjectInput.visible params) data in
  let data := set_bool "billable" (UpdateProjectInput.billable params) data in
  set_text "color" (UpdateProjectInput.color params) data.

Definition create_activity_data (params : CreateActivityInput.t)
  : list (string * value) :=
  let data := [("name", VStr (CreateActivityInput.name params));
               ("visible", VBool (CreateActivityInput.visible params));
               ("billable", VBool (CreateActivityInput.billable params))] in
  let data := set_int "project" (CreateActivityInput.project params) data in
  set_text "color" (CreateActivityInput.color params) data.

Definition update_activity_data (params : UpdateActivityInput.t)
  : list (string * value) :=
  let data := set_text "name" (UpdateActivityInput.name params) [] in
  let data := set_bool "visible" (UpdateActivityInput.visible params) data in
  let data := set_bool "billable" (UpdateActivityInput.billable params) data in
  set_text "color" (UpdateActivityInput.color params) data.

Definition create_customer_data (params : CreateCustomerInput.t)
  : list (string * value) :=
  let data := [("name", VStr (CreateCustomerInput.name params));
               ("currency", VStr (CreateCustomerInput.currency params));
               ("visible", VBool (CreateCustomerInput.visible params));
               ("billable", VBool (CreateCustomerInput.billable params))] in
  set_text "color" (CreateCustomerInput.color params) data.

Definition update_customer_data (params : UpdateCustomerInput.t)
  : list (string * value) :=
  let data := set_text "name" (UpdateCustomerInput.name params) [] in
  let data := set_text "currency" (UpdateCustomerInput.currency params) data in
  let data := set_bool "visible" (UpdateCustomerInput.visible params) data in
  let data := set_bool "billable" (UpdateCustomerInput.billable params) data in
  set_text "color" (UpdateCustomerInput.color params) data.

(** The [try] block of [call_tool] for these tools. *)
Definition call_other_body (client : KimaiClient.t) (now : string) (call : OtherCall)
  : IO (list TextContent) :=
  match call with
  | start_timesheet params =>
      payload <~ KimaiClient.request client "POST" "timesheets" None
                   (Some (VDict (start_timesheet_data now params))) ;;
      announce (Glyph.check_mark ++ " Timesheet started successfully!") format_timesheet_markdown payload
  | create_timesheet params =>
      payload <~ KimaiClient.request client "POST" "timesheets" None
                   (Some (VDict (create_timesheet_data params))) ;;
      announce (Glyph.check_mark ++ " Timesheet created successfully!") format_timesheet_markdown payload
  | update_timesheet params =>
      payload <~ KimaiClient.request client "PATCH"
                   ("timesheets/" ++ str_of_Z (UpdateTimesheetInput.id params)) None
                   (Some (VDict (update_timesheet_data params))) ;;
      announce (Glyph.check_mark ++ " Timesheet updated successfully!") format_timesheet_markdown payload
  | delete_timesheet params =>
      _ <~ KimaiClient.request client "DELETE"
             ("timesheets/" ++ str_of_Z (DeleteTimesheetInput.id params)) None None ;;
      ret (text_content ((Glyph.check_mark ++ " Timesheet #") ++ str_of_Z (DeleteTimesheetInput.id params)
                         ++ " deleted successfully."))
  | get_project params =>
      payload <~ KimaiClient.request client "GET"
                   ("projects/" ++ str_of_Z (GetProjectInput.id params)) None None ;;
      render_one (GetProjectInput.format params) format_project_markdown payload
  | create_project params =>
      payload <~ KimaiClient.request client "POST" "projects" None
                   (Some (VDict (create_project_data params))) ;;
      announce (Glyph.check_mark ++ " Project created successfully!") format_project_markdown payload
  | update_project params =>
      payload <~ KimaiClient.request client "PATCH"
                   ("projects/" ++ str_of_Z (UpdateProjectInput.id params)) None
                   (Some (VDict (update_project_data params))) ;;
      announce (Glyph.check_mark ++ " Project updated successfully!") format_project_markdown payload
  | get_activity params =>
      payload <~ KimaiClient.request client "GET"
                   ("activities/" ++ str_of_Z (GetActivityInput.id params)) None None ;;
      render_one (GetActivityInput.format params) format_activity_markdown payload
  | create_activity params =>
      payload <~ KimaiClient.request client "POST" "activities" None
                   (Some (VDict (create_activity_data params))) ;;
      announce (Glyph.check_mark ++ " Activity created successfully!") format_activity_markdown payload
  | update_activity params =>
      payload <~ KimaiClient.request client "PATCH"
                   ("activities/" ++ str_of_Z (UpdateActivityInput.id params)) None
                   (Some (VDict (update_activity_data params))) ;;
      announce (Glyph.check_mark ++ " Activity updated successfully!") format_activity_markdown payload
  | get_customer params =>
      payload <~ KimaiClient.request client "GET"
                   ("customers/" ++ str_of_Z (GetCustomerInput.id params)) None None ;;
      render_one (GetCustomerInput.format params) format_customer_markdown payload
  | create_customer params =>
      payload <~ KimaiClient.request client "POST" "customers" None
                   (Some (VDict (create_customer_data params))) ;;
      announce (Glyph.check_mark ++ " Customer created successfully!") format_customer_markdown payload
  | update_customer params =>
      payload <~ KimaiClient.request client "PATCH"
                   ("customers/" ++ str_of_Z (UpdateCustomerInput.id params)) None
                   (Some (VDict (update_customer_data params))) ;;
      announce (Glyph.check_mark ++ " Customer updated successfully!") format_customer_markdown payload
  end.

(** [call_tool] on these tools, with its handler of exceptions. *)
Definition call_other (client : KimaiClient.t) (now : string) (call : OtherCall)
    (remote : Httpx.Remote) (sent : list Httpx.Request)
  : list TextContent * list Httpx.Request :=
  match call_other_body client now call remote sent with
  | (Ok out, sent') => (out, sent')
  | (Raise e, sent') => (text_content ("Error: " ++ exn_str e), sent')
  end.

(** What each of these tools asks of the remote: the verb, the endpoint
    and the body, read off its branch. *)
Definition verb_of (call : OtherCall) : string :=
  match call with
  | start_timesheet _ | create_timesheet _ | create_project _
  | create_activity _ | create_customer _ => "POST"
  | update_timesheet _ | update_project _ | update_activity _
  | update_customer _ => "PATCH"
  | delete_timesheet _ => "DELETE"
  | get_project _ | get_activity _ | get_customer _ => "GET"
  end.

(** The format that a listing call asks for. *)
Definition listing_format (call : ToolCall) : string :=
  match call with
  | list_timesheets params => ListTimesheetsInput.format params
  | list_projects params => ListProjectsInput.format params
  | list_activities params => ListActivitiesInput.format params
  | list_customers params => ListCustomersInput.format params
  | _ => EmptyString
  end.

(** The list [lines] that the list formatter of a listing tool joins,
    and the sentence that it returns for an empty page. *)
Definition page_lines (call : ToolCall) (payload : value) : result (list string) :=
  match call with
  | list_timesheets _ => timesheets_lines payload
  | list_projects _ => entities_lines "Projects" format_project_markdown payload
  | list_activities _ => entities_lines "Activities" format_activity_markdown payload
  | list_customers _ => entities_lines "Customers" format_customer_markdown payload
  | _ => Ok []
  end.

Definition nothing_found (call : ToolCall) : string :=
  match call with
  | list_timesheets _ => "No timesheets found."
  | list_projects _ => "No projects found."
  | list_activities _ => "No activities found."
  | list_customers _ => "No customers found."
  | _ => EmptyString
  end.

(** The string that a boolean query parameter travels as. *)
Definition flag (b : bool) : value := VStr (if b then "1" else "0").

(** What a string parameter contributes to a query or a body when the
    test is its truth value. *)
Definition sent_text (o : option string) : option value :=
  match o with
  | Some s => if Urllib.is_empty s then None else Some (VStr s)
  | None => None
  end.

(* ================================================================== *)
(** ** [test_connection.py] *)
(* ================================================================== *)

Module TestConnection.

(** [s[k:]] for any integer [k]: a negative bound counts from the end. *)
Definition slice_from (s : string) (k : Z) : string :=
  let n := Z.of_nat (String.length s) in
  let start := if k <? 0 then Z.max 0 (n + k) else Z.min k n in
  substring (Z.to_nat start) (Z.to_nat (n - start)) s.

(** The token as the script shows it: its first eight characters, three
    dots and its last four. *)
Definition shown_token (api_token : string) : string :=
  slice_to api_token 8 ++ "..." ++ slice_from api_token (-4).

(** One of the five numbered steps: the line that announces it, the
    request, and the line that reports its result. *)
Record Step : Type := {
  announce_line : string;
  endpoint : string;
  params : option (list (string * value));
  report : value -> result string
}.

Definition found (what : string) (payload : value) : result string :=
  n <- Py.len payload ;;
  Ok (("   " ++ Glyph.check_mark ++ " Found ") ++ str_of_Z n ++ " " ++ what).

Definition size_five : option (list (string * value)) := Some [("size", VInt 5)].

Definition steps : list Step :=
  [ {| announce_line := ("1" ++ Glyph.keycap ++ "  Testing version endpoint...");
       endpoint := "version";
       params := None;
       report := fun version =>
         v <- Py.get version "version" ;;
         Ok (("   " ++ Glyph.check_mark ++ " Connected to KIMAI ") ++ Py.str v) |};
    {| announce_line := nl ++ ("2" ++ Glyph.keycap ++ "  Testing timesheets endpoint...");
       endpoint := "timesheets";
       params := size_five;
       report := found "recent timesheets" |};
    {| announce_line := nl ++ ("3" ++ Glyph.keycap ++ "  Testing projects endpoint...");
       endpoint := "projects";
       params := size_five;
       report := found "projects" |};
    {| announce_line := nl ++ ("4" ++ Glyph.keycap ++ "  Testing activities endpoint...");
       endpoint := "activities";
       params := size_five;
       report := found "activities" |};
    {| announce_line := nl ++ ("5" ++ Glyph.keycap ++ "  Testing customers endpoint...");
       endpoint := "customers";
       params := size_five;
       report := found "customers" |} ].

(** What a run leaves behind: the value returned, the texts printed and
    the requests issued. *)
Record Run : Type := {
  success : bool;
  printed : list string;
  requests : list Httpx.Request
}.

Definition failed (e : exn) : string :=
  nl ++ (Glyph.cross_mark ++ " Connection test failed: ") ++ exn_str e.

Definition all_passed : string :=
  nl ++ (Glyph.white_check_mark ++ " All tests passed! KIMAI MCP server is ready to use.").

(** The [try] block: the steps in turn, up to the first exception. *)
Fixpoint run_steps (client : KimaiClient.t) (todo : list Step)
    (remote : Httpx.Remote) (sent : list Httpx.Request) (out : list string) : Run :=
  match todo with
  | [] =>
      {| success := true;
         printed := (out ++ [all_passed])%list;
         requests := sent |}
  | step :: rest =>
      let out := (out ++ [announce_line step])%list in
      match KimaiClient.request client "GET" (endpoint step) (params step) None
              remote sent with
      | (Ok payload, sent') =>
          match report step payload with
          | Ok line => run_steps client rest remote sent' (out ++ [line])%list
          | Raise e =>
              {| success := false; printed := (out ++ [failed e])%list;
                 requests := sent' |}
          end
      | (Raise e, sent') =>
          {| success := false; printed := (out ++ [failed e])%list;
             requests := sent' |}
      end
  end.

Definition falsy (o : option string) : bool :=
  match o with
  | Some s => Urllib.is_empty s
  | None => true
  end.

Definition greeting : list string :=
  [(Glyph.magnifying_glass ++ " Testing KIMAI API Connection...") ++ nl].

(** The lines printed when a variable of the environment is missing. *)
Definition missing_variables : list string :=
  [ (Glyph.cross_mark ++ " Error: Missing environment variables");
    "   Please set KIMAI_BASE_URL and KIMAI_API_TOKEN";
    nl ++ "   Example:";
    "   export KIMAI_BASE_URL=http://localhost:8001";
    "   export KIMAI_API_TOKEN=your_token_here" ].

(** The lines that show the configuration. *)
Definition configuration (url token : string) : list string :=
  [ (Glyph.round_pushpin ++ " KIMAI URL: ") ++ url;
    (Glyph.key_sign ++ " API Token: ") ++ shown_token token ++ nl ].

(** [test_connection]. *)
Definition test_connection (environ : Environ) (remote : Httpx.Remote)
    (sent : list Httpx.Request) : Run :=
  let base_url := environ "KIMAI_BASE_URL" in
  let api_token := environ "KIMAI_API_TOKEN" in
  if falsy base_url || falsy api_token
  then {| success := false;
          printed := (greeting ++ missing_variables)%list;
          requests := sent |}
  else
    let url := match base_url with Some u => u | None => EmptyString end in
    let token := match api_token with Some t => t | None => EmptyString end in
    let config := {| KimaiConfig.base_url := url; KimaiConfig.api_token := token |} in
    run_steps (KimaiClient.init config) steps remote sent
      (greeting ++ configuration url token)%list.

(** The exit status of the script. *)
Definition exit_code (run : Run) : Z := if success run then 0 else 1.

End TestConnection.

(** The tools of [ToolCall] that only read: the listings and
    [get_timesheet]. *)
Definition is_read (call : ToolCall) : bool :=
  match call with
  | stop_timesheet _ | unknown_tool _ => false
  | _ => true
  end.

(** Further inputs at which properties are evaluated. *)
Module Case.

(** A remote that cannot be reached. *)
Definition unreachable : Httpx.Remote :=
  fun _ _ => Httpx.RequestError "All connection attempts failed".

Definition timesheets_as_markdown : ListTimesheetsInput.t :=
  {| ListTimesheetsInput.user := Some 3;
     ListTimesheetsInput.customer := None;
     ListTimesheetsInput.project := None;
     ListTimesheetsInput.activity := None;
     ListTimesheetsInput.page := 1;
     ListTimesheetsInput.size := 50;
     ListTimesheetsInput.active := Some false;
     ListTimesheetsInput.exported := None;
     ListTimesheetsInput.begin := Some EmptyString;
     ListTimesheetsInput.end_ := Some "2025-11-30T23:59:59";
     ListTimesheetsInput.format := "markdown" |}.

(** A page of two timesheets; the second is running and the remote
    reports its duration as null. *)
Definition page_with_null_duration : list value :=
  [ VDict [("id", VInt 1); ("duration", VInt 3600)];
    VDict [("id", VInt 2); ("duration", VNone)] ].

(** Two entries, and the same two in the other order. *)
Definition two_entries : list Entry.t :=
  [ Sample.entry 3600 true (Some 1) (Some 10);
    Sample.entry 1800 false None (Some 11) ].

Definition two_entries_swapped : list Entry.t :=
  [ Sample.entry 1800 false None (Some 11);
    Sample.entry 3600 true (Some 1) (Some 10) ].

(** A page of one running timesheet whose description has [n]
    characters, and a request for it in the markdown format. The
    markdown text of the page has [n + 258] characters. *)
Definition description (n : Z) : string :=
  string_of_list_ascii (repeat "a"%char (Z.to_nat n)).

Definition described (n : Z) : value :=
  VList [VDict [("id", VInt 1); ("end", VNone); ("description", VStr (description n))]].

Definition described_json (n : Z) : string :=
  "[{" ++ Sample.quoted "id" ++ ":1," ++ Sample.quoted "end" ++ ":null,"
  ++ Sample.quoted "description" ++ ":" ++ Sample.quoted (description n) ++ "}]".

Definition described_page (n : Z) : Httpx.Response :=
  {| Httpx.status_code := 200;
     Httpx.content := described_json n;
     Httpx.text := described_json n;
     Httpx.json_body := Ok (described n) |}.

(** Three projects, the first and the last with the same seconds. *)
Definition tied : list Entry.t :=
  [ Sample.entry 1800 true (Some 1) (Some 10);
    Sample.entry 3600 false (Some 2) (Some 10);
    Sample.entry 1800 true (Some 3) (Some 11) ].

(** The markdown report of these three entries. *)
Definition tied_report : string :=
  join nl [ "# Timesheet Summary Report";
            EmptyString;
            "## Overview";
            "**Total Entries:** 3";
            "**Total Time:** 2.00 hours";
            "**Billable Time:** 1.00 hours (50.0%)";
            "**Non-Billable Time:** 1.00 hours (50.0%)";
            EmptyString;
            "## By Project";
            "- Project #2: 1.00 hours (1 entries)";
            "- Project #1: 0.50 hours (1 entries)";
            "- Project #3: 0.50 hours (1 entries)";
            EmptyString;
            "## By Activity";
            "- Activity #10: 1.50 hours (2 entries)";
            "- Activity #11: 0.50 hours (1 entries)" ].

(** The scenario of three entries as the remote sends it. *)
Definition scenario_page : list value :=
  [ VDict [("duration", VInt 3600); ("billable", VBool true);
           ("project", VInt 1); ("activity", VInt 10)];
    VDict [("duration", VInt 1800); ("billable", VBool false);
           ("project", VInt 1); ("activity", VInt 11)];
    VDict [("duration", VInt 7200); ("billable", VBool true);
           ("project", VInt 2); ("activity", VInt 10)] ].


(** An entry whose hours exceed every float, and its page. *)
Definition endless_page : list value :=
  [ VDict [("duration", VInt (3600 * 2 ^ 1024)); ("billable", VBool true);
           ("project", VInt 1); ("activity", VInt 10)] ].

(** An entry whose hours exceed every float. *)
Definition endless : list Entry.t :=
  [ Sample.entry (3600 * 2 ^ 1024) true (Some 1) (Some 10) ].

(** Two entries that have just been started. *)
Definition idle : list Entry.t :=
  [ Sample.entry 0 true (Some 1) (Some 10);
    {| Entry.duration := None; Entry.billable := Some false;
       Entry.project := Some 2; Entry.activity := None |} ].

Definition delete_five : DeleteTimesheetInput.t :=
  {| DeleteTimesheetInput.id := 5 |}.

(** A timesheet that is still running, as the remote reports it. *)
Definition running_timesheet : Httpx.Response :=
  {| Httpx.status_code := 200;
     Httpx.content := "{" ++ Sample.quoted "id" ++ ":7," ++ Sample.quoted "end" ++ ":null}";
     Httpx.text := "{" ++ Sample.quoted "id" ++ ":7," ++ Sample.quoted "end" ++ ":null}";
     Httpx.json_body := Ok (VDict [("id", VInt 7); ("end", VNone)]) |}.

End Case.

(** Whether a tool of [OtherCall] sends a JSON body. *)
Definition has_body (call : OtherCall) : bool :=
  match call with
  | delete_timesheet _ | get_project _ | get_activity _ | get_customer _ => false
  | _ => true
  end.

(** The base URLs for which the request URL is a concatenation: a
    scheme [http] or [https], a host, no path. A host is made of visible
    ASCII characters without the delimiters of a network location and
    without brackets; an endpoint is made of letters, digits, slashes,
    hyphens and underscores. *)
Definition host_char (c : ascii) : bool :=
  let n := N_of_ascii c in
  ((33 <=? n) && (n <=? 126) && negb (n =? 47) && negb (n =? 63)
   && negb (n =? 35) && negb (n =? 91) && negb (n =? 93))%N.

Definition endpoint_char (c : ascii) : bool :=
  let n := N_of_ascii c in
  (Urllib.is_alpha c || (48 <=? n) && (n <=? 57) || (n =? 47) || (n =? 45)
   || (n =? 95))%N.

Definition origin (secure : bool) (host : string) : string :=
  (if secure then "https" else "http") ++ "://" ++ host.

Definition slashes (n : nat) : string :=
  string_of_list_ascii (repeat "/"%char n).

(** A record of a page as [format_timesheets_markdown] needs it: a JSON
    object whose [duration], when present, is a number. *)
Definition is_dict (v : value) : bool :=
  match v with
  | VDict _ => true
  | _ => false
  end.

Definition numeric_duration (v : value) : bool :=
  match v with
  | VDict d =>
      match Py.lookup "duration" d with
      | Some x => match Py.as_int x with Some _ => true | None => false end
      | None => true
      end
  | _ => false
  end.

(** The five requests of [test_connection], as a client issues them. *)
Definition probes (client : KimaiClient.t) : list Httpx.Request :=
  [ KimaiClient.build_request client "GET" "version" None None;
    KimaiClient.build_request client "GET" "timesheets" (Some [("size", VInt 5)]) None;
    KimaiClient.build_request client "GET" "projects" (Some [("size", VInt 5)]) None;
    KimaiClient.build_request client "GET" "activities" (Some [("size", VInt 5)]) None;
    KimaiClient.build_request client "GET" "customers" (Some [("size", VInt 5)]) None ].

(** The request of one step of [test_connection]. *)
Definition probe (client : KimaiClient.t) (step : TestConnection.Step)
  : Httpx.Request :=
  KimaiClient.build_request client "GET" (TestConnection.endpoint step)
    (TestConnection.params step) None.

(** The client that [test_connection] builds from the environment. *)
Definition tested_client (environ : Environ) : KimaiClient.t :=
  KimaiClient.init
    {| KimaiConfig.base_url := environ_get environ "KIMAI_BASE_URL" EmptyString;
       KimaiConfig.api_token := environ_get environ "KIMAI_API_TOKEN" EmptyString |}.

(** The word that the markdown report puts before the key of a group. *)
Definition label_of (g : Summary.grouping) : string :=
  match g with
  | Summary.ByProject => "Project"
  | Summary.ByActivity => "Activity"
  end.

(** The groups of a payload under one of the two groupings. *)
Definition groups_of (g : Summary.grouping) (p : Summary.Payload.t)
  : list (string * Summary.Payload.group) :=
  match g with
  | Summary.ByProject => Summary.Payload.by_project p
  | Summary.ByActivity => Summary.Payload.by_activity p
  end.


(* ================================================================== *)
(** * Properties *)
(* ================================================================== *)

(** ** Strings *)

Lemma prefix_app (a b : string) : prefix a (a ++ b) = true.
Proof.
  induction a as [| c a IH]; simpl.
  - now destruct b.
  - destruct (ascii_dec c c); [assumption | contradiction].
Qed.

Lemma contains_prefix (needle hay : string) :
  prefix needle hay = true -> contains needle hay = true.
Proof.
  intros H. destruct hay; cbn [contains]; now rewrite H.
Qed.

Lemma contains_app (front needle back : string) :
  contains needle (front ++ needle ++ back) = true.
Proof.
  induction front as [| c front IH]; simpl.
  - apply contains_prefix, prefix_app.
  - rewrite IH. apply orb_true_r.
Qed.

Lemma app_assoc_str (a b c : string) : (a ++ b) ++ c = a ++ b ++ c.
Proof.
  induction a as [| x a IH]; simpl; [reflexivity | now rewrite IH].
Qed.

Lemma contains_app3 (a b c needle back : string) :
  contains needle (a ++ b ++ c ++ needle ++ back) = true.
Proof.
  replace (a ++ b ++ c ++ needle ++ back) with ((a ++ b ++ c) ++ needle ++ back)
    by (now rewrite !app_assoc_str).
  apply contains_app.
Qed.

Lemma length_app (a b : string) :
  String.length (a ++ b) = (String.length a + String.length b)%nat.
Proof.
  induction a as [| c a IH]; simpl; [reflexivity | now rewrite IH].
Qed.

Lemma substring_0_length (n : nat) (s : string) :
  String.length (substring 0 n s) = Nat.min n (String.length s).
Proof.
  revert s; induction n as [| n IH]; intros s.
  - now destruct s.
  - destruct s as [| c s]; simpl; [reflexivity | now rewrite IH].
Qed.

(** ** Dictionaries *)

Section DictFacts.
Context {K V : Type} (eqb : K -> K -> bool).
Hypothesis eqb_eq : forall a b, eqb a b = true <-> a = b.

Lemma eqb_refl (k : K) : eqb k k = true.
Proof. now apply eqb_eq. Qed.

Lemma eqb_trans_l (a b c : K) : eqb a b = true -> eqb a c = eqb b c.
Proof. intros H. apply eqb_eq in H. now subst. Qed.

Lemma dict_get_set (k k' : K) (v : V) (d : list (K * V)) :
  dict_get eqb k (dict_set eqb k' v d)
  = if eqb k' k then Some v else dict_get eqb k d.
Proof.
  induction d as [| [k0 v0] d IH]; simpl.
  - reflexivity.
  - destruct (eqb k0 k') eqn:E0; simpl.
    + rewrite (eqb_trans_l _ _ _ E0). now destruct (eqb k' k).
    + rewrite IH. destruct (eqb k0 k) eqn:E1; [| reflexivity].
      destruct (eqb k' k) eqn:E2; [| reflexivity].
      apply eqb_eq in E1, E2. subst. rewrite eqb_refl in E0. discriminate.
Qed.

Lemma dict_get_update (k k' : K) (f : V -> V) (d : list (K * V)) :
  dict_get eqb k (dict_update eqb k' f d)
  = if eqb k' k then option_map f (dict_get eqb k d) else dict_get eqb k d.
Proof.
  induction d as [| [k0 v0] d IH]; simpl.
  - now destruct (eqb k' k).
  - destruct (eqb k0 k') eqn:E0; simpl.
    + rewrite (eqb_trans_l _ _ _ E0). now destruct (eqb k' k).
    + rewrite IH. destruct (eqb k0 k) eqn:E1; [| reflexivity].
      destruct (eqb k' k) eqn:E2; [| reflexivity].
      apply eqb_eq in E1, E2. subst. rewrite eqb_refl in E0. discriminate.
Qed.

Lemma dict_set_new (k : K) (v : V) (d : list (K * V)) :
  dict_mem eqb k d = false -> dict_set eqb k v d = (d ++ [(k, v)])%list.
Proof.
  unfold dict_mem. induction d as [| [k0 v0] d IH]; simpl; intros H.
  - reflexivity.
  - destruct (eqb k0 k); [discriminate |]. now rewrite IH.
Qed.

Lemma dict_update_keys (k : K) (f : V -> V) (d : list (K * V)) :
  map fst (dict_update eqb k f d) = map fst d.
Proof.
  induction d as [| [k0 v0] d IH]; simpl; [reflexivity |].
  destruct (eqb k0 k); simpl; [reflexivity | now rewrite IH].
Qed.

Lemma dict_mem_keys (k : K) (d : list (K * V)) :
  dict_mem eqb k d = existsb (fun k' => eqb k' k) (map fst d).
Proof.
  unfold dict_mem. induction d as [| [k0 v0] d IH]; simpl; [reflexivity |].
  destruct (eqb k0 k); simpl; [reflexivity | exact IH].
Qed.

(** An update in place changes a sum over the values by what it adds to
    the value it touches. *)
Lemma dict_update_measure (m : V -> Z) (delta : Z) (k : K) (f : V -> V)
    (d : list (K * V)) :
  (forall v, m (f v) = m v + delta) ->
  dict_mem eqb k d = true ->
  fold_left Z.add (map (fun kv => m (snd kv)) (dict_update eqb k f d)) 0
  = fold_left Z.add (map (fun kv => m (snd kv)) d) 0 + delta.
Proof.
  intros Hf. unfold dict_mem.
  assert (shift : forall l a, fold_left Z.add l a = a + fold_left Z.add l 0).
  { induction l as [| x l IHl]; intros a; simpl; [lia |].
    rewrite IHl, (IHl x). lia. }
  induction d as [| [k0 v0] d IH]; simpl; intros H.
  - discriminate.
  - destruct (eqb k0 k); simpl.
    + rewrite shift, (shift _ (m v0)), Hf. lia.
    + rewrite shift, (shift _ (m v0)), IH by assumption. lia.
Qed.

Lemma dict_get_In (k : K) (v : V) (d : list (K * V)) :
  NoDup (map fst d) -> In (k, v) d -> dict_get eqb k d = Some v.
Proof.
  induction d as [| [k0 v0] d IH]; simpl; intros Hnd Hin; [contradiction |].
  inversion Hnd as [| ? ? Hnotin Hnd']; subst.
  destruct Hin as [Heq | Hin].
  - inversion Heq; subst. now rewrite eqb_refl.
  - destruct (eqb k0 k) eqn:E.
    + apply eqb_eq in E; subst. exfalso. apply Hnotin.
      change k with (fst (k, v)). now apply in_map.
    + now apply IH.
Qed.
End DictFacts.

(** ** Sorting *)

Section SortedFacts.
Context {A : Type} (key : A -> Z).

Lemma insert_perm (x : A) (l : list A) : Permutation (x :: l) (insert key x l).
Proof.
  induction l as [| y l IH]; simpl.
  - apply Permutation_refl.
  - destruct (key x <=? key y).
    + apply Permutation_refl.
    + eapply perm_trans; [apply perm_swap |]. now apply perm_skip.
Qed.

Lemma sort_stable_perm (l : list A) : Permutation l (sort_stable key l).
Proof.
  induction l as [| x l IH]; simpl.
  - apply perm_nil.
  - eapply perm_trans; [apply perm_skip, IH | apply insert_perm].
Qed.

Lemma insert_ascending (x : A) (l : list A) :
  StronglySorted (ascending key) l -> StronglySorted (ascending key) (insert key x l).
Proof.
  induction l as [| y l IH]; simpl; intros Hs.
  - constructor; constructor.
  - inversion Hs as [| ? ? Hs' Hall]; subst.
    destruct (key x <=? key y) eqn:E.
    + apply Z.leb_le in E. constructor; [assumption |].
      constructor; [exact E |].
      eapply Forall_impl; [| exact Hall].
      unfold ascending; intros a Ha; lia.
    + apply Z.leb_gt in E. constructor; [now apply IH |].
      eapply Permutation_Forall; [apply insert_perm |].
      constructor; [unfold ascending; lia | assumption].
Qed.

Lemma sort_stable_ascending (l : list A) :
  StronglySorted (ascending key) (sort_stable key l).
Proof.
  induction l as [| x l IH]; simpl; [constructor | now apply insert_ascending].
Qed.

(** Insertion puts [x] in front of the elements of its own key. *)
Lemma insert_filter (d : Z) (x : A) (l : list A) :
  filter (has_key key d) (insert key x l) = filter (has_key key d) (x :: l).
Proof.
  induction l as [| y l IH]; simpl; [reflexivity |].
  destruct (key x <=? key y) eqn:E; [reflexivity |].
  apply Z.leb_gt in E. simpl in *. rewrite IH.
  unfold has_key. destruct (key x =? d) eqn:Ex; [| reflexivity].
  apply Z.eqb_eq in Ex.
  assert (Hy : (key y =? d) = false) by (apply Z.eqb_neq; lia).
  now rewrite Hy.
Qed.

Lemma sort_stable_filter (d : Z) (l : list A) :
  filter (has_key key d) (sort_stable key l) = filter (has_key key d) l.
Proof.
  induction l as [| x l IH]; simpl; [reflexivity |].
  rewrite insert_filter. simpl. now rewrite IH.
Qed.

Lemma StronglySorted_snoc (R : A -> A -> Prop) (l : list A) (x : A) :
  StronglySorted R l -> Forall (fun a => R a x) l -> StronglySorted R (l ++ [x]).
Proof.
  induction l as [| y l IH]; simpl; intros Hs Hall.
  - constructor; constructor.
  - inversion Hs; subst. inversion Hall; subst.
    constructor; [now apply IH |].
    apply Forall_app. split; [assumption | now constructor].
Qed.

Lemma rev_descending (l : list A) :
  StronglySorted (ascending key) l -> StronglySorted (descending key) (rev l).
Proof.
  induction l as [| x l IH]; simpl; intros Hs; [constructor |].
  inversion Hs as [| ? ? Hs' Hall]; subst.
  apply StronglySorted_snoc; [now apply IH |].
  apply Forall_rev. exact Hall.
Qed.

(** [sorted] with [reverse] lists by decreasing key. *)
Lemma sorted_reverse_descending (l : list A) :
  StronglySorted (descending key) (sorted key true l).
Proof. apply rev_descending, sort_stable_ascending. Qed.

Lemma sorted_reverse_perm (l : list A) : Permutation l (sorted key true l).
Proof.
  unfold sorted. eapply perm_trans; [apply Permutation_rev |].
  eapply perm_trans; [apply sort_stable_perm | apply Permutation_rev].
Qed.

(** [sorted] with [reverse] is stable: the elements of one key come out
    in the order in which they went in. *)
Lemma sorted_reverse_stable (d : Z) (l : list A) :
  filter (has_key key d) (sorted key true l) = filter (has_key key d) l.
Proof.
  unfold sorted.
  rewrite filter_rev, sort_stable_filter, filter_rev. apply rev_involutive.
Qed.
End SortedFacts.

(** ** The grouping loops *)

Module SummaryFacts.
Import Summary.

Lemma key_eqb_eq (a b : option Z) : key_eqb a b = true <-> a = b.
Proof.
  destruct a as [x |], b as [y |]; simpl; split; intros H;
    try discriminate; try reflexivity.
  - apply Z.eqb_eq in H. now subst.
  - inversion H. apply Z.eqb_refl.
Qed.

Lemma sum_shift (l : list Z) (a : Z) : fold_left Z.add l a = a + sum l.
Proof.
  unfold sum. revert a. induction l as [| x l IH]; intros a; simpl; [lia |].
  rewrite IH, (IH x). lia.
Qed.

Lemma sum_cons (x : Z) (l : list Z) : sum (x :: l) = x + sum l.
Proof. unfold sum at 1. simpl. apply sum_shift. Qed.

Lemma sum_app (l1 l2 : list Z) : sum (l1 ++ l2) = sum l1 + sum l2.
Proof.
  induction l1 as [| x l1 IH]; simpl.
  - reflexivity.
  - rewrite !sum_cons, IH. lia.
Qed.

Section Grouping.
Variable key : Entry.t -> option Z.

Lemma group_step_mem (by_key : list (option Z * Group.t)) (ts : Entry.t) :
  dict_mem key_eqb (key ts)
    (if negb (dict_mem key_eqb (key ts) by_key)
     then dict_set key_eqb (key ts) zero_group by_key
     else by_key) = true.
Proof.
  destruct (dict_mem key_eqb (key ts) by_key) eqn:E; simpl; [exact E |].
  unfold dict_mem. rewrite (dict_get_set key_eqb key_eqb_eq).
  now rewrite (eqb_refl key_eqb key_eqb_eq).
Qed.

(** The group found under [k] after one turn of the loop. *)
Lemma group_step_get (k : option Z) (by_key : list (option Z * Group.t))
    (ts : Entry.t) :
  dict_get key_eqb k (group_step key by_key ts)
  = if key_eqb (key ts) k
    then Some (credit ts match dict_get key_eqb k by_key with
                         | Some g => g
                         | None => zero_group
                         end)
    else dict_get key_eqb k by_key.
Proof.
  unfold group_step.
  rewrite !(dict_get_update key_eqb key_eqb_eq).
  destruct (key_eqb (key ts) k) eqn:Ek.
  - apply key_eqb_eq in Ek. subst k.
    unfold dict_mem.
    destruct (dict_get key_eqb (key ts) by_key) as [g |] eqn:Eg; simpl.
    + rewrite Eg. reflexivity.
    + rewrite (dict_get_set key_eqb key_eqb_eq).
      rewrite (eqb_refl key_eqb key_eqb_eq). reflexivity.
  - destruct (negb (dict_mem key_eqb (key ts) by_key)); [| reflexivity].
    rewrite (dict_get_set key_eqb key_eqb_eq). now rewrite Ek.
Qed.

Lemma group_step_seconds (by_key : list (option Z * Group.t)) (ts : Entry.t) :
  seconds_of (group_step key by_key ts) = seconds_of by_key + get_duration ts.
Proof.
  unfold group_step, seconds_of, sum.
  pose proof (group_step_mem by_key ts) as Hmem. fold zero_group.
  set (d1 := if negb (dict_mem key_eqb (key ts) by_key)
             then dict_set key_eqb (key ts) zero_group by_key else by_key) in *.
  rewrite (dict_update_measure key_eqb Group.duration 0); cycle 1.
  { intros v; simpl; lia. }
  { unfold dict_mem in *.
    rewrite (dict_get_update key_eqb key_eqb_eq), (eqb_refl key_eqb key_eqb_eq).
    destruct (dict_get key_eqb (key ts) d1); [reflexivity | discriminate]. }
  rewrite (dict_update_measure key_eqb Group.duration (get_duration ts));
    [| intros v; reflexivity | exact Hmem].
  subst d1. destruct (dict_mem key_eqb (key ts) by_key) eqn:E; simpl; [lia |].
  rewrite (dict_set_new key_eqb _ _ _ E), map_app, fold_left_app. simpl. lia.
Qed.

Lemma group_step_counts (by_key : list (option Z * Group.t)) (ts : Entry.t) :
  counts_of (group_step key by_key ts) = counts_of by_key + 1.
Proof.
  unfold group_step, counts_of, sum.
  pose proof (group_step_mem by_key ts) as Hmem. fold zero_group.
  set (d1 := if negb (dict_mem key_eqb (key ts) by_key)
             then dict_set key_eqb (key ts) zero_group by_key else by_key) in *.
  rewrite (dict_update_measure key_eqb Group.count 1); cycle 1.
  { intros v; reflexivity. }
  { unfold dict_mem in *.
    rewrite (dict_get_update key_eqb key_eqb_eq), (eqb_refl key_eqb key_eqb_eq).
    destruct (dict_get key_eqb (key ts) d1); [reflexivity | discriminate]. }
  rewrite (dict_update_measure key_eqb Group.count 0);
    [| intros v; simpl; lia | exact Hmem].
  subst d1. destruct (dict_mem key_eqb (key ts) by_key) eqn:E; simpl; [lia |].
  rewrite (dict_set_new key_eqb _ _ _ E), map_app, fold_left_app. simpl. lia.
Qed.

Lemma group_step_keys (by_key : list (option Z * Group.t)) (ts : Entry.t) :
  map fst (group_step key by_key ts)
  = if dict_mem key_eqb (key ts) by_key
    then map fst by_key
    else (map fst by_key ++ [key ts])%list.
Proof.
  unfold group_step. rewrite !dict_update_keys.
  destruct (dict_mem key_eqb (key ts) by_key) eqn:E; simpl; [reflexivity |].
  rewrite (dict_set_new key_eqb _ _ _ E), map_app. reflexivity.
Qed.

(** The loop as a whole, from any dictionary built so far. *)
Lemma fold_seconds (timesheets : list Entry.t) (by_key : list (option Z * Group.t)) :
  seconds_of (fold_left (group_step key) timesheets by_key)
  = seconds_of by_key + sum (map get_duration timesheets).
Proof.
  revert by_key. induction timesheets as [| ts rest IH]; intros by_key; simpl.
  - unfold sum. simpl. lia.
  - rewrite IH, group_step_seconds, sum_cons. lia.
Qed.

Lemma fold_counts (timesheets : list Entry.t) (by_key : list (option Z * Group.t)) :
  counts_of (fold_left (group_step key) timesheets by_key)
  = counts_of by_key + Z.of_nat (List.length timesheets).
Proof.
  revert by_key. induction timesheets as [| ts rest IH]; intros by_key.
  - simpl. lia.
  - cbn [fold_left List.length]. rewrite IH, group_step_counts. lia.
Qed.

(** The group of [k] gathers the entries of key [k], in seconds and in
    number, on top of what the dictionary held before. *)
Lemma fold_get (k : option Z) (timesheets : list Entry.t)
    (by_key : list (option Z * Group.t)) :
  dict_get key_eqb k (fold_left (group_step key) timesheets by_key)
  = match entries_with key k timesheets with
    | [] => dict_get key_eqb k by_key
    | es =>
        let g := match dict_get key_eqb k by_key with
                 | Some g => g
                 | None => zero_group
                 end in
        Some {| Group.duration := Group.duration g + sum (map get_duration es);
                Group.count := Group.count g + Z.of_nat (List.length es) |}
    end.
Proof.
  revert by_key. induction timesheets as [| ts rest IH]; intros by_key.
  - reflexivity.
  - cbn [fold_left]. rewrite IH, group_step_get.
    unfold entries_with. cbn [filter].
    destruct (key_eqb (key ts) k) eqn:Ek.
    + fold (entries_with key k rest).
      destruct (entries_with key k rest) as [| e es] eqn:Ees.
      * unfold credit. cbn [map List.length]. cbv zeta.
        replace (sum [get_duration ts]) with (get_duration ts)
          by (unfold sum; simpl; lia).
        reflexivity.
      * cbv zeta. unfold credit. cbn [Group.duration Group.count].
        cbn [map]. rewrite (sum_cons (get_duration ts)).
        replace (Z.of_nat (List.length (ts :: e :: es)))
          with (1 + Z.of_nat (List.length (e :: es))) by (cbn [List.length]; lia).
        cbn [map]. rewrite !Z.add_assoc. reflexivity.
    + fold (entries_with key k rest). reflexivity.
Qed.

Lemma group_step_dict_mem (k : option Z) (by_key : list (option Z * Group.t))
    (ts : Entry.t) :
  dict_mem key_eqb k (group_step key by_key ts)
  = key_eqb (key ts) k || dict_mem key_eqb k by_key.
Proof.
  unfold dict_mem. rewrite group_step_get.
  now destruct (key_eqb (key ts) k).
Qed.

Lemma filter_andb (f g : option Z -> bool) (l : list (option Z)) :
  filter g (filter f l) = filter (fun x => f x && g x) l.
Proof.
  induction l as [| a l IH]; simpl; [reflexivity |].
  destruct (f a); simpl; [| exact IH].
  destruct (g a); [now rewrite IH | exact IH].
Qed.

(** The keys come in the order in which the loop first meets them. *)
Lemma fold_keys (timesheets : list Entry.t) (by_key : list (option Z * Group.t)) :
  map fst (fold_left (group_step key) timesheets by_key)
  = (map fst by_key
     ++ filter (fun k => negb (dict_mem key_eqb k by_key))
          (first_seen (map key timesheets)))%list.
Proof.
  revert by_key. induction timesheets as [| ts rest IH]; intros by_key.
  - simpl. now rewrite app_nil_r.
  - cbn [fold_left map first_seen]. rewrite IH, group_step_keys.
    rewrite (filter_ext _
               (fun k => negb (key_eqb (key ts) k)
                         && negb (dict_mem key_eqb k by_key)))
      by (intros k; rewrite group_step_dict_mem; apply negb_orb).
    rewrite <- filter_andb. cbn [filter].
    destruct (dict_mem key_eqb (key ts) by_key) eqn:E; cbn [negb].
    + reflexivity.
    + rewrite <- app_assoc. reflexivity.
Qed.

End Grouping.

Lemma grouped_fold (g : grouping) (timesheets : list Entry.t) :
  grouped g timesheets = fold_left (group_step (key_of g)) timesheets [].
Proof. now destruct g. Qed.

Lemma first_seen_count (k : option Z) (l : list (option Z)) :
  List.length (filter (key_eqb k) (first_seen l))
  = if existsb (key_eqb k) l then 1%nat else 0%nat.
Proof.
  induction l as [| a l IH]; [reflexivity |].
  cbn [first_seen filter existsb].
  destruct (key_eqb k a) eqn:E; cbn [orb List.length].
  - apply key_eqb_eq in E. subst a.
    rewrite filter_andb.
    rewrite (filter_ext _ (fun _ => false)), filter_false; [reflexivity |].
    intros x. now destruct (key_eqb k x).
  - rewrite filter_andb.
    rewrite (filter_ext _ (key_eqb k)); [exact IH |].
    intros x. destruct (key_eqb k x) eqn:Ex.
    + destruct (key_eqb a x) eqn:Eax; [| reflexivity].
      apply key_eqb_eq in Ex, Eax. subst.
      rewrite (proj2 (key_eqb_eq x x) eq_refl) in E. discriminate.
    + apply andb_false_r.
Qed.

Lemma first_seen_In (k : option Z) (l : list (option Z)) :
  In k (first_seen l) <-> In k l.
Proof.
  induction l as [| a l IH]; [reflexivity |].
  cbn [first_seen]. simpl. rewrite filter_In, IH.
  destruct (key_eqb a k) eqn:E.
  - apply key_eqb_eq in E. intuition (auto; discriminate).
  - intuition auto.
Qed.

Lemma first_seen_NoDup (l : list (option Z)) : NoDup (first_seen l).
Proof.
  induction l as [| a l IH]; cbn [first_seen]; constructor.
  - rewrite filter_In. intros [_ H].
    rewrite (proj2 (key_eqb_eq a a) eq_refl) in H. discriminate.
  - now apply NoDup_filter.
Qed.

(** The keys of a grouping are those of the entries, each once, in the
    order of their first occurrence. *)
Lemma grouped_keys (g : grouping) (timesheets : list Entry.t) :
  map fst (grouped g timesheets) = first_seen (map (key_of g) timesheets).
Proof.
  rewrite grouped_fold, fold_keys. cbn [map app].
  rewrite (filter_ext _ (fun _ => true)) by reflexivity.
  induction (first_seen (map (key_of g) timesheets)) as [| a l IH];
    simpl; [reflexivity | now rewrite IH].
Qed.

(** The group stored under a key holds the seconds and the number of the
    entries of that key; a key without entries has no group. *)
Lemma grouped_get (g : grouping) (k : option Z) (timesheets : list Entry.t) :
  dict_get key_eqb k (grouped g timesheets)
  = match entries_with (key_of g) k timesheets with
    | [] => None
    | es => Some {| Group.duration := sum (map get_duration es);
                    Group.count := Z.of_nat (List.length es) |}
    end.
Proof.
  rewrite grouped_fold, fold_get. cbn [dict_get].
  destruct (entries_with (key_of g) k timesheets); reflexivity.
Qed.

Lemma length_filter_fst (k : option Z) (d : list (option Z * Group.t)) :
  List.length (filter (fun kv => key_eqb k (fst kv)) d)
  = List.length (filter (key_eqb k) (map fst d)).
Proof.
  induction d as [| [k0 v0] d IH]; simpl; [reflexivity |].
  destruct (key_eqb k k0); simpl; now rewrite IH.
Qed.

End SummaryFacts.

(** ** Floats *)

Module FloatFacts.
Import PyFloat.

Lemma iter_pos_invariant {A : Type} (P : A -> Prop) (f : A -> A) :
  (forall x, P x -> P (f x)) -> forall p x, P x -> P (iter_pos f p x).
Proof.
  intros Hf. induction p as [p IH | p IH |]; intros x Hx; simpl; auto.
Qed.

Lemma shr_1_nonneg (mrs : shr_record) : 0 <= shr_m mrs -> 0 <= shr_m (shr_1 mrs).
Proof.
  destruct mrs as [m r s]. simpl.
  destruct m as [| p | p]; intros H; [simpl; lia | | lia].
  destruct p; simpl; lia.
Qed.

Lemma shr_nonneg (mrs : shr_record) (e n : Z) :
  0 <= shr_m mrs -> 0 <= shr_m (fst (shr mrs e n)).
Proof.
  intros H. unfold shr. destruct n; simpl; try assumption.
  now apply (iter_pos_invariant (fun r => 0 <= shr_m r) shr_1 shr_1_nonneg).
Qed.

Lemma shr_fexp_nonneg (m e : Z) (l : location) :
  0 <= m -> 0 <= shr_m (fst (shr_fexp prec emax m e l)).
Proof.
  intros H. unfold shr_fexp. apply shr_nonneg.
  destruct l as [| []]; exact H.
Qed.

Lemma round_nearest_even_nonneg (m : Z) (l : location) :
  0 <= m -> 0 <= round_nearest_even m l.
Proof.
  intros H. unfold round_nearest_even.
  destruct l as [| []]; try lia. destruct (Z.even m); lia.
Qed.

(** Rounding a non-negative mantissa never yields a NaN. *)
Lemma binary_round_aux_not_nan (sx : bool) (mx ex : Z) (lx : location) :
  0 <= mx -> binary_round_aux prec emax sx mx ex lx <> S754_nan.
Proof.
  intros H. unfold binary_round_aux.
  pose proof (shr_fexp_nonneg mx ex lx H) as H1.
  destruct (shr_fexp prec emax mx ex lx) as [mrs1 e1]. simpl in H1.
  pose proof (shr_fexp_nonneg _ e1 loc_Exact
                (round_nearest_even_nonneg _ (loc_of_shr_record mrs1) H1)) as H2.
  destruct (shr_fexp prec emax _ e1 loc_Exact) as [mrs2 e2]. simpl in H2.
  destruct (shr_m mrs2); try discriminate; [| lia].
  destruct (e2 <=? emax - prec); discriminate.
Qed.

Lemma binary_round_not_nan (sx : bool) (mx : positive) (ex : Z) :
  binary_round prec emax sx mx ex <> S754_nan.
Proof.
  unfold binary_round. destruct (shl_align mx ex _) as [mz ez].
  apply binary_round_aux_not_nan. lia.
Qed.

(** A quotient of integers is a zero or a finite float. *)
Lemma int_truediv_finite (a b : Z) (f : float) :
  int_truediv a b = Ok f ->
  (exists s, f = S754_zero s) \/ (exists s m e, f = S754_finite s m e).
Proof.
  unfold int_truediv.
  destruct (b =? 0); [discriminate |].
  destruct (a =? 0); [intros H; inversion H; eauto |].
  match goal with |- context [binary_round ?p ?q ?s ?m ?e] =>
    pose proof (binary_round_not_nan s m e) as Hnan;
    destruct (binary_round p q s m e) end;
    intros H; inversion H; subst; eauto; contradiction.
Qed.

Lemma eqb_refl_finite (s : bool) (m : positive) (e : Z) :
  eqb (S754_finite s m e) (S754_finite s m e) = true.
Proof.
  unfold eqb, SFeqb, SFcompare.
  rewrite Z.compare_refl.
  change (PosDef.Pos.compare_cont Eq m m) with (Pos.compare m m).
  rewrite Pos.compare_refl. now destruct s.
Qed.

Lemma sub_self_finite (s : bool) (m : positive) (e : Z) :
  sub (S754_finite s m e) (S754_finite s m e) = S754_zero false.
Proof.
  unfold sub, SFsub. cbv zeta.
  change (IntDef.Z.min e e) with (Z.min e e).
  rewrite Z.min_id. now rewrite Z.sub_diag.
Qed.

(** [y + (x - y) == x] when [y] is the zero that [0 / 3600] yields, and
    when [y] is [x] itself. *)
Lemma add_sub_zero (x : float) :
  (exists s, x = S754_zero s) \/ (exists s m e, x = S754_finite s m e) ->
  eqb (add zero (sub x zero)) x = true.
Proof.
  intros [[s ->] | [s [m [e ->]]]].
  - now destruct s.
  - cbn. apply eqb_refl_finite.
Qed.

Lemma add_sub_self (x : float) :
  (exists s, x = S754_zero s) \/ (exists s m e, x = S754_finite s m e) ->
  eqb (add x (sub x x)) x = true.
Proof.
  intros [[s ->] | [s [m [e ->]]]].
  - now destruct s.
  - rewrite sub_self_finite. cbn. apply eqb_refl_finite.
Qed.

(** The guard of the percentage fields excludes a zero divisor. *)
Lemma gtb_zero_not_zero (x : float) :
  gtb x (of_Z 0) = true -> is_zero x = false.
Proof.
  now destruct x.
Qed.

End FloatFacts.

(* ================================================================== *)
(** * The API client *)
(* ================================================================== *)

Lemma bind_ok {A B : Type} (c : result A) (k : A -> result B) (b : B) :
  bind c k = Ok b -> exists a, c = Ok a /\ k a = Ok b.
Proof.
  destruct c as [a | e]; simpl; intros H; [eauto | discriminate].
Qed.

Lemma bindIO_ok {A B : Type} (c : IO A) (k : A -> IO B)
    (remote : Httpx.Remote) (sent sent' : list Httpx.Request) (b : B) :
  bindIO c k remote sent = (Ok b, sent') ->
  exists a mid, c remote sent = (Ok a, mid) /\ k a remote mid = (Ok b, sent').
Proof.
  unfold bindIO. destruct (c remote sent) as [[a | e] mid]; intros H.
  - eauto.
  - inversion H.
Qed.

(** The detail that the handler of a status error puts in its message. *)
Lemma error_detail_cases (response : Httpx.Response) :
  Py.str (KimaiClient.error_detail response)
  = match Httpx.json_body response with
    | Ok (VDict d) =>
        match Py.lookup "message" d with
        | Some v => Py.str v
        | None => Py.str (VDict d)
        end
    | _ => Httpx.text response
    end.
Proof.
  unfold KimaiClient.error_detail.
  destruct (Httpx.json_body response) as [v | e]; [| reflexivity].
  destruct v; try reflexivity.
  cbn [bind try_except Py.get_default].
  destruct (Py.lookup "message" d); reflexivity.
Qed.

(** C5, as the code has it. A response whose status is not 2xx makes the
    call fail with a message that holds the status code, then the
    detail, and ends with the hint about the request parameters. The
    detail is the [message] field of a JSON object; for a JSON object
    without that field it is the [str] of the decoded object, not the
    raw text; it is the raw text when the body is not JSON or is not an
    object. *)
Theorem status_error_message (self : KimaiClient.t) (method endpoint : string)
    (params : option (list (string * value))) (json_data : option value)
    (remote : Httpx.Remote) (sent : list Httpx.Request)
    (response : Httpx.Response) :
  remote sent (KimaiClient.build_request self method endpoint params json_data)
  = Httpx.Responded response ->
  Httpx.is_success response = false ->
  let detail :=
    match Httpx.json_body response with
    | Ok (VDict d) =>
        match Py.lookup "message" d with
        | Some v => Py.str v
        | None => Py.str (VDict d)
        end
    | _ => Httpx.text response
    end in
  exists msg,
    fst (KimaiClient.request self method endpoint params json_data remote sent)
    = Raise (Exception msg) /\
    msg = "KIMAI API error (" ++ str_of_Z (Httpx.status_code response) ++ "): "
          ++ detail ++ ". Please check your request parameters and try again." /\
    contains (str_of_Z (Httpx.status_code response)) msg = true /\
    contains detail msg = true /\
    EndsWith "Please check your request parameters and try again." msg.
Proof.
  intros Hresp Hfail detail.
  unfold KimaiClient.request. rewrite Hresp. cbn [fst].
  unfold KimaiClient.on_response. rewrite Hfail.
  unfold KimaiClient.status_error. rewrite error_detail_cases. fold detail.
  eexists. split; [reflexivity |].
  split; [reflexivity |].
  split; [apply contains_app |].
  split.
  - apply contains_app3.
  - exists ("KIMAI API error (" ++ str_of_Z (Httpx.status_code response) ++ "): "
            ++ detail ++ ". ").
    now rewrite !app_assoc_str.
Qed.

Lemma status_error_message_witness :
  Sample.always Sample.not_found []
    (KimaiClient.build_request Sample.client "GET" "timesheets/99" None None)
  = Httpx.Responded Sample.not_found /\
  Httpx.is_success Sample.not_found = false /\
  exists msg,
    fst (KimaiClient.request Sample.client "GET" "timesheets/99" None None
           (Sample.always Sample.not_found) [])
    = Raise (Exception msg) /\
    msg = "KIMAI API error (404): Not found. Please check your request parameters and try again." /\
    contains "404" msg = true /\
    contains "Not found" msg = true /\
    EndsWith "Please check your request parameters and try again." msg.
Proof.
  split; [reflexivity |]. split; [reflexivity |].
  exact (status_error_message Sample.client "GET" "timesheets/99" None None
           (Sample.always Sample.not_found) [] Sample.not_found eq_refl eq_refl).
Defined.

(** C5, as the claim states it, fails: for HTTP 500 with a JSON object
    that has an [error] field and no [message] field, the message holds
    the [str] of the decoded object, with single quotes, and the raw
    response text occurs nowhere in it. *)
Lemma object_without_message_is_not_quoted_raw :
  Py.lookup "message" [("error", VStr "x")] = None /\
  fst (KimaiClient.request Sample.client "GET" "timesheets" None None
         (Sample.always Sample.failure_without_message) [])
  = Raise (Exception "KIMAI API error (500): {'error': 'x'}. Please check your request parameters and try again.") /\
  contains (Httpx.text Sample.failure_without_message)
    "KIMAI API error (500): {'error': 'x'}. Please check your request parameters and try again."
  = false.
Proof. repeat split; vm_compute; reflexivity. Qed.

(** C8. A response with a 2xx status and either the status 204 or an
    empty body yields the success marker, whatever decoding its body
    would do: the body is not decoded and no decoding error is raised. *)
Theorem no_content_is_success (self : KimaiClient.t) (method endpoint : string)
    (params : option (list (string * value))) (json_data : option value)
    (remote : Httpx.Remote) (sent : list Httpx.Request)
    (response : Httpx.Response) :
  remote sent (KimaiClient.build_request self method endpoint params json_data)
  = Httpx.Responded response ->
  Httpx.is_success response = true ->
  Httpx.status_code response = 204 \/ Httpx.content response = EmptyString ->
  fst (KimaiClient.request self method endpoint params json_data remote sent)
  = Ok (VDict [("success", VBool true)]).
Proof.
  intros Hresp Hok Hempty.
  unfold KimaiClient.request. rewrite Hresp. cbn [fst].
  unfold KimaiClient.on_response. rewrite Hok.
  destruct Hempty as [H204 | Hbody].
  - rewrite H204. reflexivity.
  - rewrite Hbody. cbn [Urllib.is_empty]. now rewrite orb_true_r.
Qed.

Lemma no_content_is_success_witness :
  Sample.always Sample.no_content []
    (KimaiClient.build_request Sample.client "DELETE" "timesheets/5" None None)
  = Httpx.Responded Sample.no_content /\
  Httpx.is_success Sample.no_content = true /\
  Httpx.json_body Sample.no_content
  = Raise (JSONDecodeError "Expecting value: line 1 column 1 (char 0)") /\
  fst (KimaiClient.request Sample.client "DELETE" "timesheets/5" None None
         (Sample.always Sample.no_content) [])
  = Ok (VDict [("success", VBool true)]).
Proof.
  split; [reflexivity |]. split; [reflexivity |]. split; [reflexivity |].
  exact (no_content_is_success Sample.client "DELETE" "timesheets/5" None None
           (Sample.always Sample.no_content) [] Sample.no_content
           eq_refl eq_refl (or_introl eq_refl)).
Defined.

(** C6 does not hold of the code. [urljoin] resolves the absolute path
    [/api/...] against the base URL, which replaces the path of the base
    instead of extending it: for an instance served at
    [https://example.com/kimai/] the request goes to the root of the
    host. Only a base URL without a path gives the concatenation. *)
Lemma request_url_drops_base_path :
  KimaiClient.base_url (KimaiClient.init Sample.subdirectory)
  = "https://example.com/kimai" /\
  KimaiClient.request_url (KimaiClient.init Sample.subdirectory) "timesheets"
  = "https://example.com/api/timesheets" /\
  KimaiClient.request_url Sample.client "timesheets"
  = "http://localhost:8001/api/timesheets".
Proof. repeat split; vm_compute; reflexivity. Qed.

(* ================================================================== *)
(** * Output cap and tool invocation *)
(* ================================================================== *)

Lemma truncate_short (text : string) :
  Z.of_nat (String.length text) <= CHARACTER_LIMIT ->
  truncate_if_needed text CHARACTER_LIMIT = text.
Proof.
  intros H. unfold truncate_if_needed.
  apply Z.leb_le in H. now rewrite H.
Qed.

Lemma truncate_long (text : string) :
  CHARACTER_LIMIT < Z.of_nat (String.length text) ->
  truncate_if_needed text CHARACTER_LIMIT
  = substring 0 (Z.to_nat 24950) text ++ nl ++ nl
    ++ "... [Output truncated at 25000 characters]".
Proof.
  intros H. unfold truncate_if_needed.
  apply Z.leb_gt in H. rewrite H. apply Z.leb_gt in H.
  unfold slice_to, CHARACTER_LIMIT in *.
  change (25000 - 50 <? 0) with false. cbv iota.
  change (25000 - 50) with 24950.
  rewrite Z.min_l by lia. reflexivity.
Qed.

Lemma truncate_capped (text : string) :
  Z.of_nat (String.length (truncate_if_needed text CHARACTER_LIMIT))
  <= CHARACTER_LIMIT.
Proof.
  destruct (Z.le_gt_cases (Z.of_nat (String.length text)) CHARACTER_LIMIT) as [H | H].
  - now rewrite truncate_short.
  - rewrite truncate_long by assumption.
    rewrite length_app, substring_0_length.
    change (String.length (nl ++ nl ++ "... [Output truncated at 25000 characters]"))
      with 44%nat.
    unfold CHARACTER_LIMIT in *. lia.
Qed.

(** What a list formatter returns is the capped text of its lines, or
    the sentence for an empty page. *)
Lemma format_timesheets_markdown_text (timesheets : value) (s : string) :
  format_timesheets_markdown timesheets = Ok s ->
  if Py.truthy timesheets
  then exists lines,
         timesheets_lines timesheets = Ok lines /\
         s = truncate_if_needed (join nl lines) CHARACTER_LIMIT
  else s = "No timesheets found.".
Proof.
  unfold format_timesheets_markdown.
  destruct (Py.truthy timesheets); cbn [negb]; intros H.
  - apply bind_ok in H. destruct H as [lines [Hlines H]].
    inversion H. eauto.
  - now inversion H.
Qed.

Lemma format_entities_text (plural : string) (format : value -> result string)
    (entities : value) (s : string) :
  format_entities plural format entities = Ok s ->
  if Py.truthy entities
  then exists lines,
         entities_lines plural format entities = Ok lines /\
         s = truncate_if_needed (join nl lines) CHARACTER_LIMIT
  else s = "No " ++ Urllib.lower plural ++ " found.".
Proof.
  unfold format_entities.
  destruct (Py.truthy entities); cbn [negb]; intros H.
  - apply bind_ok in H. destruct H as [lines [Hlines H]].
    inversion H. eauto.
  - now inversion H.
Qed.

Lemma render_list_text (format : string) (markdown : value -> result string)
    (payload : value) (remote : Httpx.Remote) (sent sent' : list Httpx.Request)
    (out : list TextContent) :
  render_list format markdown payload remote sent = (Ok out, sent') ->
  exists s,
    out = text_content s /\
    if String.eqb format "markdown"
    then markdown payload = Ok s
    else s = truncate_if_needed (Py.str payload) CHARACTER_LIMIT.
Proof.
  unfold render_list, lift, ret.
  destruct (String.eqb format "markdown"); intros H; inversion H; subst.
  - match goal with Hb : bind _ _ = Ok _ |- _ =>
      apply bind_ok in Hb; destruct Hb as [s [Hs Hout]] end.
    inversion Hout. eauto.
  - eauto.
Qed.

(** A listing branch that succeeds has rendered the payload of the one
    request that it logged. *)
Lemma listing_renders_payload (client : KimaiClient.t) (endpoint : string)
    (q : option (list (string * value))) (k : value -> IO (list TextContent))
    (remote : Httpx.Remote) (sent sent' : list Httpx.Request)
    (response : Httpx.Response) (payload : value) (out : list TextContent) :
  bindIO (KimaiClient.request client "GET" endpoint q None) k remote sent
  = (Ok out, sent') ->
  (forall a mid, snd (k a remote mid) = mid) ->
  (forall rq, sent' = (sent ++ [rq])%list -> remote sent rq = Httpx.Responded response) ->
  KimaiClient.on_response response = Ok payload ->
  k payload remote (sent ++ [KimaiClient.build_request client "GET" endpoint q None])%list
  = (Ok out, sent').
Proof.
  intros Hbody Hk Hresp Hpayload.
  assert (Hlog : sent' = (sent ++ [KimaiClient.build_request client "GET" endpoint q None])%list).
  { change sent' with (snd (@Ok (list TextContent) out, sent')).
    rewrite <- Hbody. unfold bindIO, KimaiClient.request.
    destruct (remote sent _) as [r | msg]; [| reflexivity].
    destruct (KimaiClient.on_response r); [apply Hk | reflexivity]. }
  specialize (Hresp _ Hlog).
  unfold bindIO, KimaiClient.request in Hbody.
  rewrite Hresp, Hpayload in Hbody. exact Hbody.
Qed.

(** C7, as the code has it. The four listing tools cap their output.
    When such a call does not end in an error, the text returned is
    [truncate_if_needed] of this underlying text: in the markdown
    format the joined lines of the list formatter, or its sentence for
    an empty page; in any other format the [str] of the payload, where
    the payload is what the response to the one request decodes to. The
    text returned has at most 25000 characters; an underlying text
    within the limit is returned as it is, and a longer one is cut to
    its first 24950 characters, followed by the marker that names the
    limit. *)
Theorem listing_output_is_capped (client : KimaiClient.t) (now : string)
    (call : ToolCall) (remote : Httpx.Remote) (sent sent' : list Httpx.Request)
    (response : Httpx.Response) (payload : value) (out : list TextContent) :
  is_listing call = true ->
  call_tool_body client now call remote sent = (Ok out, sent') ->
  (forall rq, sent' = (sent ++ [rq])%list -> remote sent rq = Httpx.Responded response) ->
  KimaiClient.on_response response = Ok payload ->
  exists underlying,
    (if String.eqb (listing_format call) "markdown"
     then if Py.truthy payload
          then exists lines,
                 page_lines call payload = Ok lines /\ underlying = join nl lines
          else underlying = nothing_found call
     else underlying = Py.str payload) /\
    call_tool client now call remote sent
    = (text_content (truncate_if_needed underlying CHARACTER_LIMIT), sent') /\
    Z.of_nat (String.length (truncate_if_needed underlying CHARACTER_LIMIT))
    <= CHARACTER_LIMIT /\
    (Z.of_nat (String.length underlying) <= CHARACTER_LIMIT ->
     truncate_if_needed underlying CHARACTER_LIMIT = underlying) /\
    (CHARACTER_LIMIT < Z.of_nat (String.length underlying) ->
     truncate_if_needed underlying CHARACTER_LIMIT
     = substring 0 (Z.to_nat 24950) underlying ++ nl ++ nl
       ++ "... [Output truncated at 25000 characters]").
Proof.
  intros Hlist Hbody Hresp Hpayload.
  assert (Hshape : exists underlying,
             (if String.eqb (listing_format call) "markdown"
              then if Py.truthy payload
                   then exists lines,
                          page_lines call payload = Ok lines /\
                          underlying = join nl lines
                   else underlying = nothing_found call
              else underlying = Py.str payload) /\
             out = text_content (truncate_if_needed underlying CHARACTER_LIMIT)).
  { destruct call; try discriminate; cbn [call_tool_body] in Hbody;
      (eapply listing_renders_payload in Hbody;
       [| intros a mid; unfold render_list, lift, ret;
          now destruct (String.eqb _ "markdown")
        | exact Hresp | exact Hpayload]);
      apply render_list_text in Hbody; destruct Hbody as [s [Hout Hs]];
      cbn [listing_format page_lines nothing_found];
      (destruct (String.eqb _ "markdown");
       [ first [ apply format_timesheets_markdown_text in Hs
               | apply format_entities_text in Hs ];
         destruct (Py.truthy payload);
         [ destruct Hs as [lines [Hlines Hs]]; exists (join nl lines);
           split; [exists lines; split; [exact Hlines | reflexivity] | now subst]
         | eexists; split; [reflexivity |]; subst; reflexivity ]
       | eexists; split; [reflexivity |]; now subst ]). }
  destruct Hshape as [underlying [Hunder Hout]]. subst out.
  exists underlying. unfold call_tool. rewrite Hbody.
  split; [exact Hunder |].
  split; [reflexivity |].
  split; [apply truncate_capped |].
  split; [apply truncate_short | apply truncate_long].
Qed.

Lemma listing_output_is_capped_witness :
  is_listing (list_projects Sample.projects_as_json) = true /\
  KimaiClient.on_response Sample.long_page = Ok (VList [VStr Sample.long_description]) /\
  CHARACTER_LIMIT
  < Z.of_nat (String.length (Py.str (VList [VStr Sample.long_description]))) /\
  exists underlying,
    (if String.eqb (listing_format (list_projects Sample.projects_as_json)) "markdown"
     then if Py.truthy (VList [VStr Sample.long_description])
          then exists lines,
                 page_lines (list_projects Sample.projects_as_json)
                   (VList [VStr Sample.long_description]) = Ok lines /\
                 underlying = join nl lines
          else underlying = nothing_found (list_projects Sample.projects_as_json)
     else underlying = Py.str (VList [VStr Sample.long_description])) /\
    call_tool Sample.client Sample.noon (list_projects Sample.projects_as_json)
      (Sample.always Sample.long_page) []
    = (text_content (truncate_if_needed underlying CHARACTER_LIMIT),
       [KimaiClient.build_request Sample.client "GET" "projects"
          (Some [("page", VInt 1); ("size", VInt 50)]) None]) /\
    Z.of_nat (String.length (truncate_if_needed underlying CHARACTER_LIMIT))
    <= CHARACTER_LIMIT /\
    (Z.of_nat (String.length underlying) <= CHARACTER_LIMIT ->
     truncate_if_needed underlying CHARACTER_LIMIT = underlying) /\
    (CHARACTER_LIMIT < Z.of_nat (String.length underlying) ->
     truncate_if_needed underlying CHARACTER_LIMIT
     = substring 0 (Z.to_nat 24950) underlying ++ nl ++ nl
       ++ "... [Output truncated at 25000 characters]").
Proof.
  split; [reflexivity |]. split; [reflexivity |].
  split; [vm_compute; reflexivity |].
  exact (listing_output_is_capped Sample.client Sample.noon
           (list_projects Sample.projects_as_json)
           (Sample.always Sample.long_page) []
           [KimaiClient.build_request Sample.client "GET" "projects"
              (Some [("page", VInt 1); ("size", VInt 50)]) None]
           Sample.long_page (VList [VStr Sample.long_description])
           (text_content
              (truncate_if_needed (Py.str (VList [VStr Sample.long_description]))
                 CHARACTER_LIMIT))
           eq_refl eq_refl (fun _ _ => eq_refl) eq_refl).
Defined.

(** The limit counts characters, the two of the stopwatch included: a
    markdown page of exactly 25000 characters comes back whole, and one
    of 25001 comes back as 24994, the first 24950 and the 44 of the
    marker. *)
Lemma markdown_page_at_the_limit :
  map (fun content => Z.of_nat (String.length (text content)))
    (fst (call_tool Sample.client Sample.noon
            (list_timesheets Case.timesheets_as_markdown)
            (Sample.always (Case.described_page 24742)) []))
  = [25000] /\
  match timesheets_lines (Case.described 24742) with
  | Ok lines =>
      fst (call_tool Sample.client Sample.noon
             (list_timesheets Case.timesheets_as_markdown)
             (Sample.always (Case.described_page 24742)) [])
      = text_content (join nl lines)
  | Raise _ => False
  end /\
  map (fun content => Z.of_nat (String.length (text content)))
    (fst (call_tool Sample.client Sample.noon
            (list_timesheets Case.timesheets_as_markdown)
            (Sample.always (Case.described_page 24743)) []))
  = [24994].
Proof. repeat split; vm_compute; reflexivity. Qed.

(** A page whose [str] has 25004 characters comes back as 24994: the
    first 24950 and the 44 of the marker. *)
Lemma long_page_is_truncated :
  map (fun content => Z.of_nat (String.length (text content)))
    (fst (call_tool Sample.client Sample.noon
            (list_projects Sample.projects_as_json)
            (Sample.always Sample.long_page) []))
  = [24994] /\
  Z.of_nat (String.length (Py.str (VList [VStr Sample.long_description]))) = 25004.
Proof. split; vm_compute; reflexivity. Qed.

(** C7, as the claim states it, fails: [get_timesheet] returns the [str]
    of the payload as it is, here 25019 characters for a timesheet whose
    description has 25000. *)
Lemma get_timesheet_output_exceeds_limit :
  map (fun content => Z.of_nat (String.length (text content)))
    (fst (call_tool Sample.client Sample.noon
            (get_timesheet Sample.timesheet_as_json)
            (Sample.always Sample.long_timesheet) []))
  = [25019] /\
  CHARACTER_LIMIT = 25000.
Proof. split; vm_compute; reflexivity. Qed.

(** The markdown summary is not capped either: a page of a thousand
    entries with as many projects and activities gives a report of 78989
    characters. *)
Lemma summary_report_exceeds_limit :
  match Summary.summary_markdown Sample.many_groups with
  | Ok report => Z.of_nat (String.length report)
  | Raise _ => 0
  end = 78989.
Proof. vm_compute. reflexivity. Qed.

(** Nor is the text of an error, even from a listing tool: the raw body
    of a failed response goes into the message as it is. *)
Lemma error_text_is_not_capped :
  map (fun content => Z.of_nat (String.length (text content)))
    (fst (call_tool Sample.client Sample.noon
            (list_projects Sample.projects_as_json)
            (Sample.always Sample.long_failure) []))
  = [25083].
Proof. vm_compute. reflexivity. Qed.

(** C10. When the timesheet fetched by [stop_timesheet] has an [end]
    that is not [None], the tool answers that the timesheet is not
    running, and the only request it has issued is the GET that fetched
    it: no PATCH is sent. *)
Theorem stop_timesheet_not_running (client : KimaiClient.t) (now : string)
    (params : StopTimesheetInput.t) (remote : Httpx.Remote)
    (sent : list Httpx.Request) (response : Httpx.Response)
    (current end_ : value) :
  let id := str_of_Z (StopTimesheetInput.id params) in
  let fetch := KimaiClient.build_request client "GET" ("timesheets/" ++ id) None None in
  remote sent fetch = Httpx.Responded response ->
  KimaiClient.on_response response = Ok current ->
  Py.get current "end" = Ok end_ ->
  is_None end_ = false ->
  call_tool client now (stop_timesheet params) remote sent
  = (text_content ((Glyph.cross_mark ++ " Error: Timesheet #") ++ id
                   ++ " is not running (already has an end time)."),
     (sent ++ [fetch])%list) /\
  Httpx.method fetch = "GET".
Proof.
  intros id fetch Hresp Hcurrent Hend Hnone.
  split; [| reflexivity].
  unfold call_tool, call_tool_body, bindIO, lift, ret, KimaiClient.request.
  fold id. fold fetch. rewrite Hresp, Hcurrent, Hend, Hnone. reflexivity.
Qed.

Lemma stop_timesheet_not_running_witness :
  KimaiClient.on_response Sample.ended_timesheet
  = Ok (VDict [("end", VStr "2025-11-01T10:00:00+0000")]) /\
  call_tool Sample.client Sample.noon (stop_timesheet Sample.stop_seven)
    (Sample.always Sample.ended_timesheet) []
  = (text_content (Glyph.cross_mark ++ " Error: Timesheet #7 is not running (already has an end time)."),
     [KimaiClient.build_request Sample.client "GET" "timesheets/7" None None]) /\
  Httpx.method (KimaiClient.build_request Sample.client "GET" "timesheets/7" None None)
  = "GET".
Proof.
  split; [reflexivity |].
  exact (stop_timesheet_not_running Sample.client Sample.noon Sample.stop_seven
           (Sample.always Sample.ended_timesheet) [] Sample.ended_timesheet
           (VDict [("end", VStr "2025-11-01T10:00:00+0000")])
           (VStr "2025-11-01T10:00:00+0000")
           eq_refl eq_refl eq_refl eq_refl).
Defined.

(* ================================================================== *)
(** * The summary aggregator *)
(* ================================================================== *)

Import Summary SummaryFacts.

(** C1. For every list of time entries, the seconds of the groups of
    [by_project] add up to the total seconds, and so do those of
    [by_activity]; the counts of the groups of either mapping add up to
    the number of entries. Each key occurs once, so that a sum over the
    groups is a sum over the keys. *)
Theorem groups_add_up_to_totals (timesheets : list Entry.t) :
  seconds_of (by_project timesheets) = total_duration timesheets /\
  seconds_of (by_activity timesheets) = total_duration timesheets /\
  counts_of (by_project timesheets) = Z.of_nat (List.length timesheets) /\
  counts_of (by_activity timesheets) = Z.of_nat (List.length timesheets) /\
  NoDup (map fst (by_project timesheets)) /\
  NoDup (map fst (by_activity timesheets)).
Proof.
  repeat split.
  - unfold by_project, group_by. now rewrite fold_seconds.
  - unfold by_activity, group_by. now rewrite fold_seconds.
  - unfold by_project, group_by. now rewrite fold_counts.
  - unfold by_activity, group_by. now rewrite fold_counts.
  - change (by_project timesheets) with (grouped ByProject timesheets).
    rewrite grouped_keys. apply first_seen_NoDup.
  - change (by_activity timesheets) with (grouped ByActivity timesheets).
    rewrite grouped_keys. apply first_seen_NoDup.
Qed.

Lemma key_eqb_sym (a b : option Z) : key_eqb a b = key_eqb b a.
Proof.
  destruct a, b; simpl; try reflexivity. apply Z.eqb_sym.
Qed.

Lemma missing_keys (g : grouping) (timesheets : list Entry.t) :
  existsb (key_eqb None) (map (key_of g) timesheets) = missing g timesheets.
Proof.
  unfold missing. induction timesheets as [| t rest IH]; simpl; [reflexivity |].
  now rewrite IH, key_eqb_sym.
Qed.

Lemma missing_entries (g : grouping) (timesheets : list Entry.t) :
  missing g timesheets = true ->
  entries_with (key_of g) None timesheets <> [].
Proof.
  unfold missing, entries_with.
  induction timesheets as [| t rest IH]; simpl; [discriminate |].
  destruct (key_eqb (key_of g t) None); simpl; [discriminate | exact IH].
Qed.

(** C3. When some entries have no project (or no activity), the mapping
    has exactly one group under the key [None], and that group holds the
    summed duration and the number of exactly those entries. *)
Theorem missing_identifiers_share_one_group (g : grouping) (timesheets : list Entry.t) :
  missing g timesheets = true ->
  let orphans := entries_with (key_of g) None timesheets in
  List.length (filter (fun kv => key_eqb None (fst kv)) (grouped g timesheets)) = 1%nat /\
  dict_get key_eqb None (grouped g timesheets)
  = Some {| Group.duration := sum (map get_duration orphans);
            Group.count := Z.of_nat (List.length orphans) |}.
Proof.
  intros Hmiss orphans. split.
  - rewrite length_filter_fst, grouped_keys, first_seen_count.
    now rewrite missing_keys, Hmiss.
  - rewrite grouped_get. fold orphans.
    pose proof (missing_entries g timesheets Hmiss) as Hne. fold orphans in Hne.
    destruct orphans; [contradiction | reflexivity].
Qed.

Lemma missing_identifiers_witness :
  missing ByProject Sample.unassigned = true /\
  List.length (filter (fun kv => key_eqb None (fst kv))
                 (grouped ByProject Sample.unassigned)) = 1%nat /\
  dict_get key_eqb None (grouped ByProject Sample.unassigned)
  = Some {| Group.duration := 900; Group.count := 2 |}.
Proof.
  split; [reflexivity |].
  exact (missing_identifiers_share_one_group ByProject Sample.unassigned eq_refl).
Defined.

(** The percentage expression never divides by zero: either the guard
    fails and the value is the integer 0, or the divisor is not zero. *)
Lemma percent_of_total (part total : PyFloat.float) :
  exists n, percent_of part total = Ok n.
Proof.
  unfold percent_of.
  destruct (PyFloat.gtb total (PyFloat.of_Z 0)) eqn:E; [| eauto].
  unfold PyFloat.truediv. rewrite (FloatFacts.gtb_zero_not_zero _ E).
  simpl. eauto.
Qed.

Lemma billable_split (timesheets : list Entry.t) :
  billable_duration timesheets + non_billable_duration timesheets
  = total_duration timesheets.
Proof.
  unfold billable_duration, non_billable_duration, total_duration.
  induction timesheets as [| t rest IH]; [reflexivity |].
  cbn [filter map]. destruct (is_billable t); cbn [negb map];
    rewrite !sum_cons; lia.
Qed.

(** C2, as the code has it. [non_billable_hours] is the one float
    subtraction [total_hours - billable_hours], not a sum over the
    entries that are not billable. On the integer seconds the billable
    and the non-billable part add up to the total exactly; on the float
    hours [billable_hours + non_billable_hours == total_hours] holds when
    no second or every second is billable. In between, the rounding of
    the subtraction and of the addition can make the sum miss the total. *)
Theorem non_billable_hours_is_one_subtraction (timesheets : list Entry.t) :
  non_billable_hours timesheets
  = (total <- total_hours timesheets ;;
     billable <- billable_hours timesheets ;;
     Ok (PyFloat.sub total billable)) /\
  billable_duration timesheets + non_billable_duration timesheets
  = total_duration timesheets /\
  (forall total,
     total_hours timesheets = Ok total ->
     billable_duration timesheets = 0
     \/ billable_duration timesheets = total_duration timesheets ->
     hours_add_up timesheets = Ok true).
Proof.
  split; [reflexivity |]. split; [apply billable_split |].
  intros total Htotal Hcase.
  pose proof (FloatFacts.int_truediv_finite _ _ _ Htotal) as Hfin.
  unfold hours_add_up, non_billable_hours. rewrite Htotal.
  destruct Hcase as [Hnone | Hall].
  - unfold billable_hours. rewrite Hnone.
    change (PyFloat.int_truediv 0 3600) with (Ok PyFloat.zero).
    cbn [bind]. now rewrite FloatFacts.add_sub_zero.
  - unfold billable_hours. rewrite Hall.
    unfold total_hours in Htotal. rewrite Htotal.
    cbn [bind]. now rewrite FloatFacts.add_sub_self.
Qed.

(** C2, as the claim states it, fails: with one billable second out of
    three, 1/3600 + (3/3600 - 1/3600) is not the float 3/3600. *)
Lemma hours_can_miss_total :
  hours_add_up Sample.three_seconds = Ok false.
Proof. vm_compute. reflexivity. Qed.

(** The subtraction is not the filter-sum in disguise: with one billable
    second out of three, 3/3600 - 1/3600 is not the float 2/3600. *)
Lemma subtraction_is_not_filter_sum :
  non_billable_hours Sample.three_seconds
  = Ok (S754_finite false 5124095576030432 (-63)) /\
  PyFloat.int_truediv (non_billable_duration Sample.three_seconds) 3600
  = Ok (S754_finite false 5124095576030431 (-63)).
Proof. split; vm_compute; reflexivity. Qed.

(** The three-entry scenario: 3.5 hours in all, 3.0 of them billable
    and 0.5 not; project 2 is listed before project 1. *)
Lemma scenario_report :
  summary_markdown Sample.scenario
  = Ok (join nl [ "# Timesheet Summary Report";
                  EmptyString;
                  "## Overview";
                  "**Total Entries:** 3";
                  "**Total Time:** 3.50 hours";
                  "**Billable Time:** 3.00 hours (85.7%)";
                  "**Non-Billable Time:** 0.50 hours (14.3%)";
                  EmptyString;
                  "## By Project";
                  "- Project #2: 2.00 hours (1 entries)";
                  "- Project #1: 1.50 hours (2 entries)";
                  EmptyString;
                  "## By Activity";
                  "- Activity #10: 3.00 hours (2 entries)";
                  "- Activity #11: 0.50 hours (1 entries)" ]) /\
  hours_add_up Sample.scenario = Ok true.
Proof. split; vm_compute; reflexivity. Qed.

(** C4. For the empty list the summary has no entry, every hour field
    is the float zero, there is no group, both percentage fields are the
    integer 0 and print as 0.0, and nothing is raised: the guard keeps
    the division from running. *)
Theorem empty_summary_is_all_zero :
  summary_json []
  = Ok {| Payload.total_entries := 0;
          Payload.total_hours := PyFloat.zero;
          Payload.billable_hours := PyFloat.zero;
          Payload.non_billable_hours := PyFloat.zero;
          Payload.by_project := [];
          Payload.by_activity := [] |} /\
  billable_percent [] = Ok (NInt 0) /\
  non_billable_percent [] = Ok (NInt 0) /\
  (forall part, percent_of part PyFloat.zero = Ok (NInt 0)) /\
  summary_markdown []
  = Ok (join nl [ "# Timesheet Summary Report";
                  EmptyString;
                  "## Overview";
                  "**Total Entries:** 0";
                  "**Total Time:** 0.00 hours";
                  "**Billable Time:** 0.00 hours (0.0%)";
                  "**Non-Billable Time:** 0.00 hours (0.0%)";
                  EmptyString;
                  "## By Project";
                  EmptyString;
                  "## By Activity" ]).
Proof.
  repeat split; try (vm_compute; reflexivity).
Qed.

(* ================================================================== *)
(** * Further properties of the client and of the tools *)
(* ================================================================== *)

(** X1. When the transport fails (the remote cannot be reached, or the
    wait runs out), the call raises a plain exception whose text holds
    the transport's description and the base URL of the client, and ends
    with the advice to check the URL; the request was issued once. *)
Theorem network_error_message (self : KimaiClient.t) (method endpoint : string)
    (params : option (list (string * value))) (json_data : option value)
    (remote : Httpx.Remote) (sent : list Httpx.Request) (msg : string) :
  remote sent (KimaiClient.build_request self method endpoint params json_data)
  = Httpx.RequestError msg ->
  exists text,
    KimaiClient.request self method endpoint params json_data remote sent
    = (Raise (Exception text),
       (sent ++ [KimaiClient.build_request self method endpoint params json_data])%list) /\
    contains msg text = true /\
    contains (KimaiClient.base_url self) text = true /\
    EndsWith ") is correct and accessible." text.
Proof.
  intros Hfail. unfold KimaiClient.request. rewrite Hfail.
  unfold KimaiClient.network_error. eexists. split; [reflexivity |].
  split; [apply contains_app |].
  split.
  - apply (contains_app3 "Network error connecting to KIMAI: " msg
             ". Please verify the KIMAI instance URL (").
  - exists ("Network error connecting to KIMAI: " ++ msg
            ++ ". Please verify the KIMAI instance URL (" ++ KimaiClient.base_url self).
    now rewrite !app_assoc_str.
Qed.

Lemma network_error_message_witness :
  Case.unreachable []
    (KimaiClient.build_request Sample.client "GET" "timesheets" None None)
  = Httpx.RequestError "All connection attempts failed" /\
  exists text,
    KimaiClient.request Sample.client "GET" "timesheets" None None Case.unreachable []
    = (Raise (Exception text),
       [KimaiClient.build_request Sample.client "GET" "timesheets" None None]) /\
    contains "All connection attempts failed" text = true /\
    contains "http://localhost:8001" text = true /\
    EndsWith ") is correct and accessible." text.
Proof.
  split; [reflexivity |].
  exact (network_error_message Sample.client "GET" "timesheets" None None
           Case.unreachable [] "All connection attempts failed" eq_refl).
Defined.

Lemma render_list_log (format : string) (markdown : value -> result string)
    (payload : value) (remote : Httpx.Remote) (sent : list Httpx.Request) :
  snd (render_list format markdown payload remote sent) = sent.
Proof.
  unfold render_list, lift, ret. now destruct (String.eqb format "markdown").
Qed.

Lemma render_one_log (format : string) (markdown : value -> result string)
    (payload : value) (remote : Httpx.Remote) (sent : list Httpx.Request) :
  snd (render_one format markdown payload remote sent) = sent.
Proof.
  unfold render_one, lift, ret. now destruct (String.eqb format "markdown").
Qed.

(** A request followed by steps that talk to nobody leaves one more
    entry in the log, whatever the request and the steps come to. *)
Lemma request_then_log {B : Type} (self : KimaiClient.t) (method endpoint : string)
    (params : option (list (string * value))) (json_data : option value)
    (k : value -> IO B) (remote : Httpx.Remote) (sent : list Httpx.Request) :
  (forall a mid, snd (k a remote mid) = mid) ->
  snd (bindIO (KimaiClient.request self method endpoint params json_data) k remote sent)
  = (sent ++ [KimaiClient.build_request self method endpoint params json_data])%list.
Proof.
  intros Hk. unfold bindIO, KimaiClient.request.
  destruct (remote sent _) as [response | msg].
  - destruct (KimaiClient.on_response response); [apply Hk | reflexivity].
  - reflexivity.
Qed.

Lemma call_tool_log (client : KimaiClient.t) (now : string) (call : ToolCall)
    (remote : Httpx.Remote) (sent : list Httpx.Request) :
  snd (call_tool client now call remote sent)
  = snd (call_tool_body client now call remote sent).
Proof.
  unfold call_tool. now destruct (call_tool_body client now call remote sent) as [[out | e] mid].
Qed.

(** X2. A listing tool and [get_timesheet] issue exactly one request
    per invocation, a GET without a body that carries the client's
    headers, whatever the remote answers: nothing is retried and nothing
    else is asked. *)
Theorem read_tools_send_one_get (client : KimaiClient.t) (now : string)
    (call : ToolCall) (remote : Httpx.Remote) (sent : list Httpx.Request) :
  is_read call = true ->
  exists rq,
    snd (call_tool client now call remote sent) = (sent ++ [rq])%list /\
    Httpx.method rq = "GET" /\
    Httpx.json rq = None /\
    Httpx.headers rq = KimaiClient.headers client.
Proof.
  intros Hread. rewrite call_tool_log.
  destruct call; try discriminate; cbn [call_tool_body];
    (eexists; split;
     [ apply request_then_log; intros a mid;
       first [ apply render_list_log
             | unfold lift, ret; now destruct (String.eqb _ "markdown") ]
     | repeat split ]).
Qed.

Lemma read_tools_send_one_get_witness :
  is_read (list_timesheets Case.timesheets_as_markdown) = true /\
  exists rq,
    snd (call_tool Sample.client Sample.noon
           (list_timesheets Case.timesheets_as_markdown) Case.unreachable [])
    = [rq] /\
    Httpx.method rq = "GET" /\
    Httpx.json rq = None /\
    Httpx.headers rq = KimaiClient.headers Sample.client.
Proof.
  split; [reflexivity |].
  exact (read_tools_send_one_get Sample.client Sample.noon
           (list_timesheets Case.timesheets_as_markdown) Case.unreachable [] eq_refl).
Defined.

Lemma call_other_log (client : KimaiClient.t) (now : string) (call : OtherCall)
    (remote : Httpx.Remote) (sent : list Httpx.Request) :
  snd (call_other client now call remote sent)
  = snd (call_other_body client now call remote sent).
Proof.
  unfold call_other.
  now destruct (call_other_body client now call remote sent) as [[out | e] mid].
Qed.

(** X3. Each tool that reads one project, activity or customer, and
    each tool that starts, creates, updates or deletes a record, issues
    exactly one request whatever the remote answers: a GET or a DELETE
    without a body, a POST or a PATCH with a JSON object as its body,
    and never any query parameter. *)
Theorem other_tools_send_one_request (client : KimaiClient.t) (now : string)
    (call : OtherCall) (remote : Httpx.Remote) (sent : list Httpx.Request) :
  exists rq,
    snd (call_other client now call remote sent) = (sent ++ [rq])%list /\
    Httpx.method rq = verb_of call /\
    Httpx.params rq = None /\
    (if has_body call
     then exists data, Httpx.json rq = Some (VDict data)
     else Httpx.json rq = None).
Proof.
  rewrite call_other_log.
  destruct call; cbn [call_other_body];
    (eexists; split;
     [ apply request_then_log; intros a mid;
       first [ apply render_one_log | reflexivity ]
     | split; [reflexivity |]; split; [reflexivity |];
       cbn [has_body Httpx.json KimaiClient.build_request];
       first [ reflexivity | eexists; reflexivity ] ]).
Qed.

(** X4. When the GET of [stop_timesheet] fails, with a status error, a
    transport error or an undecodable body, the tool reports that error
    and stops: the GET is the only request issued, no PATCH follows. *)
Theorem stop_timesheet_fetch_failed (client : KimaiClient.t) (now : string)
    (params : StopTimesheetInput.t) (remote : Httpx.Remote)
    (sent : list Httpx.Request) (e : exn) :
  let endpoint := "timesheets/" ++ str_of_Z (StopTimesheetInput.id params) in
  fst (KimaiClient.request client "GET" endpoint None None remote sent) = Raise e ->
  call_tool client now (stop_timesheet params) remote sent
  = (text_content ("Error: " ++ exn_str e),
     (sent ++ [KimaiClient.build_request client "GET" endpoint None None])%list).
Proof.
  intros endpoint Hfail.
  unfold call_tool, call_tool_body, bindIO. fold endpoint.
  destruct (KimaiClient.request client "GET" endpoint None None remote sent)
    as [r mid] eqn:Hreq.
  assert (Hmid : mid = (sent ++ [KimaiClient.build_request client "GET" endpoint None None])%list).
  { change mid with (snd (r, mid)). now rewrite <- Hreq. }
  cbn [fst] in Hfail. subst r mid. reflexivity.
Qed.

Lemma stop_timesheet_fetch_failed_witness :
  fst (KimaiClient.request Sample.client "GET" "timesheets/7" None None
         (Sample.always Sample.not_found) [])
  = Raise (Exception "KIMAI API error (404): Not found. Please check your request parameters and try again.") /\
  call_tool Sample.client Sample.noon (stop_timesheet Sample.stop_seven)
    (Sample.always Sample.not_found) []
  = (text_content "Error: KIMAI API error (404): Not found. Please check your request parameters and try again.",
     [KimaiClient.build_request Sample.client "GET" "timesheets/7" None None]).
Proof.
  split; [reflexivity |].
  exact (stop_timesheet_fetch_failed Sample.client Sample.noon Sample.stop_seven
           (Sample.always Sample.not_found) []
           (Exception "KIMAI API error (404): Not found. Please check your request parameters and try again.")
           eq_refl).
Defined.

(** X5. When the fetched timesheet is a JSON object whose [end] is null
    or absent, [stop_timesheet] follows the GET with one PATCH to the
    same URL, whose body is the object with the single field [end] set
    to the current time; these two requests are all it sends, whatever
    the PATCH comes to. *)
Theorem stop_timesheet_running (client : KimaiClient.t) (now : string)
    (params : StopTimesheetInput.t) (remote : Httpx.Remote)
    (sent : list Httpx.Request) (response : Httpx.Response)
    (current : value) :
  let endpoint := "timesheets/" ++ str_of_Z (StopTimesheetInput.id params) in
  let fetch := KimaiClient.build_request client "GET" endpoint None None in
  let patch := KimaiClient.build_request client "PATCH" endpoint None
                 (Some (VDict [("end", VStr now)])) in
  remote sent fetch = Httpx.Responded response ->
  KimaiClient.on_response response = Ok current ->
  Py.get current "end" = Ok VNone ->
  snd (call_tool client now (stop_timesheet params) remote sent)
  = (sent ++ [fetch; patch])%list /\
  Httpx.url patch = Httpx.url fetch.
Proof.
  intros endpoint fetch patch Hresp Hcurrent Hend.
  split; [| reflexivity].
  rewrite call_tool_log. cbn [call_tool_body]. fold endpoint.
  unfold bindIO at 1. unfold KimaiClient.request at 1. fold fetch.
  rewrite Hresp, Hcurrent.
  unfold bindIO at 1. unfold lift at 1. rewrite Hend. cbn [is_None negb].
  rewrite request_then_log by reflexivity.
  rewrite <- app_assoc. reflexivity.
Qed.

Lemma stop_timesheet_running_witness :
  KimaiClient.on_response Case.running_timesheet
  = Ok (VDict [("id", VInt 7); ("end", VNone)]) /\
  snd (call_tool Sample.client Sample.noon (stop_timesheet Sample.stop_seven)
         (Sample.always Case.running_timesheet) [])
  = [KimaiClient.build_request Sample.client "GET" "timesheets/7" None None;
     KimaiClient.build_request Sample.client "PATCH" "timesheets/7" None
       (Some (VDict [("end", VStr Sample.noon)]))] /\
  Httpx.url (KimaiClient.build_request Sample.client "PATCH" "timesheets/7" None
               (Some (VDict [("end", VStr Sample.noon)])))
  = Httpx.url (KimaiClient.build_request Sample.client "GET" "timesheets/7" None None).
Proof.
  split; [reflexivity |].
  exact (stop_timesheet_running Sample.client Sample.noon Sample.stop_seven
           (Sample.always Case.running_timesheet) [] Case.running_timesheet
           (VDict [("id", VInt 7); ("end", VNone)]) eq_refl eq_refl eq_refl).
Defined.

(** What [request] makes of a response without content. *)
Lemma on_response_no_content (response : Httpx.Response) :
  Httpx.is_success response = true ->
  Httpx.status_code response = 204 \/ Httpx.content response = EmptyString ->
  KimaiClient.on_response response = Ok (VDict [("success", VBool true)]).
Proof.
  intros Hok Hempty. unfold KimaiClient.on_response. rewrite Hok.
  destruct Hempty as [H204 | Hbody].
  - rewrite H204. reflexivity.
  - rewrite Hbody. cbn [Urllib.is_empty]. now rewrite orb_true_r.
Qed.

(** X6. When the remote answers the DELETE of [delete_timesheet] with
    a 2xx status and no content (status 204 or an empty body), the tool
    confirms the deletion of that identifier; the DELETE is the only
    request it has sent. *)
Theorem delete_timesheet_confirms (client : KimaiClient.t) (now : string)
    (params : DeleteTimesheetInput.t) (remote : Httpx.Remote)
    (sent : list Httpx.Request) (response : Httpx.Response) :
  let id := str_of_Z (DeleteTimesheetInput.id params) in
  let delete := KimaiClient.build_request client "DELETE" ("timesheets/" ++ id) None None in
  remote sent delete = Httpx.Responded response ->
  Httpx.is_success response = true ->
  Httpx.status_code response = 204 \/ Httpx.content response = EmptyString ->
  call_other client now (delete_timesheet params) remote sent
  = (text_content ((Glyph.check_mark ++ " Timesheet #") ++ id ++ " deleted successfully."),
     (sent ++ [delete])%list).
Proof.
  intros id delete Hresp Hok Hempty.
  unfold call_other, call_other_body, bindIO. fold id.
  unfold KimaiClient.request. fold delete. rewrite Hresp.
  now rewrite (on_response_no_content response Hok Hempty).
Qed.

Lemma delete_timesheet_confirms_witness :
  Httpx.is_success Sample.no_content = true /\
  call_other Sample.client Sample.noon (delete_timesheet Case.delete_five)
    (Sample.always Sample.no_content) []
  = (text_content (Glyph.check_mark ++ " Timesheet #5 deleted successfully."),
     [KimaiClient.build_request Sample.client "DELETE" "timesheets/5" None None]).
Proof.
  split; [reflexivity |].
  exact (delete_timesheet_confirms Sample.client Sample.noon Case.delete_five
           (Sample.always Sample.no_content) [] Sample.no_content
           eq_refl eq_refl (or_introl eq_refl)).
Defined.

(* ================================================================== *)
(** * Further properties of the output cap *)
(* ================================================================== *)

Lemma slice_to_length (s : string) (k : Z) :
  Z.of_nat (String.length (slice_to s k))
  = if k <? 0 then Z.max 0 (Z.of_nat (String.length s) + k)
    else Z.min k (Z.of_nat (String.length s)).
Proof.
  unfold slice_to. rewrite substring_0_length.
  destruct (k <? 0) eqn:E; [apply Z.ltb_lt in E | apply Z.ltb_ge in E]; lia.
Qed.

(** The marker has 39 characters besides the digits of the limit. *)
Lemma truncated_length (text : string) (limit : Z) :
  limit < Z.of_nat (String.length text) ->
  Z.of_nat (String.length (truncate_if_needed text limit))
  = Z.of_nat (String.length (slice_to text (limit - 50))) + 39
    + Z.of_nat (String.length (str_of_Z limit)).
Proof.
  intros H. unfold truncate_if_needed.
  apply Z.leb_gt in H. rewrite H.
  rewrite !length_app.
  change (String.length nl) with 1%nat.
  change (String.length "... [Output truncated at ") with 25%nat.
  change (String.length " characters]") with 12%nat.
  lia.
Qed.

(** X7. Truncating twice is truncating once: the text that
    [truncate_if_needed] returns with the default limit passes through a
    second call unchanged. *)
Theorem truncate_if_needed_idempotent (text : string) :
  truncate_if_needed (truncate_if_needed text CHARACTER_LIMIT) CHARACTER_LIMIT
  = truncate_if_needed text CHARACTER_LIMIT.
Proof. apply truncate_short, truncate_capped. Qed.

(** X8. For any limit of at least 50 whose decimal writing has at most
    11 digits, the result of [truncate_if_needed] has at most [limit]
    characters: the 50 characters that the cut leaves free hold the
    marker. *)
Theorem truncate_if_needed_within_limit (text : string) (limit : Z) :
  50 <= limit ->
  (String.length (str_of_Z limit) <= 11)%nat ->
  Z.of_nat (String.length (truncate_if_needed text limit)) <= limit.
Proof.
  intros Hlimit Hdigits.
  destruct (Z.le_gt_cases (Z.of_nat (String.length text)) limit) as [H | H].
  - unfold truncate_if_needed. apply Z.leb_le in H. rewrite H.
    now apply Z.leb_le.
  - rewrite truncated_length by lia. rewrite slice_to_length.
    destruct (limit - 50 <? 0) eqn:E; [apply Z.ltb_lt in E | apply Z.ltb_ge in E]; lia.
Qed.

Lemma truncate_if_needed_within_limit_witness :
  50 <= 100 /\
  (String.length (str_of_Z 100) <= 11)%nat /\
  Z.of_nat (String.length (truncate_if_needed Sample.long_description 100)) <= 100.
Proof.
  split; [lia |]. split; [vm_compute; lia |].
  apply (truncate_if_needed_within_limit Sample.long_description 100);
    [lia | vm_compute; lia].
Defined.

(** X9. With a limit below 50 the cut [text[:limit - 50]] counts from
    the end of the text, and the cap fails: whenever the text is longer
    than such a limit, so is the result. *)
Theorem truncate_if_needed_small_limit (text : string) (limit : Z) :
  limit < 50 ->
  limit < Z.of_nat (String.length text) ->
  limit < Z.of_nat (String.length (truncate_if_needed text limit)).
Proof.
  intros Hsmall Hlong.
  rewrite truncated_length by assumption. rewrite slice_to_length.
  assert (E : (limit - 50 <? 0) = true) by (apply Z.ltb_lt; lia).
  rewrite E. lia.
Qed.

Lemma truncate_if_needed_small_limit_witness :
  45 < 50 /\
  45 < Z.of_nat (String.length "0123456789012345678901234567890123456789012345") /\
  45 < Z.of_nat (String.length
                   (truncate_if_needed "0123456789012345678901234567890123456789012345" 45)).
Proof.
  split; [lia |]. split; [vm_compute; reflexivity |].
  apply (truncate_if_needed_small_limit
           "0123456789012345678901234567890123456789012345" 45);
    [lia | vm_compute; reflexivity].
Defined.

(* ================================================================== *)
(** * Further properties of the request URL *)
(* ================================================================== *)

Module UrlFacts.
Import Urllib.

Lemma cut_none (c : ascii) (s : string) : has_char c s = false -> cut c s = None.
Proof.
  induction s as [| a s IH]; simpl; [reflexivity |].
  destruct (Ascii.eqb a c); simpl; [discriminate |].
  intros H. now rewrite IH.
Qed.

Lemma has_char_all (p : ascii -> bool) (c : ascii) (s : string) :
  p c = false -> all_chars p s = true -> has_char c s = false.
Proof.
  intros Hc. induction s as [| a s IH]; simpl; [reflexivity |].
  intros H. apply andb_true_iff in H. destruct H as [Ha Hs].
  rewrite (IH Hs), orb_false_r.
  destruct (Ascii.eqb a c) eqn:E; [| reflexivity].
  apply Ascii.eqb_eq in E. subst. congruence.
Qed.

Lemma prefix_nil (s : string) : prefix "" s = true.
Proof. now destruct s. Qed.

Lemma substring_full (s : string) : substring 0 (String.length s) s = s.
Proof. induction s as [| a s IH]; simpl; [reflexivity | now rewrite IH]. Qed.

Lemma splitnetloc_clean (h : string) :
  all_chars host_char h = true -> splitnetloc h = (h, "").
Proof.
  induction h as [| a h IH]; simpl; [reflexivity |].
  intros H. apply andb_true_iff in H. destruct H as [Ha Hh].
  rewrite (IH Hh).
  assert (E : (Ascii.eqb a "/" || Ascii.eqb a "?" || Ascii.eqb a "#") = false).
  { destruct (Ascii.eqb a "/") eqn:E1; [apply Ascii.eqb_eq in E1; subst; discriminate |].
    destruct (Ascii.eqb a "?") eqn:E2; [apply Ascii.eqb_eq in E2; subst; discriminate |].
    destruct (Ascii.eqb a "#") eqn:E3; [apply Ascii.eqb_eq in E3; subst; discriminate |].
    reflexivity. }
  now rewrite E.
Qed.

Lemma urlparse_origin (secure : bool) (host : string) :
  all_chars host_char host = true ->
  urlparse (origin secure host) "" = {| scheme := if secure then "https" else "http"; netloc := host; path := ""; params := ""; query := ""; fragment := "" |}.
Proof.
  intros H. unfold urlparse.
  assert (E : urlsplit (origin secure host) "" = {| sr_scheme := if secure then "https" else "http"; sr_netloc := host; sr_path := ""; sr_query := ""; sr_fragment := "" |}).
  { destruct secure; unfold urlsplit, origin; cbn;
      rewrite prefix_nil, Nat.sub_0_r, substring_full, splitnetloc_clean by assumption;
      reflexivity. }
  rewrite E. now destruct secure.
Qed.

Lemma urlparse_api (sch ep : string) :
  all_chars endpoint_char ep = true ->
  urlparse ("/api/" ++ ep) sch = {| scheme := sch; netloc := ""; path := "/api/" ++ ep; params := ""; query := ""; fragment := "" |}.
Proof.
  intros H. unfold urlparse.
  assert (E : urlsplit ("/api/" ++ ep) sch = {| sr_scheme := sch; sr_netloc := ""; sr_path := "/api/" ++ ep; sr_query := ""; sr_fragment := "" |}).
  { unfold urlsplit. cbn.
    rewrite (cut_none ":" ep) by (now apply (has_char_all endpoint_char)).
    cbn.
    rewrite (cut_none "#" ep) by (now apply (has_char_all endpoint_char)).
    cbn.
    rewrite (cut_none "?" ep) by (now apply (has_char_all endpoint_char)).
    reflexivity. }
  rewrite E. cbn [sr_scheme sr_path sr_netloc sr_query sr_fragment].
  assert (P : has_char ";" ("/api/" ++ ep) = false).
  { cbn. now apply (has_char_all endpoint_char). }
  rewrite P, andb_false_r. reflexivity.
Qed.

Lemma split_nonempty (c : ascii) (s : string) : split c s <> [].
Proof.
  induction s as [| a s IH]; simpl; [discriminate |].
  destruct (Ascii.eqb a c); [discriminate |].
  destruct (split c s); discriminate.
Qed.

Lemma join_cons_char (sep : string) (a : ascii) (h : string) (t : list string) :
  join sep (String a h :: t) = String a (join sep (h :: t)).
Proof. now destruct t. Qed.

Lemma join_split (c : ascii) (s : string) :
  join (String c "") (split c s) = s.
Proof.
  induction s as [| a s IH]; simpl; [reflexivity |].
  destruct (Ascii.eqb a c) eqn:E.
  - apply Ascii.eqb_eq in E. subst a.
    pose proof (split_nonempty c s) as Hne.
    destruct (split c s) as [| h t]; [contradiction |].
    change (join (String c "") ("" :: h :: t))
      with (String c (join (String c "") (h :: t))).
    now rewrite IH.
  - pose proof (split_nonempty c s) as Hne.
    destruct (split c s) as [| h t]; [contradiction |].
    rewrite join_cons_char. now rewrite IH.
Qed.

Lemma split_clean (x c : ascii) (s : string) :
  has_char x s = false -> Forall (fun seg => has_char x seg = false) (split c s).
Proof.
  induction s as [| a s IH]; simpl; intros H.
  - constructor; [reflexivity | constructor].
  - apply orb_false_iff in H. destruct H as [Ha Hs]. specialize (IH Hs).
    destruct (Ascii.eqb a c).
    + constructor; [reflexivity | exact IH].
    + destruct (split c s) as [| h t]; [constructor; [simpl; now rewrite Ha | constructor] |].
      inversion IH; subst. constructor; [simpl; rewrite Ha; assumption | assumption].
Qed.

Lemma resolve_clean (segments acc : list string) :
  Forall (fun seg => has_char "." seg = false) segments ->
  resolve segments acc = (acc ++ segments)%list.
Proof.
  revert acc. induction segments as [| seg rest IH]; intros acc H; simpl.
  - now rewrite app_nil_r.
  - inversion H as [| ? ? Hseg Hrest]; subst.
    destruct (String.eqb seg "..") eqn:E1.
    { apply String.eqb_eq in E1. subst. discriminate. }
    destruct (String.eqb seg ".") eqn:E2.
    { apply String.eqb_eq in E2. subst. discriminate. }
    rewrite IH by assumption. now rewrite <- app_assoc.
Qed.

Lemma last_clean (segments : list string) :
  Forall (fun seg => has_char "." seg = false) segments ->
  has_char "." (last segments "") = false.
Proof.
  induction segments as [| seg rest IH]; intros H; [reflexivity |].
  inversion H; subst. destruct rest; [assumption |]. now apply IH.
Qed.

Lemma not_dots (seg : string) :
  has_char "." seg = false -> (String.eqb seg "." || String.eqb seg "..") = false.
Proof.
  intros H.
  destruct (String.eqb seg ".") eqn:E1.
  { apply String.eqb_eq in E1. subst. discriminate. }
  destruct (String.eqb seg "..") eqn:E2.
  { apply String.eqb_eq in E2. subst. discriminate. }
  reflexivity.
Qed.

Lemma urljoin_origin (secure : bool) (host ep : string) :
  host <> "" -> all_chars host_char host = true -> all_chars endpoint_char ep = true ->
  urljoin (origin secure host) ("/api/" ++ ep) = origin secure host ++ "/api/" ++ ep.
Proof.
  intros Hne Hhost Hep.
  unfold urljoin.
  assert (B : is_empty (origin secure host) = false) by (now destruct secure).
  rewrite B.
  assert (U : is_empty ("/api/" ++ ep) = false) by reflexivity.
  rewrite U.
  rewrite urlparse_origin by assumption.
  cbn [scheme netloc path params query fragment].
  rewrite urlparse_api by assumption.
  cbn [scheme netloc path params query fragment].
  rewrite String.eqb_refl. cbn [negb orb].
  assert (P1 : prefix "/" ("/api/" ++ ep) = true) by reflexivity.
  assert (P2 : has_char "." ("/api/" ++ ep) = false).
  { cbn. now apply (has_char_all endpoint_char). }
  remember ("/api/" ++ ep) as p eqn:Hp.
  assert (M1 : mem (if secure then "https" else "http") uses_relative = true)
    by (now destruct secure).
  assert (M2 : mem (if secure then "https" else "http") uses_netloc = true)
    by (now destruct secure).
  rewrite M1, M2, U, P1. cbn [negb is_empty andb].
  pose proof (split_clean "." "/" p P2) as Hsegs.
  rewrite (not_dots _ (last_clean _ Hsegs)).
  rewrite resolve_clean by assumption. cbn [app].
  rewrite join_split, U.
  unfold urlunparse, urlunsplit.
  cbn [scheme netloc path params query fragment is_empty
       sr_scheme sr_netloc sr_path sr_query sr_fragment].
  assert (H1 : is_empty host = false) by (destruct host; [contradiction | reflexivity]).
  rewrite H1, U, P1. cbn [negb orb andb].
  assert (S1 : is_empty (if secure then "https" else "http") = false)
    by (now destruct secure).
  rewrite S1. unfold origin. destruct secure; reflexivity.
Qed.

Lemma rstrip_snoc (c : ascii) (s : string) :
  rstrip c (s ++ String c "") = rstrip c s.
Proof.
  induction s as [| a s IH]; simpl.
  - now rewrite Ascii.eqb_refl.
  - now rewrite IH.
Qed.

Lemma rstrip_repeat (c : ascii) (s : string) (n : nat) :
  rstrip c (s ++ string_of_list_ascii (repeat c n)) = rstrip c s.
Proof.
  revert s. induction n as [| n IH]; intros s; simpl.
  - f_equal. induction s as [| a s IHs]; simpl; [reflexivity | now rewrite IHs].
  - change (String c (string_of_list_ascii (repeat c n)))
      with (String c "" ++ string_of_list_ascii (repeat c n)).
    rewrite <- app_assoc_str, IH. apply rstrip_snoc.
Qed.

Lemma rstrip_clean (c : ascii) (s : string) :
  has_char c s = false -> rstrip c s = s.
Proof.
  induction s as [| a s IH]; simpl; [reflexivity |].
  intros H. apply orb_false_iff in H. destruct H as [Ha Hs].
  rewrite (IH Hs), Ha. now destruct s.
Qed.

Lemma rstrip_app_clean (c : ascii) (front s : string) :
  s <> "" -> has_char c s = false -> rstrip c (front ++ s) = front ++ s.
Proof.
  intros Hne Hs. induction front as [| a front IH]; simpl.
  - now apply rstrip_clean.
  - rewrite IH. destruct (front ++ s) eqn:E; [| reflexivity].
    destruct front; [simpl in E; contradiction | discriminate].
Qed.

(** What [rstrip] takes away is a run of the character at the end. *)
Lemma rstrip_split (c : ascii) (s : string) :
  exists n, s = rstrip c s ++ string_of_list_ascii (repeat c n).
Proof.
  induction s as [| a s [n IH]]; simpl.
  - now exists 0%nat.
  - destruct (rstrip c s) as [| b r] eqn:E.
    + destruct (Ascii.eqb a c) eqn:Ea.
      * apply Ascii.eqb_eq in Ea. subst a. exists (S n). simpl.
        now rewrite IH at 1.
      * exists n. simpl. now rewrite IH at 1.
    + exists n. simpl. now rewrite IH at 1.
Qed.

(** What [rstrip] returns does not end with the character. *)
Lemma rstrip_end (c : ascii) (s front : string) :
  rstrip c s <> front ++ String c "".
Proof.
  revert front. induction s as [| a s IH]; intros front; simpl.
  - destruct front; discriminate.
  - destruct (rstrip c s) as [| b r] eqn:E.
    + destruct (Ascii.eqb a c) eqn:Ea.
      * destruct front; discriminate.
      * destruct front as [| x front]; simpl.
        -- intros H. inversion H. subst. now rewrite Ascii.eqb_refl in Ea.
        -- destruct front; discriminate.
    + destruct front as [| x front]; simpl; [discriminate |].
      intros H. inversion H as [[Hx Hr]]. now apply (IH front).
Qed.

End UrlFacts.

(** X10. The base URL that the client keeps is the configured one
    without its trailing slashes: the configured URL is the kept one
    followed by slashes only, and the kept one does not end with a
    slash. *)
Theorem init_strips_trailing_slashes (config : KimaiConfig.t) :
  let kept := KimaiClient.base_url (KimaiClient.init config) in
  (exists n, KimaiConfig.base_url config = kept ++ slashes n) /\
  (forall front, kept <> front ++ "/").
Proof.
  intros kept. split.
  - apply UrlFacts.rstrip_split.
  - apply UrlFacts.rstrip_end.
Qed.

(** X11. For a base URL made of the scheme [http] or [https], a host
    and nothing else but trailing slashes, the request URL is the
    concatenation that one expects: the scheme and the host, then
    [/api/], then the endpoint. *)
Theorem request_url_of_pathless_base (secure : bool) (host token endpoint : string)
    (n : nat) :
  host <> EmptyString ->
  Urllib.all_chars host_char host = true ->
  Urllib.all_chars endpoint_char endpoint = true ->
  KimaiClient.request_url
    (KimaiClient.init {| KimaiConfig.base_url := origin secure host ++ slashes n;
                         KimaiConfig.api_token := token |})
    endpoint
  = origin secure host ++ "/api/" ++ endpoint.
Proof.
  intros Hne Hhost Hep.
  unfold KimaiClient.request_url, KimaiClient.init.
  cbn [KimaiClient.base_url KimaiConfig.base_url].
  unfold slashes. rewrite UrlFacts.rstrip_repeat.
  assert (Hkept : rstrip "/" (origin secure host) = origin secure host).
  { unfold origin. rewrite <- app_assoc_str.
    apply UrlFacts.rstrip_app_clean; [assumption |].
    now apply (UrlFacts.has_char_all host_char). }
  rewrite Hkept. now apply UrlFacts.urljoin_origin.
Qed.

Lemma request_url_of_pathless_base_witness :
  "kimai.example.com:8443" <> EmptyString /\
  Urllib.all_chars host_char "kimai.example.com:8443" = true /\
  Urllib.all_chars endpoint_char "timesheets/42" = true /\
  KimaiClient.request_url
    (KimaiClient.init {| KimaiConfig.base_url := origin true "kimai.example.com:8443" ++ slashes 2;
                         KimaiConfig.api_token := "secret" |})
    "timesheets/42"
  = origin true "kimai.example.com:8443" ++ "/api/" ++ "timesheets/42".
Proof.
  split; [discriminate |]. split; [reflexivity |]. split; [reflexivity |].
  apply (request_url_of_pathless_base true "kimai.example.com:8443" "secret"
           "timesheets/42" 2); [discriminate | reflexivity | reflexivity].
Defined.

(* ================================================================== *)
(** * Further properties of the formatters *)
(* ================================================================== *)








Lemma sum_durations_bad (items : list value) (acc : Z) :
  forallb is_dict items = true ->
  forallb numeric_duration items = false ->
  exists v,
    Py.as_int v = None /\
    sum_durations acc items
    = Raise (TypeError ("unsupported operand type(s) for +: 'int' and '"
                        ++ Py.type_name v ++ "'")).
Proof.
  revert acc. induction items as [| t rest IH]; intros acc Hdict Hbad;
    [discriminate |].
  cbn [forallb] in Hdict, Hbad.
  apply andb_true_iff in Hdict. destruct Hdict as [Ht Hrest].
  destruct t as [| | | | | d]; try discriminate.
  cbn [sum_durations Py.get_default bind].
  unfold numeric_duration in Hbad at 1.
  destruct (Py.lookup "duration" d) as [x |].
  - unfold Py.add_int. destruct (Py.as_int x) as [z |] eqn:Ex.
    + cbn [bind]. now apply IH.
    + exists x. split; [assumption | reflexivity].
  - cbn [Py.add_int Py.as_int bind]. now apply IH.
Qed.

(** X13. One record spoils the page: when the records of a page are
    JSON objects and the [duration] of one of them is not a number (a
    null, say), [format_timesheets_markdown] renders nothing and raises
    the type error of the sum over the durations. *)
Theorem page_fails_on_a_duration_that_is_no_number (items : list value) :
  forallb is_dict items = true ->
  forallb numeric_duration items = false ->
  exists v,
    Py.as_int v = None /\
    format_timesheets_markdown (VList items)
    = Raise (TypeError ("unsupported operand type(s) for +: 'int' and '"
                        ++ Py.type_name v ++ "'")).
Proof.
  intros Hdict Hbad.
  destruct (sum_durations_bad items 0 Hdict Hbad) as [v [Hv Hsum]].
  exists v. split; [assumption |].
  unfold format_timesheets_markdown, timesheets_lines.
  destruct items as [| t rest]; [discriminate |].
  cbn [Py.truthy negb Py.iter bind]. now rewrite Hsum.
Qed.

Lemma page_fails_on_a_duration_that_is_no_number_witness :
  forallb is_dict Case.page_with_null_duration = true /\
  forallb numeric_duration Case.page_with_null_duration = false /\
  exists v,
    Py.as_int v = None /\
    format_timesheets_markdown (VList Case.page_with_null_duration)
    = Raise (TypeError ("unsupported operand type(s) for +: 'int' and '"
                        ++ Py.type_name v ++ "'")).
Proof.
  split; [reflexivity |]. split; [reflexivity |].
  exact (page_fails_on_a_duration_that_is_no_number Case.page_with_null_duration
           eq_refl eq_refl).
Defined.


(* ================================================================== *)
(** * Further properties of the tool branches *)
(* ================================================================== *)

(** X15. A listing tool does not expect the success marker. When the
    remote answers its GET with a 2xx status and no content, the
    markdown format reports an attribute error, because the list
    formatter iterates over the keys of the marker, and every other
    format returns the marker as text. *)
Theorem listing_without_content (client : KimaiClient.t) (now : string)
    (call : ToolCall) (remote : Httpx.Remote) (sent : list Httpx.Request)
    (response : Httpx.Response) :
  is_listing call = true ->
  (forall rq, remote sent rq = Httpx.Responded response) ->
  Httpx.is_success response = true ->
  Httpx.status_code response = 204 \/ Httpx.content response = EmptyString ->
  fst (call_tool client now call remote sent)
  = text_content (if String.eqb (listing_format call) "markdown"
                  then "Error: 'str' object has no attribute 'get'"
                  else "{'success': True}").
Proof.
  intros Hlisting Hresp Hok Hempty.
  destruct call; try discriminate;
    unfold call_tool, call_tool_body, bindIO, KimaiClient.request;
    rewrite Hresp, (on_response_no_content response Hok Hempty);
    unfold render_list; cbn [listing_format];
    destruct (String.eqb _ "markdown"); reflexivity.
Qed.

Lemma listing_without_content_witness :
  is_listing (list_timesheets Case.timesheets_as_markdown) = true /\
  Httpx.is_success Sample.no_content = true /\
  fst (call_tool Sample.client Sample.noon
         (list_timesheets Case.timesheets_as_markdown)
         (Sample.always Sample.no_content) [])
  = text_content "Error: 'str' object has no attribute 'get'".
Proof.
  split; [reflexivity |]. split; [reflexivity |].
  exact (listing_without_content Sample.client Sample.noon
           (list_timesheets Case.timesheets_as_markdown)
           (Sample.always Sample.no_content) [] Sample.no_content
           eq_refl (fun _ => eq_refl) eq_refl (or_introl eq_refl)).
Defined.

(** X16. The query of [list_timesheets]: the page and the size are
    always sent; a numeric filter is sent exactly when it is given; a
    flag that is given travels as the string 1 or 0, also when it is
    false; a date is sent only when it is given and not empty. The query
    has no other key. *)
Theorem list_timesheets_query (client : KimaiClient.t) (now : string)
    (params : ListTimesheetsInput.t) (remote : Httpx.Remote)
    (sent : list Httpx.Request) :
  exists q,
    snd (call_tool client now (list_timesheets params) remote sent)
    = (sent ++ [KimaiClient.build_request client "GET" "timesheets" (Some q) None])%list /\
    Py.lookup "page" q = Some (VInt (ListTimesheetsInput.page params)) /\
    Py.lookup "size" q = Some (VInt (ListTimesheetsInput.size params)) /\
    Py.lookup "user" q = option_map VInt (ListTimesheetsInput.user params) /\
    Py.lookup "customer" q = option_map VInt (ListTimesheetsInput.customer params) /\
    Py.lookup "project" q = option_map VInt (ListTimesheetsInput.project params) /\
    Py.lookup "activity" q = option_map VInt (ListTimesheetsInput.activity params) /\
    Py.lookup "active" q = option_map flag (ListTimesheetsInput.active params) /\
    Py.lookup "exported" q = option_map flag (ListTimesheetsInput.exported params) /\
    Py.lookup "begin" q = sent_text (ListTimesheetsInput.begin params) /\
    Py.lookup "end" q = sent_text (ListTimesheetsInput.end_ params) /\
    incl (map fst q)
         ["page"; "size"; "user"; "customer"; "project"; "activity";
          "active"; "exported"; "begin"; "end"].
Proof.
  rewrite call_tool_log. cbn [call_tool_body].
  eexists. split; [apply request_then_log; intros; apply render_list_log |].
  unfold page_and_size.
  destruct params as [[u |] [c |] [p |] [a |] pg sz [ac |] [ex |]
                      [[| b0 b] |] [[| e0 e] |] f];
    cbn [ListTimesheetsInput.page ListTimesheetsInput.size ListTimesheetsInput.user
         ListTimesheetsInput.customer ListTimesheetsInput.project
         ListTimesheetsInput.activity ListTimesheetsInput.active
         ListTimesheetsInput.exported ListTimesheetsInput.begin
         ListTimesheetsInput.end_ set_int set_flag set_text page_and_size
         Urllib.is_empty app sent_text option_map];
    (repeat split; try reflexivity);
    intros k Hk; cbn [map fst In] in Hk; cbn [In]; tauto.
Qed.

(** X17. The body of [update_timesheet]: the begin and the end are
    tested for their truth value, so an empty one is left out like one
    that is not given; the description and the tags are tested against
    None, so an empty one is sent and clears the field. The body has no
    other key, and it is the empty object when nothing is given. *)
Theorem update_timesheet_body (client : KimaiClient.t) (now : string)
    (params : UpdateTimesheetInput.t) (remote : Httpx.Remote)
    (sent : list Httpx.Request) :
  exists data,
    snd (call_other client now (update_timesheet params) remote sent)
    = (sent ++ [KimaiClient.build_request client "PATCH"
                  ("timesheets/" ++ str_of_Z (UpdateTimesheetInput.id params)) None
                  (Some (VDict data))])%list /\
    Py.lookup "begin" data = sent_text (UpdateTimesheetInput.begin params) /\
    Py.lookup "end" data = sent_text (UpdateTimesheetInput.end_ params) /\
    Py.lookup "description" data
    = option_map VStr (UpdateTimesheetInput.description params) /\
    Py.lookup "tags" data = option_map VStr (UpdateTimesheetInput.tags params) /\
    incl (map fst data) ["begin"; "end"; "description"; "tags"].
Proof.
  rewrite call_other_log. cbn [call_other_body].
  eexists. split; [apply request_then_log; reflexivity |].
  unfold update_timesheet_data.
  destruct params as [id [[| b0 b] |] [[| e0 e] |] [d |] [t |]];
    cbn [UpdateTimesheetInput.begin UpdateTimesheetInput.end_
         UpdateTimesheetInput.description UpdateTimesheetInput.tags
         set_text set_given Urllib.is_empty app sent_text option_map];
    (repeat split; try reflexivity);
    intros k Hk; cbn [map fst In] in Hk; cbn [In]; tauto.
Qed.

(** X18. The body of [update_customer]: a flag that is given is sent as
    a JSON boolean, also when it is false, so that a customer can be
    hidden or made non-billable; the name, the currency and the colour
    are sent only when given and not empty. The body has no other key. *)
Theorem update_customer_body (client : KimaiClient.t) (now : string)
    (params : UpdateCustomerInput.t) (remote : Httpx.Remote)
    (sent : list Httpx.Request) :
  exists data,
    snd (call_other client now (update_customer params) remote sent)
    = (sent ++ [KimaiClient.build_request client "PATCH"
                  ("customers/" ++ str_of_Z (UpdateCustomerInput.id params)) None
                  (Some (VDict data))])%list /\
    Py.lookup "name" data = sent_text (UpdateCustomerInput.name params) /\
    Py.lookup "currency" data = sent_text (UpdateCustomerInput.currency params) /\
    Py.lookup "visible" data = option_map VBool (UpdateCustomerInput.visible params) /\
    Py.lookup "billable" data = option_map VBool (UpdateCustomerInput.billable params) /\
    Py.lookup "color" data = sent_text (UpdateCustomerInput.color params) /\
    incl (map fst data) ["name"; "currency"; "visible"; "billable"; "color"].
Proof.
  rewrite call_other_log. cbn [call_other_body].
  eexists. split; [apply request_then_log; reflexivity |].
  unfold update_customer_data.
  destruct params as [id [[| n0 n] |] [[| c0 c] |] [v |] [b |] [[| k0 k] |]];
    cbn [UpdateCustomerInput.name UpdateCustomerInput.currency
         UpdateCustomerInput.visible UpdateCustomerInput.billable
         UpdateCustomerInput.color
         set_text set_bool Urllib.is_empty app sent_text option_map];
    (repeat split; try reflexivity);
    intros key Hk; cbn [map fst In] in Hk; cbn [In]; tauto.
Qed.

(* ================================================================== *)
(** * Further properties of the summary *)
(* ================================================================== *)

Module SummaryMore.
Import Summary SummaryFacts.

Lemma sum_perm (l l' : list Z) : Permutation l l' -> sum l = sum l'.
Proof.
  induction 1 as [| x l l' _ IH | x y l | l l' l'' _ IH1 _ IH2].
  - reflexivity.
  - rewrite !sum_cons. lia.
  - rewrite !sum_cons. lia.
  - congruence.
Qed.

Lemma filter_perm {A : Type} (f : A -> bool) (l l' : list A) :
  Permutation l l' -> Permutation (filter f l) (filter f l').
Proof.
  induction 1 as [| x l l' _ IH | x y l | l l' l'' _ IH1 _ IH2]; cbn [filter].
  - constructor.
  - destruct (f x); [now constructor | assumption].
  - destruct (f x), (f y); try apply Permutation_refl. apply perm_swap.
  - eapply Permutation_trans; eassumption.
Qed.

Lemma durations_perm (l l' : list Entry.t) :
  Permutation l l' -> sum (map get_duration l) = sum (map get_duration l').
Proof. intros H. now apply sum_perm, Permutation_map. Qed.

Lemma int_truediv_error (a b : Z) (e : exn) :
  b <> 0 ->
  PyFloat.int_truediv a b = Raise e ->
  e = OverflowError "integer division result too large for a float".
Proof.
  intros Hb. unfold PyFloat.int_truediv.
  destruct (b =? 0) eqn:E; [apply Z.eqb_eq in E; contradiction |].
  destruct (a =? 0); [discriminate |].
  cbv zeta.
  match goal with |- context [binary_round ?p ?q ?s ?m ?x] =>
    destruct (binary_round p q s m x) end;
    intros H; now inversion H.
Qed.

Lemma round_error (digits : nat) (x : PyFloat.float) (e : exn) :
  PyFloat.round digits x = Raise e -> exists msg, e = OverflowError msg.
Proof.
  unfold PyFloat.round. destruct x as [| | | s m ex]; try discriminate.
  cbv zeta. destruct (_ =? 0); [discriminate |].
  destruct (PyFloat.int_truediv _ _) as [r | e'] eqn:E; [discriminate |].
  apply int_truediv_error in E; [| apply Z.pow_nonzero; lia].
  subst e'. intros H. inversion H. eauto.
Qed.

Lemma hours_error (a : Z) (e : exn) :
  PyFloat.int_truediv a 3600 = Raise e -> exists msg, e = OverflowError msg.
Proof. intros H. apply int_truediv_error in H; [eauto | lia]. Qed.

Lemma percent_of_ok (part total : PyFloat.float) :
  exists n, percent_of part total = Ok n.
Proof.
  unfold percent_of.
  destruct (PyFloat.gtb total (PyFloat.of_Z 0)) eqn:E; [| eauto].
  unfold PyFloat.truediv. rewrite (FloatFacts.gtb_zero_not_zero _ E).
  cbn [bind]. eauto.
Qed.

Lemma mapM_error {A B : Type} (P : exn -> Prop) (f : A -> result B) (l : list A)
    (e : exn) :
  (forall x e', f x = Raise e' -> P e') -> mapM f l = Raise e -> P e.
Proof.
  intros Hf. induction l as [| x l IH]; cbn [mapM]; [discriminate |].
  destruct (f x) as [y |] eqn:E; cbn [bind].
  - destruct (mapM f l); cbn [bind]; [discriminate |].
    intros H. inversion H. subst. now apply IH.
  - intros H. inversion H. subst. eapply Hf; eassumption.
Qed.

Lemma group_line_error (label : string) (item : option Z * Group.t) (e : exn) :
  group_line label item = Raise e -> exists msg, e = OverflowError msg.
Proof.
  unfold group_line.
  destruct (PyFloat.int_truediv _ 3600) eqn:E; cbn [bind]; [discriminate |].
  intros H. inversion H. subst. eapply hours_error; eassumption.
Qed.

Lemma lines_error (label : string) (items : list (option Z * Group.t)) (e : exn) :
  mapM (group_line label) items = Raise e -> exists msg, e = OverflowError msg.
Proof.
  apply (mapM_error (fun e => exists msg, e = OverflowError msg)).
  intros x e'. apply group_line_error.
Qed.

Lemma hours_by_key_error (items : list (option Z * Group.t))
    (acc : list (string * Payload.group)) (e : exn) :
  hours_by_key items acc = Raise e -> exists msg, e = OverflowError msg.
Proof.
  revert acc. induction items as [| [k v] rest IH]; intros acc;
    cbn [hours_by_key]; [discriminate |].
  destruct (PyFloat.int_truediv _ 3600) as [h |] eqn:E; cbn [bind].
  - destruct (PyFloat.round 2 h) as [r |] eqn:Er; cbn [bind]; [apply IH |].
    intros H. inversion H. subst. eapply round_error; eassumption.
  - intros H. inversion H. subst. eapply hours_error; eassumption.
Qed.

Lemma overview_error (timesheets : list Entry.t) (e : exn) :
  overview timesheets = Raise e -> exists msg, e = OverflowError msg.
Proof.
  unfold overview, non_billable_hours, total_hours, billable_hours.
  destruct (PyFloat.int_truediv (total_duration timesheets) 3600)
    as [total |] eqn:Et; cbn [bind];
    [| intros H; inversion H; subst; eapply hours_error; eassumption].
  destruct (PyFloat.int_truediv (billable_duration timesheets) 3600)
    as [billable |] eqn:Eb; cbn [bind];
    [| intros H; inversion H; subst; eapply hours_error; eassumption].
  destruct (percent_of_ok billable total) as [p1 ->].
  destruct (percent_of_ok (PyFloat.sub total billable) total) as [p2 ->].
  discriminate.
Qed.

End SummaryMore.

(** X19. The figures of the summary do not depend on the order of the
    entries: two lists with the same entries in any order have the same
    total, billable and non-billable hours, and under every project or
    activity key the same group of seconds and count. Only the order in
    which the keys are met can differ. *)
Theorem summary_ignores_entry_order (timesheets shuffled : list Entry.t) :
  Permutation timesheets shuffled ->
  Summary.total_hours timesheets = Summary.total_hours shuffled /\
  Summary.billable_hours timesheets = Summary.billable_hours shuffled /\
  Summary.non_billable_hours timesheets = Summary.non_billable_hours shuffled /\
  forall g k,
    dict_get Summary.key_eqb k (Summary.grouped g timesheets)
    = dict_get Summary.key_eqb k (Summary.grouped g shuffled).
Proof.
  intros Hperm.
  assert (Ht : Summary.total_hours timesheets = Summary.total_hours shuffled).
  { unfold Summary.total_hours, Summary.total_duration.
    now rewrite (SummaryMore.durations_perm _ _ Hperm). }
  assert (Hb : Summary.billable_hours timesheets = Summary.billable_hours shuffled).
  { unfold Summary.billable_hours, Summary.billable_duration.
    now rewrite (SummaryMore.durations_perm _ _
                   (SummaryMore.filter_perm Summary.is_billable _ _ Hperm)). }
  split; [exact Ht |]. split; [exact Hb |].
  split; [unfold Summary.non_billable_hours; now rewrite Ht, Hb |].
  intros g k. rewrite !SummaryFacts.grouped_get.
  pose proof (SummaryMore.filter_perm
                (fun t => Summary.key_eqb (Summary.key_of g t) k) _ _ Hperm) as Hes.
  fold (Summary.entries_with (Summary.key_of g) k timesheets) in Hes.
  fold (Summary.entries_with (Summary.key_of g) k shuffled) in Hes.
  destruct (Summary.entries_with (Summary.key_of g) k timesheets) as [| e es];
    destruct (Summary.entries_with (Summary.key_of g) k shuffled) as [| e' es'].
  - reflexivity.
  - now apply Permutation_nil in Hes.
  - now apply Permutation_sym, Permutation_nil in Hes.
  - cbv zeta.
    now rewrite (SummaryMore.durations_perm _ _ Hes), (Permutation_length Hes).
Qed.

Lemma summary_ignores_entry_order_witness :
  Permutation Case.two_entries Case.two_entries_swapped /\
  Summary.total_hours Case.two_entries = Summary.total_hours Case.two_entries_swapped /\
  Summary.billable_hours Case.two_entries
  = Summary.billable_hours Case.two_entries_swapped /\
  Summary.non_billable_hours Case.two_entries
  = Summary.non_billable_hours Case.two_entries_swapped /\
  forall g k,
    dict_get Summary.key_eqb k (Summary.grouped g Case.two_entries)
    = dict_get Summary.key_eqb k (Summary.grouped g Case.two_entries_swapped).
Proof.
  split; [apply perm_swap |].
  exact (summary_ignores_entry_order Case.two_entries Case.two_entries_swapped
           (perm_swap _ _ _)).
Defined.

(* ================================================================== *)
(** * The summary branch on the decoded payload *)
(* ================================================================== *)

Module RawFacts.
Import Summary SummaryFacts RawSummary.

Lemma key_eq_encode (a b : option Z) :
  key_eq (encode_key a) (encode_key b) = key_eqb a b.
Proof. destruct a, b; reflexivity. Qed.

Lemma dict_get_encode (k : option Z) (d : list (option Z * Group.t)) :
  dict_get key_eq (encode_key k) (encode_groups d) = dict_get key_eqb k d.
Proof.
  induction d as [| [k0 v0] d IH]; cbn [encode_groups map dict_get fst snd];
    [reflexivity |].
  rewrite key_eq_encode. fold (encode_groups d). now rewrite IH.
Qed.

Lemma dict_mem_encode (k : option Z) (d : list (option Z * Group.t)) :
  dict_mem key_eq (encode_key k) (encode_groups d) = dict_mem key_eqb k d.
Proof. unfold dict_mem. now rewrite dict_get_encode. Qed.

Lemma dict_set_encode (k : option Z) (v : Group.t) (d : list (option Z * Group.t)) :
  dict_set key_eq (encode_key k) v (encode_groups d)
  = encode_groups (dict_set key_eqb k v d).
Proof.
  induction d as [| [k0 v0] d IH]; cbn [encode_groups map dict_set fst snd];
    [reflexivity |].
  rewrite key_eq_encode. fold (encode_groups d).
  destruct (key_eqb k0 k); cbn [map fst snd]; [reflexivity |].
  fold (encode_groups (dict_set key_eqb k v d)). now rewrite IH.
Qed.

Lemma dict_update_encode (k : option Z) (f : Group.t -> Group.t)
    (d : list (option Z * Group.t)) :
  dict_update key_eq (encode_key k) f (encode_groups d)
  = encode_groups (dict_update key_eqb k f d).
Proof.
  induction d as [| [k0 v0] d IH]; cbn [encode_groups map dict_update fst snd];
    [reflexivity |].
  rewrite key_eq_encode. fold (encode_groups d).
  destruct (key_eqb k0 k); cbn [map fst snd]; [reflexivity |].
  fold (encode_groups (dict_update key_eqb k f d)). now rewrite IH.
Qed.

Lemma hashable_encode (k : option Z) : hashable (encode_key k) = true.
Proof. now destruct k. Qed.

Lemma decodes_duration (item : value) (e : Entry.t) :
  decodes item e ->
  Py.get_default item "duration" (VInt 0) = Ok (VInt (get_duration e)).
Proof.
  intros [d [-> [Hd _]]]. unfold Py.get_default, get_duration.
  rewrite Hd. now destruct (Entry.duration e).
Qed.

Lemma decodes_billable (item : value) (e : Entry.t) :
  decodes item e ->
  exists b, Py.get item "billable" = Ok b /\ Py.truthy b = is_billable e.
Proof.
  intros [d [-> [_ [Hb _]]]]. unfold Py.get, is_billable.
  rewrite Hb. destruct (Entry.billable e) as [b |]; eexists; split; reflexivity.
Qed.

Lemma decodes_key (g : grouping) (item : value) (e : Entry.t) :
  decodes item e -> Py.get item (field_of g) = Ok (encode_key (key_of g e)).
Proof.
  intros [d [-> [_ [_ [Hp Ha]]]]]. now destruct g.
Qed.

Lemma group_step_encode (g : grouping) (item : value) (e : Entry.t)
    (d : list (option Z * Group.t)) :
  decodes item e ->
  RawSummary.group_step (field_of g) (encode_groups d) item
  = Ok (encode_groups (Summary.group_step (key_of g) d e)).
Proof.
  intros H. unfold RawSummary.group_step, Summary.group_step.
  rewrite (decodes_key g item e H). cbn [bind].
  rewrite hashable_encode. cbn [negb].
  rewrite (decodes_duration item e H). cbn [bind Py.as_int].
  rewrite dict_mem_encode.
  destruct (negb (dict_mem key_eqb (key_of g e) d)).
  - now rewrite dict_set_encode, !dict_update_encode.
  - now rewrite !dict_update_encode.
Qed.

Lemma group_by_encode (g : grouping) (items : list value) (es : list Entry.t) :
  Forall2 decodes items es ->
  forall d,
    RawSummary.group_by (field_of g) (encode_groups d) items
    = Ok (encode_groups (fold_left (Summary.group_step (key_of g)) es d)).
Proof.
  induction 1 as [| item e items es H _ IH]; intros d; [reflexivity |].
  cbn [RawSummary.group_by fold_left].
  rewrite (group_step_encode g item e d H). cbn [bind]. apply IH.
Qed.

Lemma sum_durations_decodes (items : list value) (es : list Entry.t) :
  Forall2 decodes items es ->
  forall acc,
    sum_durations acc items = Ok (fold_left Z.add (map get_duration es) acc).
Proof.
  induction 1 as [| item e items es H _ IH]; intros acc; [reflexivity |].
  cbn [sum_durations map fold_left].
  rewrite (decodes_duration item e H). cbn [bind Py.add_int Py.as_int]. apply IH.
Qed.

Lemma sum_billable_decodes (items : list value) (es : list Entry.t) :
  Forall2 decodes items es ->
  forall acc,
    sum_billable acc items
    = Ok (fold_left Z.add (map get_duration (filter is_billable es)) acc).
Proof.
  induction 1 as [| item e items es H _ IH]; intros acc; [reflexivity |].
  cbn [sum_billable filter].
  destruct (decodes_billable item e H) as [b [-> Hb]]. cbn [bind]. rewrite Hb.
  destruct (is_billable e); cbn [map fold_left].
  - rewrite (decodes_duration item e H). cbn [bind Py.add_int Py.as_int]. apply IH.
  - apply IH.
Qed.

Lemma figures_decodes (items : list value) (es : list Entry.t) :
  Forall2 decodes items es ->
  figures (VList items)
  = (total <- Summary.total_hours es ;;
     billable <- Summary.billable_hours es ;;
     Ok {| RawSummary.total_hours := total;
           RawSummary.billable_hours := billable;
           RawSummary.non_billable_hours := PyFloat.sub total billable;
           RawSummary.by_project := encode_groups (Summary.by_project es);
           RawSummary.by_activity := encode_groups (Summary.by_activity es) |}).
Proof.
  intros H. unfold figures. cbn [Py.iter bind].
  rewrite (sum_durations_decodes items es H). cbn [bind].
  unfold Summary.total_hours, Summary.total_duration, Summary.sum.
  destruct (PyFloat.int_truediv _ 3600) as [total |]; cbn [bind]; [| reflexivity].
  rewrite (sum_billable_decodes items es H). cbn [bind].
  unfold Summary.billable_hours, Summary.billable_duration, Summary.sum.
  destruct (PyFloat.int_truediv _ 3600) as [billable |]; cbn [bind]; [| reflexivity].
  change (@nil (value * Group.t)) with (encode_groups []).
  rewrite (group_by_encode ByProject items es H). cbn [bind].
  rewrite (group_by_encode ByActivity items es H). cbn [bind].
  reflexivity.
Qed.


Section SortedMap.
Context {A B : Type} (f : A -> B) (key : A -> Z) (key' : B -> Z).
Hypothesis key_f : forall x, key' (f x) = key x.

Lemma insert_map (x : A) (l : list A) :
  insert key' (f x) (map f l) = map f (insert key x l).
Proof.
  induction l as [| y l IH]; cbn [map insert]; [reflexivity |].
  rewrite !key_f. destruct (key x <=? key y); cbn [map]; [reflexivity |].
  now rewrite IH.
Qed.

Lemma sort_stable_map (l : list A) :
  sort_stable key' (map f l) = map f (sort_stable key l).
Proof.
  induction l as [| x l IH]; cbn [map sort_stable]; [reflexivity |].
  now rewrite IH, insert_map.
Qed.

Lemma sorted_map (reverse : bool) (l : list A) :
  sorted key' reverse (map f l) = map f (sorted key reverse l).
Proof.
  unfold sorted. destruct reverse.
  - now rewrite <- map_rev, sort_stable_map, map_rev.
  - apply sort_stable_map.
Qed.
End SortedMap.

Lemma listed_encode (d : list (option Z * Group.t)) :
  RawSummary.listed (encode_groups d) = encode_groups (Summary.listed d).
Proof.
  unfold RawSummary.listed, Summary.listed, encode_groups.
  now apply sorted_map.
Qed.

Lemma str_encode (k : option Z) : Py.str (encode_key k) = key_str k.
Proof. now destruct k. Qed.

Lemma mapM_map {A B C : Type} (f : B -> result C) (h : A -> B) (l : list A) :
  mapM f (map h l) = mapM (fun x => f (h x)) l.
Proof.
  induction l as [| x l IH]; cbn [map mapM]; [reflexivity |]. now rewrite IH.
Qed.

Lemma lines_encode (label : string) (d : list (option Z * Group.t)) :
  mapM (RawSummary.group_line label) (encode_groups d)
  = mapM (Summary.group_line label) d.
Proof.
  unfold encode_groups. rewrite mapM_map.
  induction d as [| [k v] d IH]; cbn [mapM]; [reflexivity |].
  rewrite IH. unfold RawSummary.group_line, Summary.group_line.
  cbn [fst snd]. now rewrite str_encode.
Qed.

Lemma hours_by_key_encode (d : list (option Z * Group.t))
    (acc : list (string * Payload.group)) :
  RawSummary.hours_by_key (encode_groups d) acc = Summary.hours_by_key d acc.
Proof.
  revert acc. induction d as [| [k v] d IH]; intros acc; [reflexivity |].
  cbn [encode_groups map RawSummary.hours_by_key Summary.hours_by_key fst snd].
  fold (encode_groups d).
  destruct (PyFloat.int_truediv _ 3600) as [h |]; cbn [bind]; [| reflexivity].
  destruct (PyFloat.round 2 h) as [r |]; cbn [bind]; [| reflexivity].
  rewrite str_encode. apply IH.
Qed.

Lemma decodes_length (items : list value) (es : list Entry.t) :
  Forall2 decodes items es -> List.length items = List.length es.
Proof. induction 1; cbn [List.length]; congruence. Qed.

(** On a page of entries the branch computes the report of [Summary]. *)
Lemma markdown_decodes (items : list value) (es : list Entry.t) :
  Forall2 decodes items es ->
  RawSummary.markdown (VList items) = Summary.summary_markdown es.
Proof.
  intros H. unfold RawSummary.markdown, Summary.summary_markdown, Summary.report,
    Summary.overview, Summary.non_billable_hours.
  rewrite (figures_decodes items es H).
  destruct (Summary.total_hours es) as [total |]; cbn [bind]; [| reflexivity].
  destruct (Summary.billable_hours es) as [billable |]; cbn [bind]; [| reflexivity].
  cbn [Py.len bind RawSummary.total_hours RawSummary.billable_hours
       RawSummary.non_billable_hours RawSummary.by_project RawSummary.by_activity].
  rewrite (decodes_length items es H).
  destruct (percent_of billable total) as [p1 |]; cbn [bind]; [| reflexivity].
  destruct (percent_of (PyFloat.sub total billable) total) as [p2 |];
    cbn [bind]; [| reflexivity].
  now rewrite !listed_encode, !lines_encode.
Qed.

Lemma json_decodes (items : list value) (es : list Entry.t) :
  Forall2 decodes items es ->
  RawSummary.json (VList items) = Summary.summary_json es.
Proof.
  intros H. unfold RawSummary.json, Summary.summary_json,
    Summary.non_billable_hours.
  rewrite (figures_decodes items es H).
  destruct (Summary.total_hours es) as [total |]; cbn [bind]; [| reflexivity].
  destruct (Summary.billable_hours es) as [billable |]; cbn [bind]; [| reflexivity].
  cbn [Py.len bind RawSummary.total_hours RawSummary.billable_hours
       RawSummary.non_billable_hours RawSummary.by_project RawSummary.by_activity].
  rewrite (decodes_length items es H).
  now rewrite !hours_by_key_encode.
Qed.


(** ** No division by zero, whatever the payload *)

Lemma bind_raise {A B : Type} (c : result A) (k : A -> result B) (e : exn) :
  bind c k = Raise e -> c = Raise e \/ exists a, c = Ok a /\ k a = Raise e.
Proof.
  destruct c as [a | e']; cbn [bind]; intros H; [eauto |].
  left. now inversion H.
Qed.








Ltac step H :=
  apply bind_raise in H;
  destruct H as [H | [? [_ H]]].












(** On the entries of [Summary] the two renderings fail only by
    overflow. *)
Lemma entries_only_overflow (timesheets : list Entry.t) (e : exn) :
  Summary.summary_markdown timesheets = Raise e \/
  Summary.summary_json timesheets = Raise e ->
  exists msg, e = OverflowError msg.
Proof.
  intros [H | H].
  - unfold Summary.summary_markdown, Summary.report in H.
    destruct (Summary.overview timesheets) as [lines |] eqn:Eo; cbn [bind] in H;
      [| inversion H; subst; eapply SummaryMore.overview_error; eassumption].
    destruct (mapM (Summary.group_line "Project") _) as [pl |] eqn:Ep;
      cbn [bind] in H;
      [| inversion H; subst;
         exact (SummaryMore.lines_error _ _ _ Ep)].
    destruct (mapM (Summary.group_line "Activity") _) as [al |] eqn:Ea;
      cbn [bind] in H; [discriminate |].
    inversion H; subst. exact (SummaryMore.lines_error _ _ _ Ea).
  - unfold Summary.summary_json, Summary.non_billable_hours, Summary.total_hours,
      Summary.billable_hours in H.
    repeat match type of H with
    | bind ?c _ = Raise _ =>
        let E := fresh "E" in
        destruct c eqn:E; cbn [bind] in H;
        [| inversion H; subst;
           first [ eapply SummaryMore.hours_error; eassumption
                 | eapply SummaryMore.round_error; eassumption
                 | eapply SummaryMore.hours_by_key_error; eassumption ] ]
    end.
    discriminate.
Qed.

End RawFacts.

(** X20. On a page whose items are time entries (objects whose duration
    is an integer or absent, whose billable flag is a boolean or absent,
    and whose project and activity are an integer, null or absent), the
    summary branch can fail in one way only, in the markdown as in the
    JSON format: with an overflow error, raised when a number of hours
    exceeds the range of a float. *)
Theorem summary_fails_only_by_overflow (items : list value)
    (timesheets : list Entry.t) (e : exn) :
  Forall2 RawSummary.decodes items timesheets ->
  RawSummary.markdown (VList items) = Raise e \/
  RawSummary.json (VList items) = Raise e ->
  exists msg, e = OverflowError msg.
Proof.
  intros Hdec H.
  rewrite (RawFacts.markdown_decodes items timesheets Hdec) in H.
  rewrite (RawFacts.json_decodes items timesheets Hdec) in H.
  exact (RawFacts.entries_only_overflow timesheets e H).
Qed.

Lemma summary_fails_only_by_overflow_witness :
  Forall2 RawSummary.decodes Case.endless_page Case.endless /\
  RawSummary.markdown (VList Case.endless_page)
  = Raise (OverflowError "integer division result too large for a float") /\
  exists msg,
    OverflowError "integer division result too large for a float" = OverflowError msg.
Proof.
  assert (Hdec : Forall2 RawSummary.decodes Case.endless_page Case.endless).
  { repeat (constructor; [eexists; repeat split; reflexivity |]). constructor. }
  assert (H : RawSummary.markdown (VList Case.endless_page)
              = Raise (OverflowError "integer division result too large for a float"))
    by (vm_compute; reflexivity).
  split; [exact Hdec |]. split; [exact H |].
  exact (summary_fails_only_by_overflow Case.endless_page Case.endless _ Hdec
           (or_introl H)).
Defined.



(** X28. On a page whose items are time entries the branch computes
    what [Summary] computes from the entries: the same markdown report,
    or the same error, and the same JSON payload. The properties of
    [Summary] are properties of the branch on such pages. *)
Theorem summary_of_decoded_entries (items : list value) (timesheets : list Entry.t) :
  Forall2 RawSummary.decodes items timesheets ->
  RawSummary.markdown (VList items) = Summary.summary_markdown timesheets /\
  RawSummary.json (VList items) = Summary.summary_json timesheets.
Proof.
  intros Hdec. split.
  - now apply RawFacts.markdown_decodes.
  - now apply RawFacts.json_decodes.
Qed.

Lemma summary_of_decoded_entries_witness :
  Forall2 RawSummary.decodes Case.scenario_page Sample.scenario /\
  RawSummary.markdown (VList Case.scenario_page)
  = Summary.summary_markdown Sample.scenario /\
  RawSummary.json (VList Case.scenario_page) = Summary.summary_json Sample.scenario.
Proof.
  assert (Hdec : Forall2 RawSummary.decodes Case.scenario_page Sample.scenario).
  { repeat (constructor; [eexists; repeat split; reflexivity |]). constructor. }
  split; [exact Hdec |].
  exact (summary_of_decoded_entries Case.scenario_page Sample.scenario Hdec).
Defined.

(** X21. When every entry has the duration zero or none, as entries
    that have just been started do, the total is zero and both
    percentages are the integer 0: the guard answers before any
    division, for any number of entries. *)
Theorem zero_durations_give_zero_percent (timesheets : list Entry.t) :
  Forall (fun t => Summary.get_duration t = 0) timesheets ->
  Summary.total_hours timesheets = Ok PyFloat.zero /\
  Summary.billable_percent timesheets = Ok (NInt 0) /\
  Summary.non_billable_percent timesheets = Ok (NInt 0).
Proof.
  intros Hzero.
  assert (Hsum : forall l, Forall (fun t => Summary.get_duration t = 0) l ->
                           Summary.sum (map Summary.get_duration l) = 0).
  { induction 1 as [| t l Ht _ IH]; [reflexivity |].
    cbn [map]. rewrite SummaryFacts.sum_cons. lia. }
  assert (Ht : Summary.total_duration timesheets = 0) by now apply Hsum.
  assert (Hb : Summary.billable_duration timesheets = 0).
  { apply Hsum. rewrite Forall_forall in *. intros t Hin.
    apply filter_In in Hin. now apply Hzero. }
  unfold Summary.billable_percent, Summary.non_billable_percent,
    Summary.non_billable_hours, Summary.total_hours, Summary.billable_hours.
  rewrite Ht, Hb. repeat split.
Qed.

Lemma zero_durations_give_zero_percent_witness :
  Forall (fun t => Summary.get_duration t = 0) Case.idle /\
  Summary.total_hours Case.idle = Ok PyFloat.zero /\
  Summary.billable_percent Case.idle = Ok (NInt 0) /\
  Summary.non_billable_percent Case.idle = Ok (NInt 0).
Proof.
  assert (H : Forall (fun t => Summary.get_duration t = 0) Case.idle)
    by (repeat constructor).
  split; [exact H |].
  exact (zero_durations_give_zero_percent Case.idle H).
Defined.

Module PayloadFacts.
Import Summary SummaryFacts.

Lemma str_of_Z_inj (a b : Z) : str_of_Z a = str_of_Z b -> a = b.
Proof.
  unfold str_of_Z. intros H.
  apply (f_equal NilEmpty.int_of_string) in H.
  rewrite !NilEmpty.isi in H. inversion H as [H'].
  apply (f_equal Z.of_int) in H'. now rewrite !DecimalZ.of_to in H'.
Qed.

Lemma str_of_Z_not_None (z : Z) : str_of_Z z <> "None".
Proof.
  unfold str_of_Z. intros H.
  apply (f_equal NilEmpty.int_of_string) in H.
  rewrite NilEmpty.isi in H. discriminate.
Qed.

(** The [str] of a key tells the keys apart. *)
Lemma key_str_inj (a b : option Z) : key_str a = key_str b -> a = b.
Proof.
  destruct a as [x |], b as [y |]; cbn [key_str]; intros H.
  - f_equal. now apply str_of_Z_inj.
  - now apply str_of_Z_not_None in H.
  - symmetry in H. now apply str_of_Z_not_None in H.
  - reflexivity.
Qed.




Lemma grouped_NoDup (g : grouping) (timesheets : list Entry.t) :
  NoDup (map fst (grouped g timesheets)).
Proof. rewrite grouped_keys. apply first_seen_NoDup. Qed.

End PayloadFacts.



Module BoundFacts.
Import Summary SummaryFacts.

Lemma first_seen_length (l : list (option Z)) :
  (List.length (first_seen l) <= List.length l)%nat.
Proof.
  induction l as [| a l IH]; cbn [first_seen List.length]; [lia |].
  pose proof (filter_length_le (fun k' => negb (key_eqb a k')) (first_seen l)).
  lia.
Qed.

Lemma sum_filter_bounds (f : Entry.t -> bool) (l : list Entry.t) :
  Forall (fun t => 0 <= get_duration t) l ->
  0 <= sum (map get_duration (filter f l)) <= sum (map get_duration l).
Proof.
  induction 1 as [| t l Ht _ IH]; cbn [filter map].
  - unfold sum. simpl. lia.
  - destruct (f t); cbn [map]; rewrite !sum_cons; lia.
Qed.

End BoundFacts.

(** X23. Every group of the summary holds at least one entry and at
    most all of them, and there are no more groups than entries. When no
    duration is negative, the seconds of a group lie between zero and
    the total. *)
Theorem groups_are_bounded (g : Summary.grouping) (timesheets : list Entry.t)
    (k : option Z) (grp : Group.t) :
  In (k, grp) (Summary.grouped g timesheets) ->
  1 <= Group.count grp <= Z.of_nat (List.length timesheets) /\
  (List.length (Summary.grouped g timesheets) <= List.length timesheets)%nat /\
  (Forall (fun t => 0 <= Summary.get_duration t) timesheets ->
   0 <= Group.duration grp <= Summary.total_duration timesheets).
Proof.
  intros Hin.
  apply (dict_get_In Summary.key_eqb SummaryFacts.key_eqb_eq) in Hin;
    [| apply PayloadFacts.grouped_NoDup].
  rewrite SummaryFacts.grouped_get in Hin.
  pose proof (filter_length_le
                (fun t => Summary.key_eqb (Summary.key_of g t) k) timesheets) as Hlen.
  fold (Summary.entries_with (Summary.key_of g) k timesheets) in Hlen.
  split; [| split].
  - destruct (Summary.entries_with (Summary.key_of g) k timesheets) as [| e es];
      [discriminate |].
    inversion Hin. cbn [Group.count List.length] in *. lia.
  - rewrite <- (length_map fst), SummaryFacts.grouped_keys.
    rewrite <- (length_map (Summary.key_of g) timesheets).
    apply BoundFacts.first_seen_length.
  - intros Hpos.
    pose proof (BoundFacts.sum_filter_bounds
                  (fun t => Summary.key_eqb (Summary.key_of g t) k) _ Hpos) as Hsum.
    fold (Summary.entries_with (Summary.key_of g) k timesheets) in Hsum.
    destruct (Summary.entries_with (Summary.key_of g) k timesheets) as [| e es];
      [discriminate |].
    inversion Hin. cbn [Group.duration]. exact Hsum.
Qed.

Lemma groups_are_bounded_witness :
  In (Some 1, {| Group.duration := 5400; Group.count := 2 |})
     (Summary.grouped Summary.ByProject Sample.scenario) /\
  1 <= 2 <= Z.of_nat (List.length Sample.scenario) /\
  (List.length (Summary.grouped Summary.ByProject Sample.scenario)
   <= List.length Sample.scenario)%nat /\
  (Forall (fun t => 0 <= Summary.get_duration t) Sample.scenario ->
   0 <= 5400 <= Summary.total_duration Sample.scenario).
Proof.
  split; [left; reflexivity |].
  exact (groups_are_bounded Summary.ByProject Sample.scenario (Some 1)
           {| Group.duration := 5400; Group.count := 2 |} (or_introl eq_refl)).
Defined.

(* ================================================================== *)
(** * The connection test and the client of the process *)
(* ================================================================== *)

Module ConnectionFacts.
Import TestConnection.

(** The steps run in turn: the requests issued are the first [n] of the
    steps' requests, all of them when the run succeeds, and at least one
    when there is a step at all. *)
Lemma run_steps_requests (client : KimaiClient.t) (todo : list Step)
    (remote : Httpx.Remote) (sent : list Httpx.Request) (out : list string) :
  exists n : nat,
    (n <= List.length todo)%nat /\
    requests (run_steps client todo remote sent out)
    = (sent ++ firstn n (map (probe client) todo))%list /\
    (success (run_steps client todo remote sent out) = true -> n = List.length todo) /\
    (todo <> [] -> (1 <= n)%nat).
Proof.
  revert sent out. induction todo as [| step rest IH]; intros sent out.
  - exists 0%nat. cbn. rewrite app_nil_r. repeat split; try lia. congruence.
  - cbn [run_steps]. unfold KimaiClient.request. fold (probe client step).
    assert (Hone : exists n : nat,
               (n <= List.length (step :: rest))%nat /\
               (sent ++ [probe client step])%list
               = (sent ++ firstn n (map (probe client) (step :: rest)))%list /\
               (false = true -> n = List.length (step :: rest)) /\
               (step :: rest <> [] -> (1 <= n)%nat)).
    { exists 1%nat. cbn [List.length map firstn].
      repeat split; try lia; try discriminate. }
    destruct (remote sent (probe client step)) as [response | msg]; [| exact Hone].
    destruct (KimaiClient.on_response response) as [payload | e]; [| exact Hone].
    destruct (report step payload) as [line | e]; [| exact Hone].
    destruct (IH (sent ++ [probe client step])%list
                 ((out ++ [announce_line step]) ++ [line])%list)
      as [n [Hn [Hreq [Hall Hsome]]]].
    exists (S n). cbn [List.length map firstn].
    rewrite Hreq, <- app_assoc. cbn [app].
    repeat split; try lia. intros H. now rewrite (Hall H).
Qed.

Lemma slice_to_short (s : string) (k : Z) :
  Z.of_nat (String.length s) <= k -> slice_to s k = s.
Proof.
  intros H. unfold slice_to.
  replace (k <? 0) with false by (symmetry; apply Z.ltb_ge; lia).
  rewrite Z.min_r by lia. rewrite Nat2Z.id. apply UrlFacts.substring_full.
Qed.

Lemma slice_from_short (s : string) (k : Z) :
  k < 0 -> Z.of_nat (String.length s) <= - k -> slice_from s k = s.
Proof.
  intros Hk H. unfold slice_from.
  replace (k <? 0) with true by (symmetry; apply Z.ltb_lt; lia).
  rewrite Z.max_l by lia. rewrite Z.sub_0_r, Nat2Z.id.
  apply UrlFacts.substring_full.
Qed.

End ConnectionFacts.

(** X24. [test_connection] asks for the version, the timesheets, the
    projects, the activities and the customers, in this order, each with
    one GET, and stops at the first failure: the requests it has issued
    are the first [n] of these five, all five when it returns True. It
    issues none exactly when one of the two variables of the environment
    is missing or empty. *)
Theorem test_connection_probes_in_order (environ : Environ) (remote : Httpx.Remote)
    (sent : list Httpx.Request) :
  exists n : nat,
    (n <= 5)%nat /\
    TestConnection.requests (TestConnection.test_connection environ remote sent)
    = (sent ++ firstn n (probes (tested_client environ)))%list /\
    (TestConnection.success (TestConnection.test_connection environ remote sent) = true ->
     n = 5%nat) /\
    (n = 0%nat <->
     TestConnection.falsy (environ "KIMAI_BASE_URL") = true \/
     TestConnection.falsy (environ "KIMAI_API_TOKEN") = true).
Proof.
  unfold TestConnection.test_connection.
  destruct (TestConnection.falsy (environ "KIMAI_BASE_URL")
            || TestConnection.falsy (environ "KIMAI_API_TOKEN")) eqn:E.
  - exists 0%nat. cbn [TestConnection.requests TestConnection.success firstn].
    rewrite app_nil_r. repeat split; try lia; try discriminate.
    intros _. now apply orb_true_iff.
  - match goal with |- context [TestConnection.run_steps ?c ?t ?r ?s ?o] =>
      destruct (ConnectionFacts.run_steps_requests c t r s o)
        as [n [Hn [Hreq [Hall Hsome]]]] end.
    exists n. split; [exact Hn |]. split; [exact Hreq |]. split; [exact Hall |].
    split.
    + intros H0. assert (1 <= n)%nat by (apply Hsome; discriminate). lia.
    + intros H. apply orb_true_iff in H. congruence.
Qed.

(** X25. The script shows a token of at most eight characters in full:
    what it prints for the token starts with the whole token, and for a
    token of at most four characters it is the token, three dots and the
    token again. *)
Theorem short_token_is_shown_in_full (api_token : string) :
  (String.length api_token <= 8)%nat ->
  prefix api_token (TestConnection.shown_token api_token) = true /\
  ((String.length api_token <= 4)%nat ->
   TestConnection.shown_token api_token = api_token ++ "..." ++ api_token).
Proof.
  intros H. unfold TestConnection.shown_token.
  rewrite ConnectionFacts.slice_to_short by lia.
  split; [apply prefix_app |].
  intros H4. now rewrite ConnectionFacts.slice_from_short by lia.
Qed.

Lemma short_token_is_shown_in_full_witness :
  (String.length "abc" <= 8)%nat /\
  prefix "abc" (TestConnection.shown_token "abc") = true /\
  ((String.length "abc" <= 4)%nat ->
   TestConnection.shown_token "abc" = "abc" ++ "..." ++ "abc").
Proof.
  assert (H : (String.length "abc" <= 8)%nat) by (simpl; lia).
  split; [exact H |].
  exact (short_token_is_shown_in_full "abc" H).
Defined.

(** X26. The client of the process is built once: after a first call
    of [get_client], every later call returns the client of the first
    call and leaves the global as it is, whatever the environment has
    become. A call that finds no client builds one from the environment
    of that moment, with the local URL and the empty token as defaults,
    and never fails for a missing variable. *)
Theorem get_client_reads_environment_once (environ later : Environ)
    (kimai_client : option KimaiClient.t) :
  get_client later (snd (get_client environ kimai_client))
  = get_client environ kimai_client /\
  snd (get_client environ kimai_client) = Some (fst (get_client environ kimai_client)) /\
  fst (get_client environ None)
  = KimaiClient.init
      {| KimaiConfig.base_url :=
           environ_get environ "KIMAI_BASE_URL" "http://localhost:8001";
         KimaiConfig.api_token := environ_get environ "KIMAI_API_TOKEN" EmptyString |}.
Proof.
  destruct kimai_client as [client |]; repeat split.
Qed.

(* ================================================================== *)
(** * The order of the groups in the two renderings *)
(* ================================================================== *)

Module OrderFacts.
Import Summary SummaryFacts.

Lemma mapM_Forall2 {A B : Type} (f : A -> result B) (l : list A) (l' : list B) :
  mapM f l = Ok l' -> Forall2 (fun x y => f x = Ok y) l l'.
Proof.
  revert l'. induction l as [| x l IH]; intros l'; cbn [mapM]; intros H.
  - inversion H. constructor.
  - apply bind_ok in H. destruct H as [y [Hy H]].
    apply bind_ok in H. destruct H as [ys [Hys H]].
    inversion H. constructor; [exact Hy | now apply IH].
Qed.

Lemma Forall2_impl {A B : Type} (P Q : A -> B -> Prop) (l : list A) (l' : list B) :
  (forall x y, P x y -> Q x y) -> Forall2 P l l' -> Forall2 Q l l'.
Proof. intros HPQ. induction 1; constructor; auto. Qed.

(** The line of a group, written out. *)
Lemma group_line_text (label : string) (item : option Z * Group.t) (line : string) :
  group_line label item = Ok line ->
  exists hours,
    PyFloat.int_truediv (seconds item) 3600 = Ok hours /\
    line = "- " ++ label ++ " #" ++ key_str (fst item) ++ ": "
           ++ PyFloat.format_f 2 hours ++ " hours ("
           ++ str_of_Z (Group.count (snd item)) ++ " entries)".
Proof.
  unfold group_line, seconds. intros H.
  apply bind_ok in H. destruct H as [hours [Hh H]].
  inversion H. eauto.
Qed.

(** The overview is eight lines and the heading of the projects. *)
Lemma overview_shape (timesheets : list Entry.t) (head : list string) :
  overview timesheets = Ok head ->
  exists front, List.length front = 8%nat /\ head = (front ++ ["## By Project"])%list.
Proof.
  unfold overview. intros H.
  repeat (apply bind_ok in H; let a := fresh "a" in destruct H as [a [_ H]]).
  inversion H. eexists [_; _; _; _; _; _; _; _]. split; reflexivity.
Qed.

Lemma dict_mem_absent (key : string) (acc : list (string * Payload.group)) :
  ~ In key (map fst acc) -> dict_mem String.eqb key acc = false.
Proof.
  intros H. rewrite dict_mem_keys.
  destruct (existsb (fun k' => String.eqb k' key) (map fst acc)) eqn:E;
    [| reflexivity].
  apply existsb_exists in E. destruct E as [k' [Hin Heq]].
  apply String.eqb_eq in Heq. now subst.
Qed.

(** The comprehension keeps the order of the grouping. *)
Lemma hours_by_key_keys (items : list (option Z * Group.t))
    (acc res : list (string * Payload.group)) :
  NoDup (map fst items) ->
  (forall k, In k (map fst items) -> ~ In (key_str k) (map fst acc)) ->
  hours_by_key items acc = Ok res ->
  map fst res = (map fst acc ++ map key_str (map fst items))%list.
Proof.
  revert acc. induction items as [| [k v] rest IH]; intros acc Hnd Hfresh Hres.
  - cbn in Hres. inversion Hres. cbn. now rewrite app_nil_r.
  - cbn [hours_by_key] in Hres. cbn [map fst] in Hnd, Hfresh |- *.
    inversion Hnd as [| ? ? Hnotin Hnd']; subst.
    apply bind_ok in Hres. destruct Hres as [h [_ Hres]].
    apply bind_ok in Hres. destruct Hres as [r [_ Hres]].
    rewrite (dict_set_new String.eqb) in Hres
      by (apply dict_mem_absent, Hfresh; now left).
    apply IH in Hres; [| exact Hnd' |].
    + rewrite Hres, map_app, <- app_assoc. reflexivity.
    + intros k' Hin. rewrite map_app, in_app_iff. cbn [map fst In].
      intros [Hacc | [Heq | []]].
      * apply (Hfresh k'); [now right | exact Hacc].
      * apply PayloadFacts.key_str_inj in Heq. subst k'. contradiction.
Qed.

End OrderFacts.

(** C9, as the code has it. The markdown report of the summary is its
    eight lines of overview, the heading of the projects, one line per
    project group, an empty line, the heading of the activities and one
    line per activity group. Under either heading the lines come by
    decreasing summed seconds; groups of equal seconds keep the order in
    which the loop first met their keys; every group has its line, which
    names its key, its hours and its count. The JSON payload does not
    sort: each of its two mappings holds the groups in the order in
    which their keys were first met. *)
Theorem groups_listed_by_decreasing_seconds (timesheets : list Entry.t)
    (text : string) (payload : Payload.t) :
  summary_markdown timesheets = Ok text ->
  summary_json timesheets = Ok payload ->
  (exists (front : list string) (lines : grouping -> list string),
     List.length front = 8%nat /\
     text = join nl (front ++ ["## By Project"] ++ lines ByProject
                     ++ [EmptyString; "## By Activity"] ++ lines ByActivity)%list /\
     forall g,
       Forall2
         (fun item line =>
            exists hours,
              PyFloat.int_truediv (seconds item) 3600 = Ok hours /\
              line = "- " ++ label_of g ++ " #" ++ key_str (fst item) ++ ": "
                     ++ PyFloat.format_f 2 hours ++ " hours ("
                     ++ str_of_Z (Group.count (snd item)) ++ " entries)")
         (listed (grouped g timesheets)) (lines g)) /\
  (forall g,
     Permutation (grouped g timesheets) (listed (grouped g timesheets)) /\
     StronglySorted (descending seconds) (listed (grouped g timesheets)) /\
     (forall d, filter (has_key seconds d) (listed (grouped g timesheets))
                = filter (has_key seconds d) (grouped g timesheets)) /\
     map fst (grouped g timesheets) = first_seen (map (key_of g) timesheets) /\
     (forall k grp,
        In (k, grp) (listed (grouped g timesheets)) ->
        Group.duration grp
        = sum (map get_duration (entries_with (key_of g) k timesheets)))) /\
  (forall g,
     map fst (groups_of g payload)
     = map key_str (first_seen (map (key_of g) timesheets))).
Proof.
  intros Htext Hjson. split; [| split].
  - unfold summary_markdown, report in Htext.
    apply bind_ok in Htext. destruct Htext as [head [Hhead Htext]].
    apply bind_ok in Htext. destruct Htext as [plines [Hp Htext]].
    apply bind_ok in Htext. destruct Htext as [alines [Ha Htext]].
    inversion Htext as [Ht]. clear Htext Ht.
    apply OrderFacts.overview_shape in Hhead.
    destruct Hhead as [front [Hlen ->]].
    exists front, (fun g => match g with ByProject => plines | ByActivity => alines end).
    split; [exact Hlen |]. split; [now rewrite <- !app_assoc |].
    intros g.
    destruct g; cbn [grouped label_of];
      [ apply OrderFacts.mapM_Forall2 in Hp | apply OrderFacts.mapM_Forall2 in Ha ];
      (eapply OrderFacts.Forall2_impl; [| eassumption]);
      intros item line; apply OrderFacts.group_line_text.
  - intros g. unfold listed.
    split; [apply sorted_reverse_perm |].
    split; [apply sorted_reverse_descending |].
    split; [intros d; apply sorted_reverse_stable |].
    split; [apply grouped_keys |].
    intros k grp Hin.
    assert (Hin' : In (k, grp) (grouped g timesheets)).
    { eapply Permutation_in; [apply Permutation_sym, sorted_reverse_perm | exact Hin]. }
    assert (Hget : dict_get key_eqb k (grouped g timesheets) = Some grp).
    { apply (dict_get_In key_eqb key_eqb_eq); [| exact Hin'].
      rewrite grouped_keys. apply first_seen_NoDup. }
    rewrite grouped_get in Hget.
    destruct (entries_with (key_of g) k timesheets); [discriminate |].
    inversion Hget. reflexivity.
  - intros g. unfold summary_json in Hjson.
    repeat match type of Hjson with
    | bind ?c _ = Ok _ =>
        let E := fresh "E" in
        destruct c eqn:E; cbn [bind] in Hjson; [| discriminate]
    end.
    inversion Hjson as [Hp]. clear Hjson Hp.
    rewrite <- grouped_keys.
    destruct g; cbn [groups_of Payload.by_project Payload.by_activity grouped];
      match goal with
      | H : hours_by_key ?items [] = Ok ?res |- map fst ?res = _ =>
          apply OrderFacts.hours_by_key_keys in H;
          [ exact H | apply (PayloadFacts.grouped_NoDup ByProject)
                      || apply (PayloadFacts.grouped_NoDup ByActivity)
          | intros k _ [] ]
      end.
Qed.

Lemma groups_listed_by_decreasing_seconds_witness :
  summary_markdown Case.tied = Ok Case.tied_report /\
  exists payload,
    summary_json Case.tied = Ok payload /\
    (exists (front : list string) (lines : grouping -> list string),
       List.length front = 8%nat /\
       Case.tied_report
       = join nl (front ++ ["## By Project"] ++ lines ByProject
                  ++ [EmptyString; "## By Activity"] ++ lines ByActivity)%list /\
       forall g,
         Forall2
           (fun item line =>
              exists hours,
                PyFloat.int_truediv (seconds item) 3600 = Ok hours /\
                line = "- " ++ label_of g ++ " #" ++ key_str (fst item) ++ ": "
                       ++ PyFloat.format_f 2 hours ++ " hours ("
                       ++ str_of_Z (Group.count (snd item)) ++ " entries)")
           (listed (grouped g Case.tied)) (lines g)) /\
    (forall g,
       Permutation (grouped g Case.tied) (listed (grouped g Case.tied)) /\
       StronglySorted (descending seconds) (listed (grouped g Case.tied)) /\
       (forall d, filter (has_key seconds d) (listed (grouped g Case.tied))
                  = filter (has_key seconds d) (grouped g Case.tied)) /\
       map fst (grouped g Case.tied) = first_seen (map (key_of g) Case.tied) /\
       (forall k grp,
          In (k, grp) (listed (grouped g Case.tied)) ->
          Group.duration grp
          = sum (map get_duration (entries_with (key_of g) k Case.tied)))) /\
    (forall g,
       map fst (groups_of g payload)
       = map key_str (first_seen (map (key_of g) Case.tied))).
Proof.
  assert (Htext : summary_markdown Case.tied = Ok Case.tied_report)
    by (vm_compute; reflexivity).
  split; [exact Htext |].
  eexists. split; [vm_compute; reflexivity |].
  apply (groups_listed_by_decreasing_seconds Case.tied Case.tied_report _ Htext).
  vm_compute. reflexivity.
Defined.

(** C9, as the claim states it, fails for the JSON rendering: in the
    scenario of three entries project 1 has 5400 seconds and project 2
    has 7200, the markdown report lists project 2 first, and the
    mapping of the JSON payload holds project 1 first, as the loop met
    it. *)
Lemma json_groups_keep_first_seen_order :
  map (fun item => (key_str (fst item), seconds item)) (by_project Sample.scenario)
  = [("1", 5400); ("2", 7200)] /\
  map (fun item => key_str (fst item)) (listed (by_project Sample.scenario))
  = ["2"; "1"] /\
  match summary_json Sample.scenario with
  | Ok payload => map fst (Payload.by_project payload)
  | Raise _ => []
  end = ["1"; "2"].
Proof. repeat split; vm_compute; reflexivity. Qed.
